(** * FEC contribution monitor: a shallow embedding of [fec_monitor.py]

    The development follows the source file top to bottom:

    - the values the program handles (exceptions, decoded JSON, [datetime]);
    - the library operations it calls ([strptime], [strftime], [float],
      subscripting, truth testing), at the level of detail the program
      observes;
    - the world it talks to (clock, environment, secret store, HTTP API,
      SMTP relay) as oracles over the history of the run;
    - [get_fec_contributions], [format_email_body], [send_email] and
      [monitor_contributions], written in a state-and-exception monad;
    - the properties of the pipeline.

    Strings are [string]s of 8-bit characters: text outside Latin-1 is not
    represented, so the only decimal digits are the ASCII ones. *)

From Stdlib Require Import ZArith List String Ascii Bool Lia SpecFloat.
Import ListNotations.
Open Scope string_scope.
Open Scope Z_scope.

(** ** Exceptions *)

(** The subclasses of [requests.exceptions.RequestException] the fetcher can
    meet. [JSONDecodeError] is the one [Response.json] raises (it derives from
    [InvalidJSONError], a [RequestException], since requests 2.27). *)
Inductive request_error : Type :=
| ConnectionError
| ReadTimeout
| HTTPError
| JSONDecodeError
| OtherRequestError.

(** Every exception of the model is an instance of Python's [Exception].
    [ExternalError] stands for whatever a collaborator (secret store, SMTP
    library, HTTP library outside its own hierarchy) raises. *)
Inductive exn : Type :=
| KeyError (key : string)
| TypeError
| ValueError
| OverflowError
| RequestException (sub : request_error) (detail : string)
| ExternalError (class_name detail : string).

(** [isinstance(e, requests.exceptions.RequestException)] *)
Definition is_RequestException (e : exn) : bool :=
  match e with
  | RequestException _ _ => true
  | _ => false
  end.

(** [isinstance(e, Exception)] *)
Definition is_Exception (e : exn) : bool := true.

(** ** Pure computations that may raise *)

Inductive result (A : Type) : Type :=
| Ok (a : A)
| Raise (e : exn).
Arguments Ok {A} a.
Arguments Raise {A} e.

Definition rbind {A B : Type} (r : result A) (k : A -> result B) : result B :=
  match r with
  | Ok a => k a
  | Raise e => Raise e
  end.

Declare Scope result_scope.
Delimit Scope result_scope with result.
Notation "x <- c ;; k" := (rbind c (fun x => k))
  (at level 61, c at next level, right associativity) : result_scope.
Open Scope result_scope.

(** ** Decoded JSON: the Python objects [Response.json] hands back *)

Definition pyfloat : Type := spec_float.

Set Warnings "-register-all".

(** [PDict] lists the items of a [dict] in insertion order; its keys are
    strings (JSON object names) and pairwise distinct. *)
Inductive pyval : Type :=
| PNone
| PBool (b : bool)
| PInt (n : Z)
| PFloat (f : pyfloat)
| PStr (s : string)
| PList (elems : list pyval)
| PDict (items : list (string * pyval)).

Fixpoint assoc {V : Type} (k : string) (items : list (string * V)) : option V :=
  match items with
  | [] => None
  | (k', v) :: rest => if String.eqb k k' then Some v else assoc k rest
  end.

(** [obj[key]] for a string key: a [dict] looks the key up, every other JSON
    value refuses a string subscript. *)
Definition getitem (obj : pyval) (key : string) : result pyval :=
  match obj with
  | PDict items =>
      match assoc key items with
      | Some v => Ok v
      | None => Raise (KeyError key)
      end
  | _ => Raise TypeError
  end.

Fixpoint chars (s : string) : list pyval :=
  match s with
  | EmptyString => []
  | String c rest => PStr (String c EmptyString) :: chars rest
  end.

(** The sequence a [for] loop draws from a JSON value: the elements of a
    list, the keys of a dict, the characters of a string. *)
Definition py_iter (obj : pyval) : result (list pyval) :=
  match obj with
  | PList elems => Ok elems
  | PDict items => Ok (map (fun kv => PStr (fst kv)) items)
  | PStr s => Ok (chars s)
  | _ => Raise TypeError
  end.

Definition float_is_zero (f : pyfloat) : bool :=
  match f with
  | S754_zero _ => true
  | _ => false
  end.

(** Truth value testing, [bool(v)]. *)
Definition truthy (v : pyval) : bool :=
  match v with
  | PNone => false
  | PBool b => b
  | PInt n => negb (n =? 0)
  | PFloat f => negb (float_is_zero f)
  | PStr s => negb (String.eqb s "")
  | PList elems => match elems with [] => false | _ => true end
  | PDict items => match items with [] => false | _ => true end
  end.

(** [a or b] *)
Definition py_or (a b : pyval) : pyval := if truthy a then a else b.

(** [float(n)] for an [int]: round to nearest even to binary64, and
    [OverflowError] when the integer is too large. *)
Definition float_of_int (n : Z) : result pyfloat :=
  match binary_normalize 53 1024 n 0 false with
  | S754_infinity _ => Raise OverflowError
  | f => Ok f
  end.

(** ** Calendar arithmetic, after [datetime.py] *)

Record datetime : Type := mkdatetime {
  year : Z;
  month : Z;
  day : Z;
  hour : Z;
  minute : Z;
  second : Z;
  microsecond : Z
}.

Definition MINYEAR : Z := 1.
Definition MAXYEAR : Z := 9999.
Definition MAXORDINAL : Z := 3652059.

Definition is_leap (y : Z) : bool :=
  (y mod 4 =? 0) && (negb (y mod 100 =? 0) || (y mod 400 =? 0)).

Definition days_before_year (y : Z) : Z :=
  let y := y - 1 in y * 365 + y / 4 - y / 100 + y / 400.

Definition DAYS_IN_MONTH : list Z :=
  [-1; 31; 28; 31; 30; 31; 30; 31; 31; 30; 31; 30; 31].

Definition DAYS_BEFORE_MONTH : list Z :=
  [-1; 0; 31; 59; 90; 120; 151; 181; 212; 243; 273; 304; 334].

Definition table (t : list Z) (i : Z) : Z := nth (Z.to_nat i) t 0.

Definition days_in_month (y m : Z) : Z :=
  if (m =? 2) && is_leap y then 29 else table DAYS_IN_MONTH m.

Definition days_before_month (y m : Z) : Z :=
  table DAYS_BEFORE_MONTH m + Z.b2z ((2 <? m) && is_leap y).

Definition ymd2ord (y m d : Z) : Z :=
  days_before_year y + days_before_month y m + d.

Definition DI400Y : Z := days_before_year 401.
Definition DI100Y : Z := days_before_year 101.
Definition DI4Y : Z := days_before_year 5.

Definition ord2ymd (n : Z) : Z * Z * Z :=
  let n := n - 1 in
  let n400 := n / DI400Y in
  let n := n mod DI400Y in
  let y := n400 * 400 + 1 in
  let n100 := n / DI100Y in
  let n := n mod DI100Y in
  let n4 := n / DI4Y in
  let n := n mod DI4Y in
  let n1 := n / 365 in
  let n := n mod 365 in
  let y := y + n100 * 100 + n4 * 4 + n1 in
  if (n1 =? 4) || (n100 =? 4) then (y - 1, 12, 31)
  else
    let leapyear := (n1 =? 3) && (negb (n4 =? 24) || (n100 =? 3)) in
    let m := Z.shiftr (n + 50) 5 in
    let preceding := table DAYS_BEFORE_MONTH m + Z.b2z ((2 <? m) && leapyear) in
    let '(m, preceding) :=
      if n <? preceding
      then (m - 1, preceding - (table DAYS_IN_MONTH (m - 1) + Z.b2z ((m - 1 =? 2) && leapyear)))
      else (m, preceding) in
    (y, m, n - preceding + 1).

Definition between (lo x hi : Z) : bool := (lo <=? x) && (x <=? hi).

(** The field checks of the [datetime] constructor. *)
Definition valid_date (y m d : Z) : bool :=
  between MINYEAR y MAXYEAR && between 1 m 12 && between 1 d (days_in_month y m).

Definition valid_time (H M S us : Z) : bool :=
  between 0 H 23 && between 0 M 59 && between 0 S 59 && between 0 us 999999.

Definition valid_datetime (t : datetime) : bool :=
  valid_date (year t) (month t) (day t)
  && valid_time (hour t) (minute t) (second t) (microsecond t).

(** [datetime(y, m, d, H, M, S, us)] *)
Definition datetime_new (y m d H M S us : Z) : result datetime :=
  if valid_date y m d && valid_time H M S us
  then Ok (mkdatetime y m d H M S us)
  else Raise ValueError.

Definition toordinal (t : datetime) : Z := ymd2ord (year t) (month t) (day t).

(** [t - timedelta(days=n)]: the calendar day moves, the time of day stays.
    [timedelta] refuses more than 999999999 days, and the difference must be
    a date of years 1 to 9999. *)
Definition sub_days (t : datetime) (n : Z) : result datetime :=
  if 999999999 <? Z.abs n then Raise OverflowError
  else
    let o := toordinal t - n in
    if (0 <? o) && (o <=? MAXORDINAL)
    then
      let '(y, m, d) := ord2ymd o in
      Ok (mkdatetime y m d (hour t) (minute t) (second t) (microsecond t))
    else Raise OverflowError.

Definition dt_fields (t : datetime) : list Z :=
  [year t; month t; day t; hour t; minute t; second t; microsecond t].

Fixpoint lex_compare (a b : list Z) : comparison :=
  match a, b with
  | x :: a', y :: b' =>
      match x ?= y with
      | Eq => lex_compare a' b'
      | c => c
      end
  | [], [] => Eq
  | [], _ :: _ => Lt
  | _ :: _, [] => Gt
  end.

(** Naive datetimes compare field by field, most significant first. *)
Definition dt_compare (a b : datetime) : comparison :=
  lex_compare (dt_fields a) (dt_fields b).

(** [a > b] *)
Definition dt_gt (a b : datetime) : bool :=
  match dt_compare a b with
  | Gt => true
  | _ => false
  end.

(** ** [datetime.strptime], after [_strptime.py]

    A format is compiled to a regular expression with one named group per
    directive; the expression is matched at the start of the text, ignoring
    case, by a backtracking matcher that tries alternatives from left to
    right; the whole text must be consumed; the captured digits are then
    handed to the [datetime] constructor. *)

Inductive regex : Type :=
| Range (lo hi : ascii)
| Lit (c : ascii)
| Cat (r1 r2 : regex)
| Alt (r1 r2 : regex).

Definition in_range (lo c hi : ascii) : bool :=
  (nat_of_ascii lo <=? nat_of_ascii c)%nat && (nat_of_ascii c <=? nat_of_ascii hi)%nat.

Definition lower (c : ascii) : ascii :=
  if in_range "A" c "Z" then ascii_of_nat (nat_of_ascii c + 32) else c.

(** All the ways [r] matches a prefix of [s], best first: the matched text
    and what follows it. *)
Fixpoint rmatch (r : regex) (s : string) : list (string * string) :=
  match r with
  | Range lo hi =>
      match s with
      | String c rest => if in_range lo c hi then [(String c "", rest)] else []
      | EmptyString => []
      end
  | Lit l =>
      match s with
      | String c rest => if Ascii.eqb (lower c) (lower l) then [(String c "", rest)] else []
      | EmptyString => []
      end
  | Cat r1 r2 =>
      flat_map (fun m1 => map (fun m2 => (fst m1 ++ fst m2, snd m2)) (rmatch r2 (snd m1)))
               (rmatch r1 s)
  | Alt r1 r2 => rmatch r1 s ++ rmatch r2 s
  end.

Definition digit : regex := Range "0" "9".

(** The directives the program uses, with the expressions [_strptime.TimeRE]
    gives them. *)
Definition directive_regex (d : ascii) : option regex :=
  if Ascii.eqb d "Y" then Some (Cat digit (Cat digit (Cat digit digit)))
  else if Ascii.eqb d "m" then
    Some (Alt (Cat (Lit "1") (Range "0" "2"))
         (Alt (Cat (Lit "0") (Range "1" "9")) (Range "1" "9")))
  else if Ascii.eqb d "d" then
    Some (Alt (Cat (Lit "3") (Range "0" "1"))
         (Alt (Cat (Range "1" "2") digit)
         (Alt (Cat (Lit "0") (Range "1" "9"))
         (Alt (Range "1" "9") (Cat (Lit " ") (Range "1" "9"))))))
  else if Ascii.eqb d "H" then
    Some (Alt (Cat (Lit "2") (Range "0" "3"))
         (Alt (Cat (Range "0" "1") digit) digit))
  else if Ascii.eqb d "M" then
    Some (Alt (Cat (Range "0" "5") digit) digit)
  else if Ascii.eqb d "S" then
    Some (Alt (Cat (Lit "6") (Range "0" "1"))
         (Alt (Cat (Range "0" "5") digit) digit))
  else None.

Inductive pattern_item : Type :=
| Group (name : ascii) (r : regex)
| Literal (c : ascii).

(** [TimeRE.pattern]: [None] for a directive outside the table or a stray
    percent sign. The formats of this program hold no blank and no
    character that is special in a regular expression. *)
Fixpoint compile_format (format : string) : option (list pattern_item) :=
  match format with
  | EmptyString => Some []
  | String c rest =>
      if Ascii.eqb c "%" then
        match rest with
        | String d rest' =>
            match directive_regex d, compile_format rest' with
            | Some r, Some items => Some (Group d r :: items)
            | _, _ => None
            end
        | EmptyString => None
        end
      else
        match compile_format rest with
        | Some items => Some (Literal c :: items)
        | None => None
        end
  end.

Definition captures : Type := list (ascii * string).

Fixpoint match_items (items : list pattern_item) (s : string) : list (captures * string) :=
  match items with
  | [] => [([], s)]
  | Group g r :: rest =>
      flat_map (fun m => map (fun cs => ((g, fst m) :: fst cs, snd cs)) (match_items rest (snd m)))
               (rmatch r s)
  | Literal c :: rest =>
      flat_map (fun m => match_items rest (snd m)) (rmatch (Lit c) s)
  end.

(** [int] of a captured group: ASCII digits, after an optional blank. *)
Fixpoint int_of_text (acc : Z) (s : string) : Z :=
  match s with
  | EmptyString => acc
  | String c rest =>
      if in_range "0" c "9"
      then int_of_text (10 * acc + Z.of_nat (nat_of_ascii c - 48)) rest
      else int_of_text acc rest
  end.

Fixpoint capture (g : ascii) (cs : captures) : option string :=
  match cs with
  | [] => None
  | (g', m) :: rest => if Ascii.eqb g g' then Some m else capture g rest
  end.

Definition field (cs : captures) (g : ascii) (default : Z) : Z :=
  match capture g cs with
  | Some m => int_of_text 0 m
  | None => default
  end.

(** [datetime.strptime(data, format)]: [TypeError] unless [data] is a
    string, [ValueError] when it does not match, when text is left over, or
    when the fields are not a date and time. *)
Definition strptime (data : pyval) (format : string) : result datetime :=
  match data with
  | PStr s =>
      match compile_format format with
      | None => Raise ValueError
      | Some items =>
          match match_items items s with
          | (cs, EmptyString) :: _ =>
              datetime_new (field cs "Y" 1900) (field cs "m" 1) (field cs "d" 1)
                           (field cs "H" 0) (field cs "M" 0) (field cs "S" 0) 0
          | _ => Raise ValueError
          end
      end
  | _ => Raise TypeError
  end.

(** ** [datetime.strftime] *)

Definition digit_char (n : Z) : ascii := ascii_of_nat (48 + Z.to_nat (n mod 10)).

Definition pad2 (n : Z) : string :=
  String (digit_char (n / 10)) (String (digit_char n) "").

(** Years print on four digits (from year 1000 on every C library agrees;
    below it the model pads with zeros, as the documentation has it). *)
Definition pad4 (n : Z) : string :=
  String (digit_char (n / 1000)) (String (digit_char (n / 100)) (pad2 n)).

Definition strftime_directive (d : ascii) (t : datetime) : string :=
  if Ascii.eqb d "Y" then pad4 (year t)
  else if Ascii.eqb d "m" then pad2 (month t)
  else if Ascii.eqb d "d" then pad2 (day t)
  else if Ascii.eqb d "H" then pad2 (hour t)
  else if Ascii.eqb d "M" then pad2 (minute t)
  else if Ascii.eqb d "S" then pad2 (second t)
  else String "%" (String d "").

Fixpoint strftime_from (format : string) (t : datetime) : string :=
  match format with
  | EmptyString => ""
  | String c rest =>
      if Ascii.eqb c "%" then
        match rest with
        | String d rest' => strftime_directive d t ++ strftime_from rest' t
        | EmptyString => "%"
        end
      else String c (strftime_from rest t)
  end.

(** [t.strftime(format)] *)
Definition strftime (t : datetime) (format : string) : string := strftime_from format t.

(** ** Text conversions of the Python runtime

    The program calls a handful of built-in conversions between values and
    text whose full behaviour (signs, exponents, grouping, quoting) it never
    inspects. They are taken as an interface; everything below holds for
    every implementation of it. *)
Class Runtime : Type := {
  (** [float(s)] for a string; [None] when it raises [ValueError] *)
  float_of_str : string -> option pyfloat;
  (** [int(s)] for a string; [None] when it raises [ValueError] *)
  int_of_str : string -> option Z;
  (** [format(x, ',.2f')] *)
  format_amount : pyfloat -> string;
  (** [str(v)] for numbers, lists and dicts *)
  repr : pyval -> string;
  (** [str(e)] *)
  str_exn : exn -> string
}.

(** ** The data model of the program *)

Module Contributor.
Record t : Type := mk {
  name : string;
  employer : option string
}.
End Contributor.

Module Contribution.
Record t : Type := mk {
  date : datetime;
  amount : pyfloat;
  contributor_name : pyval;
  employer : pyval;
  committee_name : pyval;
  load_date : datetime
}.
End Contribution.

(** A [dict] keyed by strings, items in insertion order. *)
Definition dict (V : Type) : Type := list (string * V).

(** [d[k] = v]: an existing key keeps its place, a new one goes last. *)
Fixpoint dict_set {V : Type} (k : string) (v : V) (d : dict V) : dict V :=
  match d with
  | [] => [(k, v)]
  | (k', v') :: rest =>
      if String.eqb k k' then (k, v) :: rest else (k', v') :: dict_set k v rest
  end.

Definition keys {V : Type} (d : dict V) : list string := map fst d.
Definition values {V : Type} (d : dict V) : list V := map snd d.

(** ** The world outside the process *)

Record Response : Type := mkResponse {
  status_code : Z;
  (** the body decoded as JSON, [None] when it is not JSON *)
  json_body : option pyval
}.

Record smtp_config : Type := mk_smtp_config {
  server : string;
  port : Z;
  username : option string;
  password : string;
  from_email : option string
}.

Record message : Type := mk_message {
  msg_subject : string;
  msg_from : option string;
  msg_to : string;
  msg_html : string
}.

Definition params : Type := list (string * pyval).

(** What the process did so far, oldest first. *)
Inductive event : Type :=
| Clock (t : datetime)
| SecretAccess (resource : string)
| HttpGet (url : string) (query : params)
| Printed (line : string)
| SmtpSession (cfg : smtp_config) (msg : message) (delivered : bool).

Definition history : Type := list event.

(** The collaborators answer as a function of the history, so that the API
    may answer two equal requests differently. *)
Record World : Type := mkWorld {
  environ : string -> option string;
  clock : history -> datetime;
  secret_client : history -> option exn;
  access_secret_version : history -> string -> result string;
  requests_get : history -> string -> params -> result Response;
  smtp_session : history -> smtp_config -> message -> option exn
}.

(** ** Computations with effects: a history is threaded through, and kept
    when an exception is raised *)

Definition M (A : Type) : Type := history -> result A * history.

Definition ret {A : Type} (a : A) : M A := fun h => (Ok a, h).

Definition raise {A : Type} (e : exn) : M A := fun h => (Raise e, h).

Definition bind {A B : Type} (c : M A) (k : A -> M B) : M B :=
  fun h =>
    match c h with
    | (Ok a, h') => k a h'
    | (Raise e, h') => (Raise e, h')
    end.

Definition lift {A : Type} (r : result A) : M A := fun h => (r, h).

(** [try: c except E as e: handler], [catches] deciding [isinstance(e, E)] *)
Definition try_except {A : Type} (c : M A) (catches : exn -> bool) (handler : exn -> M A) : M A :=
  fun h =>
    match c h with
    | (Ok a, h') => (Ok a, h')
    | (Raise e, h') => if catches e then handler e h' else (Raise e, h')
    end.

Declare Scope io_scope.
Delimit Scope io_scope with io.
Bind Scope io_scope with M.
Notation "x <- c ;; k" := (bind c (fun x => k))
  (at level 61, c at next level, right associativity) : io_scope.

Definition print (line : string) : M unit := fun h => (Ok tt, (h ++ [Printed line])%list).

(** [raise_for_status]: a 4xx or 5xx status raises [HTTPError]. *)
Definition raise_for_status (response : Response) : result unit :=
  if (400 <=? status_code response) && (status_code response <? 600)
  then Raise (RequestException HTTPError "")
  else Ok tt.

(** [response.json()] *)
Definition response_json (response : Response) : result pyval :=
  match json_body response with
  | Some data => Ok data
  | None => Raise (RequestException JSONDecodeError "")
  end.

(** The registry of [monitor_contributions]. *)
Definition contributors : list Contributor.t :=
  [ Contributor.mk "Sundar Pichai" (Some "Google");
    Contributor.mk "Kent Walker" (Some "Google");
    Contributor.mk "Thomas Kurian" (Some "Google");
    Contributor.mk "Jen Fitzpatrick" (Some "Google");
    Contributor.mk "Rick Osterloh" (Some "Google");
    Contributor.mk "Prabhakar Raghavan" (Some "Google");
    Contributor.mk "Lorraine Twohill" (Some "Google");
    Contributor.mk "Corey DuBrowa" (Some "Google");
    Contributor.mk "Neal Mohan" (Some "Google");
    Contributor.mk "Anat Ashkenazi" (Some "Google");
    Contributor.mk "Jeff Dean" (Some "Google");
    Contributor.mk "Ruth Porat" (Some "Google") ].

Definition base_url : string := "https://api.open.fec.gov/v1/schedules/schedule_a/".

Definition option_str (o : option string) : pyval :=
  match o with
  | Some s => PStr s
  | None => PNone
  end.

(** The [params] dict of [get_fec_contributions]. *)
Definition query_params (contributor : Contributor.t) (api_key : string)
    (contrib_start_date end_date : datetime) : params :=
  [ ("api_key", PStr api_key);
    ("contributor_name", PStr (Contributor.name contributor));
    ("contributor_employer", option_str (Contributor.employer contributor));
    ("min_date", PStr (strftime contrib_start_date "%m/%d/%Y"));
    ("max_date", PStr (strftime end_date "%m/%d/%Y"));
    ("sort", PStr "-contribution_receipt_date");
    ("per_page", PInt 100);
    ("is_individual", PBool true) ].

Definition nl : string := String (ascii_of_nat 10) "".
Definition sp16 : string := "                ".
Definition sp20 : string := "                    ".

Definition table_open : string :=
  "<table border='1' style='border-collapse: collapse; width: 100%;'>".
Definition table_header : string :=
  "<tr><th>Date</th><th>Amount</th><th>Committee</th><th>Employer</th></tr>".

Section Program.

Context {rt : Runtime}.
Variable w : World.

(** [float(v)] *)
Definition py_float (v : pyval) : result pyfloat :=
  match v with
  | PFloat f => Ok f
  | PInt n => float_of_int n
  | PBool b => float_of_int (Z.b2z b)
  | PStr s =>
      match float_of_str s with
      | Some f => Ok f
      | None => Raise ValueError
      end
  | _ => Raise TypeError
  end.

(** [str(v)], which is what an f-string field with no format shows. *)
Definition py_str (v : pyval) : string :=
  match v with
  | PStr s => s
  | PNone => "None"
  | PBool true => "True"
  | PBool false => "False"
  | _ => repr v
  end.

(** [datetime.now()] *)
Definition now : M datetime :=
  fun h => let t := clock w h in (Ok t, (h ++ [Clock t])%list).

(** [os.environ[key]] *)
Definition environ_item (key : string) : M string :=
  lift (match environ w key with
        | Some v => Ok v
        | None => Raise (KeyError key)
        end).

(** [os.environ.get(key, default)] *)
Definition environ_get (key default : string) : string :=
  match environ w key with
  | Some v => v
  | None => default
  end.

Definition client_new : M unit :=
  fun h =>
    match secret_client w h with
    | Some e => (Raise e, h)
    | None => (Ok tt, h)
    end.

Definition client_access (resource : string) : M string :=
  fun h => (access_secret_version w h resource, (h ++ [SecretAccess resource])%list).

Definition get_secret (secret_id : string) : M string :=
  (_ <- client_new ;;
   project_id <- environ_item "PROJECT_ID" ;;
   let name := "projects/" ++ project_id ++ "/secrets/" ++ secret_id ++ "/versions/latest" in
   client_access name)%io.

(** [requests.get(url, params=query)] *)
Definition http_get (url : string) (query : params) : M Response :=
  fun h => (requests_get w h url query, (h ++ [HttpGet url query])%list).

(** [datetime.strptime(result['load_date'], '%Y-%m-%dT%H:%M:%S')], [raw]
    being the source's [result]. *)
Definition parse_load_date (raw : pyval) : result datetime :=
  raw_load <- getitem raw "load_date" ;;
  strptime raw_load "%Y-%m-%dT%H:%M:%S".

(** The [Contribution(...)] expression, arguments evaluated in order. *)
Definition build_contribution (raw : pyval) (load_date : datetime)
    : result Contribution.t :=
  raw_date <- getitem raw "contribution_receipt_date" ;;
  date <- strptime raw_date "%Y-%m-%d" ;;
  raw_amount <- getitem raw "contribution_receipt_amount" ;;
  amount <- py_float raw_amount ;;
  contributor_name <- getitem raw "contributor_name" ;;
  raw_employer <- getitem raw "contributor_employer" ;;
  committee <- getitem raw "committee" ;;
  committee_name <- getitem committee "name" ;;
  Ok (Contribution.mk date amount contributor_name
        (py_or raw_employer (PStr "Not reported"))
        committee_name load_date).

(** The body of the loop over [data['results']]: [None] when the record is
    skipped. *)
Definition process_result (min_load_date : datetime) (raw : pyval)
    : result (option Contribution.t) :=
  load_date <- parse_load_date raw ;;
  if dt_gt load_date min_load_date then
    contribution <- build_contribution raw load_date ;;
    Ok (Some contribution)
  else Ok None.

Fixpoint collect (min_load_date : datetime) (results : list pyval)
    (contributions : list Contribution.t) : result (list Contribution.t) :=
  match results with
  | [] => Ok contributions
  | raw :: rest =>
      kept <- process_result min_load_date raw ;;
      collect min_load_date rest
        (match kept with
         | Some contribution => (contributions ++ [contribution])%list
         | None => contributions
         end)
  end.

(** The raw results of a response: status check, JSON decoding,
    [data['results']], and the sequence the loop runs over. *)
Definition raw_results (response : Response) : result (list pyval) :=
  _ <- raise_for_status response ;;
  data <- response_json response ;;
  results <- getitem data "results" ;;
  py_iter results.

(** What the [try] block does with the response once it has arrived. *)
Definition read_contributions (min_load_date : datetime) (response : Response)
    : result (list Contribution.t) :=
  items <- raw_results response ;;
  collect min_load_date items [].

Definition get_fec_contributions (contributor : Contributor.t) (api_key : string)
    (days_back_load days_back_contrib : Z) : M (list Contribution.t) :=
  (end_date <- now ;;
   contrib_start_date <- lift (sub_days end_date days_back_contrib) ;;
   min_load_date <- lift (sub_days end_date days_back_load) ;;
   let query := query_params contributor api_key contrib_start_date end_date in
   try_except
     (response <- http_get base_url query ;;
      lift (read_contributions min_load_date response))
     is_RequestException
     (fun e =>
        _ <- print ("Error fetching FEC data for " ++ Contributor.name contributor
                    ++ ": " ++ str_exn e) ;;
        ret []))%io.

Definition default_days_back_load : Z := 14.
Definition default_days_back_contrib : Z := 180.

(** One row of a contributor's table. *)
Definition render_row (contribution : Contribution.t) : string :=
  nl ++ sp16 ++ "<tr>" ++ nl
  ++ sp20 ++ "<td>" ++ strftime (Contribution.date contribution) "%Y-%m-%d" ++ "</td>" ++ nl
  ++ sp20 ++ "<td>$" ++ format_amount (Contribution.amount contribution) ++ "</td>" ++ nl
  ++ sp20 ++ "<td>" ++ py_str (Contribution.committee_name contribution) ++ "</td>" ++ nl
  ++ sp20 ++ "<td>" ++ py_str (Contribution.employer contribution) ++ "</td>" ++ nl
  ++ sp20 ++ "<td>" ++ strftime (Contribution.load_date contribution) "%Y-%m-%d %H:%M:%S"
  ++ "</td>" ++ nl
  ++ sp16 ++ "</tr>" ++ nl
  ++ sp16.

(** One turn of the loop over the items of the mapping. *)
Definition append_group (html : string) (item : string * list Contribution.t) : string :=
  let '(contributor, contributions) := item in
  match contributions with
  | _ :: _ =>
      let html := html ++ "<h3>Contributions from " ++ contributor ++ "</h3>" in
      let html := html ++ table_open in
      let html := html ++ table_header in
      let html := fold_left (fun html contribution => html ++ render_row contribution)
                            contributions html in
      html ++ "</table><br>"
  | [] => html ++ "<p>No recent contributions found for " ++ contributor ++ "</p><br>"
  end.

Definition format_email_body (contributions_by_contributor : dict (list Contribution.t))
    : string :=
  let html := "<html><body>" in
  let html := html ++ "<h2>FEC Contribution Alert</h2>" in
  let html := fold_left append_group contributions_by_contributor html in
  html ++ "</body></html>".

(** The SMTP conversation of [send_email]: connect, STARTTLS, log in, send. *)
Definition smtp_send (cfg : smtp_config) (msg : message) : M unit :=
  fun h =>
    match smtp_session w h cfg msg with
    | None => (Ok tt, (h ++ [SmtpSession cfg msg true])%list)
    | Some e => (Raise e, (h ++ [SmtpSession cfg msg false])%list)
    end.

Definition send_email (to_email subject html_content : string) (cfg : smtp_config)
    : M unit :=
  let msg := mk_message subject (from_email cfg) to_email html_content in
  try_except
    (smtp_send cfg msg)
    is_Exception
    (fun e => (_ <- print ("Error sending email: " ++ str_exn e) ;; raise e)%io).

(** [int(s)] *)
Definition py_int (s : string) : result Z :=
  match int_of_str s with
  | Some n => Ok n
  | None => Raise ValueError
  end.

(** "Get configuration from environment variables and secrets": the
    recipient, the API key and the SMTP configuration. *)
Definition load_configuration : M (string * string * smtp_config) :=
  (project_id <- environ_item "PROJECT_ID" ;;
   notification_email <- environ_item "NOTIFICATION_EMAIL" ;;
   fec_api_key <- get_secret "fec-api-key" ;;
   smtp_password <- get_secret "smtp-password" ;;
   smtp_port <- lift (py_int (environ_get "SMTP_PORT" "587")) ;;
   let cfg := mk_smtp_config (environ_get "SMTP_SERVER" "smtp.gmail.com") smtp_port
                (environ w "SMTP_USERNAME") smtp_password (environ w "FROM_EMAIL") in
   ret (notification_email, fec_api_key, cfg))%io.

(** "Fetch contributions for each contributor" *)
Fixpoint fetch_all (registry : list Contributor.t) (fec_api_key : string)
    (contributions_by_contributor : dict (list Contribution.t))
    : M (dict (list Contribution.t)) :=
  match registry with
  | [] => ret contributions_by_contributor
  | contributor :: rest =>
      (contributions <- get_fec_contributions contributor fec_api_key
                          default_days_back_load default_days_back_contrib ;;
       fetch_all rest fec_api_key
         (dict_set (Contributor.name contributor) contributions
                   contributions_by_contributor))%io
  end.

(** [any(d.values())]: some list is not empty. *)
Definition any_values (d : dict (list Contribution.t)) : bool :=
  existsb (fun contributions => match contributions with [] => false | _ => true end)
          (values d).

(** "Format and send email if there are any contributions" *)
Definition notify_if_any (notification_email : string) (cfg : smtp_config)
    (contributions_by_contributor : dict (list Contribution.t)) : M (string * Z) :=
  if any_values contributions_by_contributor then
    (let html_content := format_email_body contributions_by_contributor in
     today <- now ;;
     let subject := "FEC Contribution Alert - " ++ strftime today "%Y-%m-%d" in
     _ <- send_email notification_email subject html_content cfg ;;
     ret ("Alert sent successfully", 200))%io
  else ret ("No new contributions found", 200).

(** Everything up to the decision: configuration, then one fetch per
    contributor. *)
Definition gather (registry : list Contributor.t)
    : M (string * smtp_config * dict (list Contribution.t)) :=
  (conf <- load_configuration ;;
   let '(notification_email, fec_api_key, cfg) := conf in
   d <- fetch_all registry fec_api_key [] ;;
   ret (notification_email, cfg, d))%io.

(** The entry point over a registry; the request is not looked at. *)
Definition monitor_contributions_on (registry : list Contributor.t) : M (string * Z) :=
  try_except
    (gathered <- gather registry ;;
     let '(notification_email, cfg, d) := gathered in
     notify_if_any notification_email cfg d)%io
    is_Exception
    (fun e =>
       (_ <- print ("Error in monitor_contributions: " ++ str_exn e) ;;
        ret ("Error: " ++ str_exn e, 500))%io).

Definition monitor_contributions : M (string * Z) :=
  monitor_contributions_on contributors.

End Program.

(** ** A runtime and some worlds to run the program on

    [ascii_runtime] implements the conversions on plain input: unsigned
    decimal numerals are read, amounts are rounded half-even to cents and
    grouped by thousands, integers print in decimal. *)

Fixpoint digits_value (acc : Z) (s : string) : option Z :=
  match s with
  | EmptyString => Some acc
  | String c rest =>
      if in_range "0" c "9"
      then digits_value (10 * acc + Z.of_nat (nat_of_ascii c - 48)) rest
      else None
  end.

Definition read_numeral (s : string) : option Z :=
  match s with
  | EmptyString => None
  | _ => digits_value 0 s
  end.

Fixpoint decimal_digits (fuel : nat) (n : Z) (acc : string) : string :=
  match fuel with
  | O => acc
  | S fuel' =>
      let acc := String (digit_char n) acc in
      if n <? 10 then acc else decimal_digits fuel' (n / 10) acc
  end.

(** The decimal numeral of a natural number. *)
Definition decimal (n : Z) : string := decimal_digits (S (Z.to_nat (Z.log2 n))) n "".

Fixpoint grouped_digits (fuel : nat) (n : Z) (acc : string) : string :=
  match fuel with
  | O => acc
  | S fuel' =>
      if n <? 1000 then decimal n ++ acc
      else grouped_digits fuel' (n / 1000)
             ("," ++ String (digit_char (n / 100)) (pad2 n) ++ acc)
  end.

(** The decimal numeral with a comma between groups of three digits. *)
Definition grouped (n : Z) : string := grouped_digits (S (Z.to_nat (Z.log2 n))) n "".

(** [|f| * 100] rounded half-even to an integer. *)
Definition cents (f : pyfloat) : Z :=
  match f with
  | S754_finite _ m e =>
      let n := Z.pos m * 100 in
      if 0 <=? e then n * 2 ^ e
      else
        let d := 2 ^ (- e) in
        let q := n / d in
        let r := n mod d in
        if 2 * r <? d then q
        else if d <? 2 * r then q + 1
        else if Z.even q then q else q + 1
  | _ => 0
  end.

Definition two_decimals (f : pyfloat) : string :=
  match f with
  | S754_nan => "nan"
  | S754_infinity s => if s then "-inf" else "inf"
  | S754_zero s | S754_finite s _ _ =>
      (if s then "-" else "") ++ grouped (cents f / 100) ++ "." ++ pad2 (cents f mod 100)
  end.

Definition ascii_runtime : Runtime := {|
  float_of_str := fun s =>
    match read_numeral s with
    | Some n => match float_of_int n with Ok f => Some f | Raise _ => None end
    | None => None
    end;
  int_of_str := read_numeral;
  format_amount := two_decimals;
  repr := fun v =>
    match v with
    | PInt n => (if n <? 0 then "-" else "") ++ decimal (Z.abs n)
    | PFloat f => two_decimals f
    | _ => "<object>"
    end;
  str_exn := fun e =>
    match e with
    | KeyError k => "'" ++ k ++ "'"
    | TypeError => "TypeError"
    | ValueError => "ValueError"
    | OverflowError => "OverflowError"
    | RequestException _ detail => detail
    | ExternalError _ detail => detail
    end
|}.

Definition sample_now : datetime := mkdatetime 2025 1 15 10 30 0 0.

Definition sample_environ (key : string) : option string :=
  assoc key [ ("PROJECT_ID", "watch"); ("NOTIFICATION_EMAIL", "desk@example.org");
              ("SMTP_USERNAME", "bot"); ("FROM_EMAIL", "bot@example.org") ].

(** A raw API result. *)
Definition raw_result (load receipt : string) (employer : pyval) : pyval :=
  PDict [ ("contribution_receipt_date", PStr receipt);
          ("contribution_receipt_amount", PFloat (S754_finite false 5497558138880000 (-42)));
          ("contributor_name", PStr "PICHAI, SUNDAR");
          ("contributor_employer", employer);
          ("committee", PDict [ ("name", PStr "GOOGLE LLC NETPAC") ]);
          ("load_date", PStr load) ].

Definition body_of (results : list pyval) : pyval :=
  PDict [ ("results", PList results) ].

(** Loaded yesterday, given five months ago. *)
Definition fresh_old : pyval := raw_result "2025-01-14T08:00:00" "2024-08-01" (PStr "GOOGLE").
(** Given last week, loaded twenty days ago. *)
Definition stale_recent : pyval := raw_result "2024-12-26T08:00:00" "2025-01-08" PNone.
(** Loaded two days ago, employer not reported. *)
Definition fresh_unreported : pyval := raw_result "2025-01-13T09:15:00" "2024-12-30" PNone.

Definition requested_name (query : params) : option pyval := assoc "contributor_name" query.

(** The API answers [answer name] to a request for [name]. *)
Definition api_of (answer : string -> result Response) : history -> string -> params -> result Response :=
  fun _ _ query =>
    match requested_name query with
    | Some (PStr n) => answer n
    | _ => Raise (RequestException OtherRequestError "no name")
    end.

Definition world_of (answer : string -> result Response) (relay : option exn) : World :=
  mkWorld sample_environ (fun _ => sample_now) (fun _ => None) (fun _ _ => Ok "secret")
          (api_of answer) (fun _ _ _ => relay).

Definition ok_response (results : list pyval) : result Response :=
  Ok (mkResponse 200 (Some (body_of results))).

(** One contributor has records, the others have none. *)
Definition one_hit (n : string) : result Response :=
  if String.eqb n "Sundar Pichai"
  then ok_response [fresh_old; stale_recent; fresh_unreported]
  else ok_response [].

(** Nothing new for anybody. *)
Definition no_hit (n : string) : result Response := ok_response [stale_recent].

(** The connection fails for one contributor. *)
Definition one_down (n : string) : result Response :=
  if String.eqb n "Kent Walker"
  then Raise (RequestException ConnectionError "connection refused")
  else one_hit n.

(** One record carries a date that is not one. *)
Definition one_malformed (n : string) : result Response :=
  ok_response [raw_result "yesterday" "2024-08-01" PNone].

Definition relay_down : option exn := Some (ExternalError "SMTPException" "relay refused").

(** ** Reading a history *)

Definition http_requests (h : history) : list (string * params) :=
  flat_map (fun ev => match ev with HttpGet url query => [(url, query)] | _ => [] end) h.

Definition smtp_sessions (h : history) : list (smtp_config * message * bool) :=
  flat_map (fun ev => match ev with SmtpSession cfg msg ok => [(cfg, msg, ok)] | _ => [] end) h.

Definition printed (h : history) : list string :=
  flat_map (fun ev => match ev with Printed line => [line] | _ => [] end) h.

(** The names asked of the API, in the order of the requests. *)
Definition requested_names (h : history) : list (option pyval) :=
  map (fun r => requested_name (snd r)) (http_requests h).

(** ** Notions the properties are stated with *)

(** A raw result is fresh when its load timestamp parses and is strictly
    after [min_load_date]. *)
Definition fresh {rt : Runtime} (min_load_date : datetime) (raw : pyval) : bool :=
  match parse_load_date raw with
  | Ok load_date => dt_gt load_date min_load_date
  | Raise _ => false
  end.

(** A raw result with one field replaced (or added). *)
Definition set_field (raw : pyval) (k : string) (v : pyval) : pyval :=
  match raw with
  | PDict items => PDict (dict_set k v items)
  | other => other
  end.

(** The exceptions reading a response can raise on its own: a missing key,
    a value of the wrong type, text that is no date or number, an integer
    too large for a float. *)
Definition is_parse_error (e : exn) : bool :=
  match e with
  | KeyError _ | TypeError | ValueError | OverflowError => true
  | _ => false
  end.

Definition join (parts : list string) : string := fold_right append "" parts.

(** The section of the digest for one contributor, as a function of the
    group alone. *)
Definition render_group {rt : Runtime} (item : string * list Contribution.t) : string :=
  append_group "" item.

Definition th (label : string) : string := "<th>" ++ label ++ "</th>".
Definition td (cell : string) : string := sp20 ++ "<td>" ++ cell ++ "</td>" ++ nl.

(** The cells of a row, left to right. *)
Definition row_cells {rt : Runtime} (c : Contribution.t) : list string :=
  [ strftime (Contribution.date c) "%Y-%m-%d";
    "$" ++ format_amount (Contribution.amount c);
    py_str (Contribution.committee_name c);
    py_str (Contribution.employer c);
    strftime (Contribution.load_date c) "%Y-%m-%d %H:%M:%S" ].

Definition header_labels : list string := ["Date"; "Amount"; "Committee"; "Employer"].

Definition fetch_diagnostic {rt : Runtime} (contributor : Contributor.t) (e : exn) : string :=
  "Error fetching FEC data for " ++ Contributor.name contributor ++ ": " ++ str_exn e.

(** The records kept are those of the fresh results, in their order. *)
Definition kept_from {rt : Runtime} (mld : datetime) (raw : pyval) (c : Contribution.t) : Prop :=
  exists ld, parse_load_date raw = Ok ld /\ dt_gt ld mld = true
             /\ build_contribution raw ld = Ok c.


(** ** The calendar, one 400-year cycle at a time *)

(** The month and the day of day [n], counted from 0, of a year: the last
    steps of [ord2ymd]. *)
Definition month_day (n : Z) (leapyear : bool) : Z * Z :=
  let m := Z.shiftr (n + 50) 5 in
  let preceding := table DAYS_BEFORE_MONTH m + Z.b2z ((2 <? m) && leapyear) in
  let '(m, preceding) :=
    if n <? preceding
    then (m - 1, preceding - (table DAYS_IN_MONTH (m - 1) + Z.b2z ((m - 1 =? 2) && leapyear)))
    else (m, preceding) in
  (m, n - preceding + 1).

(** [ord2ymd]'s test for a leap year, on the counts of whole centuries,
    four-year spans and years of a cycle. *)
Definition leap_flag (a b c : Z) : bool := (c =? 3) && (negb (b =? 24) || (a =? 3)).

(** [ord2ymd] after its first division: [q] whole cycles, then day [r] of
    the cycle. *)
Definition ord2ymd_in_cycle (q r : Z) : Z * Z * Z :=
  let a := r / DI100Y in
  let r1 := r mod DI100Y in
  let b := r1 / DI4Y in
  let r2 := r1 mod DI4Y in
  let c := r2 / 365 in
  let n := r2 mod 365 in
  let y := q * 400 + 1 + a * 100 + b * 4 + c in
  if (c =? 4) || (a =? 4) then (y - 1, 12, 31)
  else let '(m, d) := month_day n (leap_flag a b c) in (y, m, d).

(** Day [n] of a year falls in a month of the year, on a day of that
    month, and counts back to [n]. *)
Definition month_day_ok (leapyear : bool) (n : Z) : bool :=
  let '(m, d) := month_day n leapyear in
  between 1 m 12
  && between 1 d (if (m =? 2) && leapyear then 29 else table DAYS_IN_MONTH m)
  && (table DAYS_BEFORE_MONTH m + Z.b2z ((2 <? m) && leapyear) + d =? n + 1).

(** The year that starts after [a] centuries, [b] four-year spans and [c]
    years begins on the day these counts say, and is a leap year when
    [leap_flag] says so. *)
Definition year_ok (a b c : Z) : bool :=
  let y := 1 + 100 * a + 4 * b + c in
  (days_before_year y =? 36524 * a + 1461 * b + 365 * c)
  && Bool.eqb (is_leap y) (leap_flag a b c).

Fixpoint zrange (count : nat) (lo : Z) : list Z :=
  match count with
  | O => []
  | S count' => lo :: zrange count' (lo + 1)
  end.

Definition all_years_ok : bool :=
  forallb (fun a => forallb (fun b => forallb (year_ok a b) (zrange 4 0)) (zrange 25 0))
          (zrange 4 0).

Definition all_month_days_ok : bool :=
  forallb (month_day_ok false) (zrange 365 0) && forallb (month_day_ok true) (zrange 365 0).

(** The fields of a raw result other than the employer parse to these
    values. *)
Definition other_fields {rt : Runtime} (raw : pyval) (date : datetime) (amount : pyfloat)
    (contributor_name committee_name : pyval) : Prop :=
  (x <- getitem raw "contribution_receipt_date" ;; strptime x "%Y-%m-%d") = Ok date
  /\ (x <- getitem raw "contribution_receipt_amount" ;; py_float x) = Ok amount
  /\ getitem raw "contributor_name" = Ok contributor_name
  /\ (x <- getitem raw "committee" ;; getitem x "name") = Ok committee_name.

(** The values Python takes for false. *)
Definition falsy_value (v : pyval) : Prop :=
  v = PNone \/ v = PBool false \/ v = PInt 0 \/ (exists s, v = PFloat (S754_zero s))
  \/ v = PStr "" \/ v = PList [] \/ v = PDict [].

Definition not_reported : pyval := PStr "Not reported".

(** A computation that can raise nothing but parse errors. *)
Definition only_parse_errors {A : Type} (r : result A) : Prop :=
  forall e, r = Raise e -> is_parse_error e = true.

(** The loop over the registry, fetch by fetch: from history [h], fetching
    the contributors in turn returns the groups [groups] and leaves the
    history [h']. *)
Inductive fetched {rt : Runtime} (w : World) (key : string)
  : list Contributor.t -> history -> list (list Contribution.t) -> history -> Prop :=
| fetched_nil (h : history) : fetched w key [] h [] h
| fetched_cons (c : Contributor.t) (rest : list Contributor.t) (h h1 h2 : history)
    (cs : list Contribution.t) (groups : list (list Contribution.t)) :
    get_fec_contributions w c key default_days_back_load default_days_back_contrib h
    = (Ok cs, h1) ->
    fetched w key rest h1 groups h2 ->
    fetched w key (c :: rest) h (cs :: groups) h2.

(** The mapping after storing each group under its contributor's name. *)
Definition store (acc : dict (list Contribution.t)) (registry : list Contributor.t)
    (groups : list (list Contribution.t)) : dict (list Contribution.t) :=
  fold_left (fun d p => dict_set (Contributor.name (fst p)) (snd p) d)
            (combine registry groups) acc.

Definition names (registry : list Contributor.t) : list string :=
  map Contributor.name registry.

Definition asked (registry : list Contributor.t) : list (option pyval) :=
  map (fun c => Some (PStr (Contributor.name c))) registry.

(** The raw results the API gave to the request that a fetch of [c] sends
    from history [h]: [None] when the request failed, the status was an
    error, or the body was not a JSON object with a sequence of results. *)
Definition response_results (w : World) (c : Contributor.t) (key : string) (dc : Z)
    (h : history) : option (list pyval) :=
  match sub_days (clock w h) dc with
  | Ok start =>
      match requests_get w (h ++ [Clock (clock w h)])%list base_url
              (query_params c key start (clock w h)) with
      | Ok response =>
          match raw_results response with
          | Ok rs => Some rs
          | Raise _ => None
          end
      | Raise _ => None
      end
  | Raise _ => None
  end.

(** The group [cs] fetched for [c] from history [h] is in response order:
    its records were built, one by one and in order, from the results of the
    API's answer to that fetch's request that are fresh at that fetch's
    bound; it is empty when there was no such answer. *)
Definition in_response_order {rt : Runtime} (w : World) (c : Contributor.t) (key : string)
    (dl dc : Z) (h : history) (cs : list Contribution.t) : Prop :=
  match response_results w c key dc h, sub_days (clock w h) dl with
  | Some rs, Ok mld => Forall2 (kept_from mld) (filter (fresh mld) rs) cs
  | _, _ => cs = []
  end.

(** Every group of a run of the loop is in the order of the response to its
    own request; the fetch of a contributor starts from the history the
    fetch before it left. *)
Fixpoint groups_in_response_order {rt : Runtime} (w : World) (key : string)
    (registry : list Contributor.t) (h : history) (groups : list (list Contribution.t))
    : Prop :=
  match registry, groups with
  | [], [] => True
  | c :: rest, cs :: more =>
      in_response_order w c key default_days_back_load default_days_back_contrib h cs
      /\ groups_in_response_order w key rest
           (snd (get_fec_contributions w c key default_days_back_load
                   default_days_back_contrib h)) more
  | _, _ => False
  end.

Definition nonempty {A : Type} (l : list A) : bool :=
  match l with
  | [] => false
  | _ :: _ => true
  end.

(** The message [monitor_contributions] hands to [send_email]. *)
Definition alert_message {rt : Runtime} (notification_email : string) (cfg : smtp_config)
    (d : dict (list Contribution.t)) (today : datetime) : message :=
  mk_message ("FEC Contribution Alert - " ++ strftime today "%Y-%m-%d")
             (from_email cfg) notification_email (format_email_body d).

Definition all_empty (d : dict (list Contribution.t)) : Prop :=
  forall n cs, In (n, cs) d -> cs = [].

Definition sundar : Contributor.t := Contributor.mk "Sundar Pichai" (Some "Google").
Definition kent : Contributor.t := Contributor.mk "Kent Walker" (Some "Google").
Definition thomas : Contributor.t := Contributor.mk "Thomas Kurian" (Some "Google").

(** The two windows at [sample_now]. *)
Definition sample_start : datetime := mkdatetime 2024 7 19 10 30 0 0.
Definition sample_min_load : datetime := mkdatetime 2025 1 1 10 30 0 0.

(** The SMTP configuration read from [sample_environ]. *)
Definition sample_cfg : smtp_config :=
  mk_smtp_config "smtp.gmail.com" 587 (Some "bot") "secret" (Some "bot@example.org").

(** The mapping of a run, when its fetches have returned. *)
Definition mapping_of (gathered : result (string * smtp_config * dict (list Contribution.t)) * history)
    : dict (list Contribution.t) :=
  match fst gathered with
  | Ok (_, _, d) => d
  | Raise _ => []
  end.

(** ** [local-test.py] *)

Definition required_vars : list string :=
  [ "PROJECT_ID"; "NOTIFICATION_EMAIL"; "SMTP_SERVER"; "SMTP_PORT"; "SMTP_USERNAME";
    "FROM_EMAIL" ].

(** [load_dotenv()]: the variables the .env file defines are added to the
    environment where it does not have them yet; [dotenv] is what the file
    defines. *)
Definition load_dotenv (dotenv : string -> option string) (w : World) : World :=
  mkWorld (fun key => match environ w key with
                      | Some v => Some v
                      | None => dotenv key
                      end)
          (clock w) (secret_client w) (access_secret_version w) (requests_get w)
          (smtp_session w).

(** [bool(os.getenv(var))]: the variable is set, and not to the empty
    string. *)
Definition getenv_is_set (w : World) (var : string) : bool :=
  match environ w var with
  | Some v => negb (String.eqb v "")
  | None => false
  end.

(** [str(n)] for an [int]. *)
Definition str_int (n : Z) : string :=
  (if n <? 0 then "-" else "") ++ decimal (Z.abs n).

Fixpoint print_each (lines : list string) : M unit :=
  match lines with
  | [] => ret tt
  | line :: rest => (_ <- print line ;; print_each rest)%io
  end.

Section LocalTest.

Context {rt : Runtime}.
Variable w : World.

(** [main()] of the local test script; [create_test_request] builds a POST
    request, which the entry point does not look at. *)
Definition main (dotenv : string -> option string) : M unit :=
  let w' := load_dotenv dotenv w in
  let missing_vars := filter (fun var => negb (getenv_is_set w' var)) required_vars in
  match missing_vars with
  | _ :: _ =>
      (_ <- print "Missing required environment variables:" ;;
       print_each (map (fun var => "- " ++ var) missing_vars))%io
  | [] =>
      try_except
        (outcome <- monitor_contributions w' ;;
         let '(response, status_code) := outcome in
         print ("Response (status " ++ str_int status_code ++ "): " ++ response))%io
        is_Exception
        (fun e => print ("Error running monitor_contributions: " ++ str_exn e))
  end.

End LocalTest.

(** ** More notions and sample worlds *)

(** The days of a year before month [m], and the days of month [m], for a
    year that is a leap year or not. *)
Definition month_start (leap : bool) (m : Z) : Z :=
  table DAYS_BEFORE_MONTH m + Z.b2z ((2 <? m) && leap).

Definition month_length (leap : bool) (m : Z) : Z :=
  if (m =? 2) && leap then 29 else table DAYS_IN_MONTH m.

(** Month [m] starts on or after day 0, ends within the year, and ends
    before every later month starts. *)
Definition month_ok (leap : bool) (m : Z) : bool :=
  (0 <=? month_start leap m)
  && (month_start leap m + month_length leap m <=? 365 + Z.b2z leap)
  && forallb (fun m' => (m' <=? m) || (month_start leap m + month_length leap m
                                       <=? month_start leap m'))
             (zrange 12 1).

Definition all_months_ok : bool :=
  forallb (month_ok false) (zrange 12 1) && forallb (month_ok true) (zrange 12 1).

(** One calendar day is before another. *)
Definition date_lt (y m d y' m' d' : Z) : Prop :=
  y < y' \/ (y = y' /\ (m < m' \/ (m = m' /\ d < d'))).


(** The contributor names of a registry without repetition, each at its
    first place. *)
Fixpoint first_occurrences (seen : list string) (l : list string) : list string :=
  match l with
  | [] => []
  | k :: rest =>
      if existsb (String.eqb k) seen then first_occurrences seen rest
      else k :: first_occurrences (k :: seen) rest
  end.

(** The resource name of the latest version of a secret. *)
Definition secret_path (project secret_id : string) : string :=
  "projects/" ++ project ++ "/secrets/" ++ secret_id ++ "/versions/latest".

(** Where each request went and the API key it carried. *)
Definition request_targets (h : history) : list (string * option pyval) :=
  map (fun r => (fst r, assoc "api_key" (snd r))) (http_requests h).

(** The second contributor's response holds a record whose load date is not
    a date; the first has records. *)
Definition second_malformed (n : string) : result Response :=
  if String.eqb n "Kent Walker" then one_malformed n else one_hit n.

(** The API has records at the first request and nothing afterwards. *)
Definition records_once : history -> string -> params -> result Response :=
  fun h _ _ =>
    match http_requests h with
    | [] => ok_response [fresh_old]
    | _ :: _ => ok_response []
    end.

Definition world_records_once : World :=
  mkWorld sample_environ (fun _ => sample_now) (fun _ => None) (fun _ _ => Ok "secret")
          records_once (fun _ _ _ => None).

(** Stale results whose other fields are missing or malformed. *)
Definition stale_broken : list pyval :=
  [ PDict [ ("load_date", PStr "2024-12-01T00:00:00") ];
    PDict [ ("load_date", PStr "2024-11-30T23:59:59");
            ("contribution_receipt_date", PStr "not a date");
            ("contribution_receipt_amount", PNone) ] ].

(** Every response holds stale results only. *)
Definition all_stale (n : string) : result Response := ok_response stale_broken.

(** A host where no variable is set. *)
Definition bare_world : World :=
  mkWorld (fun _ => None) (fun _ => sample_now) (fun _ => None) (fun _ _ => Ok "secret")
          (api_of one_hit) (fun _ _ _ => None).

(** A .env file that names the relay. *)
Definition sample_dotenv (key : string) : option string :=
  assoc key [ ("SMTP_SERVER", "smtp.example.org"); ("SMTP_PORT", "2525");
              ("PROJECT_ID", "from-file") ].

(** A record whose employer holds the characters of HTML markup. *)
Definition marked_record : Contribution.t :=
  Contribution.mk (mkdatetime 2024 12 30 0 0 0 0)
    (S754_finite false 5497558138880000 (-42))
    (PStr "PICHAI, SUNDAR") (PStr "R&D <labs>") (PStr "GOOGLE LLC NETPAC")
    (mkdatetime 2025 1 13 9 15 0 0).

(** A fresh result, then one loaded twenty days ago whose contribution date
    is not a date. *)
Definition older_malformed (n : string) : result Response :=
  ok_response [fresh_old; raw_result "2024-12-26T08:00:00" "not a date" PNone].

(** The record built from [fresh_old]. *)
Definition fresh_old_record : Contribution.t :=
  Contribution.mk (mkdatetime 2024 8 1 0 0 0 0)
    (S754_finite false 5497558138880000 (-42))
    (PStr "PICHAI, SUNDAR") (PStr "GOOGLE") (PStr "GOOGLE LLC NETPAC")
    (mkdatetime 2025 1 14 8 0 0 0).

(** The regular expression of a directive of the formats the program parses. *)
Definition directive (d : ascii) : regex :=
  match directive_regex d with
  | Some r => r
  | None => digit
  end.

(** The two-digit numeral of [v] is the first match of [r], whatever
    follows. *)
Definition reads_two_digits (r : regex) (v : Z) : Prop :=
  forall s, rmatch r (pad2 v ++ s) = (pad2 v, s) :: tl (rmatch r (pad2 v ++ s)).
(** ** Properties *)

Section Properties.

Context {rt : Runtime}.
Variable w : World.

(** *** Strings and lists *)

Lemma append_assoc (a b c : string) : (a ++ b) ++ c = a ++ (b ++ c).
Proof.
  induction a as [|x a IH]; simpl; [reflexivity|].
  now rewrite IH.
Qed.

Lemma append_empty_r (a : string) : a ++ "" = a.
Proof.
  induction a as [|x a IH]; simpl; [reflexivity|].
  now rewrite IH.
Qed.

Lemma fold_left_append {A : Type} (f : A -> string) (l : list A) (init : string) :
  fold_left (fun acc x => acc ++ f x) l init = init ++ join (map f l).
Proof.
  revert init.
  induction l as [|x l IH]; intros init; simpl.
  - now rewrite append_empty_r.
  - rewrite IH. apply append_assoc.
Qed.

Lemma lex_compare_refl (l : list Z) : lex_compare l l = Eq.
Proof.
  induction l as [|x l IH]; simpl; [reflexivity|].
  now rewrite Z.compare_refl.
Qed.

Lemma dt_gt_irrefl (t : datetime) : dt_gt t t = false.
Proof.
  unfold dt_gt, dt_compare. now rewrite lex_compare_refl.
Qed.

Lemma assoc_dict_set_other {V : Type} (k k' : string) (v : V) (d : dict V) :
  k <> k' -> assoc k' (dict_set k v d) = assoc k' d.
Proof.
  intros Hk.
  induction d as [|[k0 v0] d IH]; simpl.
  - destruct (String.eqb_spec k' k); [congruence|reflexivity].
  - destruct (String.eqb_spec k k0) as [->|Hne]; simpl.
    + destruct (String.eqb_spec k' k0); [congruence|reflexivity].
    + destruct (String.eqb_spec k' k0); [reflexivity|exact IH].
Qed.

(** *** One fetch, step by step *)

Lemma get_fec_contributions_run (contributor : Contributor.t) (api_key : string)
    (dl dc : Z) (h : history) :
  get_fec_contributions w contributor api_key dl dc h =
  let t := clock w h in
  let h1 := (h ++ [Clock t])%list in
  match sub_days t dc with
  | Raise e => (Raise e, h1)
  | Ok start =>
      match sub_days t dl with
      | Raise e => (Raise e, h1)
      | Ok mld =>
          let query := query_params contributor api_key start t in
          let h2 := (h1 ++ [HttpGet base_url query])%list in
          match rbind (requests_get w h1 base_url query) (read_contributions mld) with
          | Ok cs => (Ok cs, h2)
          | Raise e =>
              if is_RequestException e
              then (Ok [], (h2 ++ [Printed (fetch_diagnostic contributor e)])%list)
              else (Raise e, h2)
          end
      end
  end.
Proof.
  unfold get_fec_contributions, bind, now, lift, try_except, http_get, print, ret.
  cbv zeta.
  destruct (sub_days (clock w h) dc) as [start|e]; [|reflexivity].
  destruct (sub_days (clock w h) dl) as [mld|e]; [|reflexivity].
  destruct (requests_get w _ base_url _) as [response|e]; simpl.
  - destruct (read_contributions mld response) as [cs|e]; [reflexivity|].
    destruct (is_RequestException e); reflexivity.
  - destruct (is_RequestException e); reflexivity.
Qed.

(** *** The loop over the raw results *)

Lemma collect_acc (mld : datetime) (rs : list pyval) (acc : list Contribution.t) :
  collect mld rs acc = (cs <- collect mld rs [] ;; Ok (acc ++ cs)%list).
Proof.
  revert acc.
  induction rs as [|raw rs IH]; intros acc; simpl.
  - now rewrite app_nil_r.
  - destruct (process_result mld raw) as [[c|]|e]; simpl; [| apply IH | reflexivity].
    rewrite (IH (acc ++ [c])%list), (IH [c]).
    destruct (collect mld rs []) as [cs|e]; simpl; [|reflexivity].
    now rewrite <- app_assoc.
Qed.

Lemma process_result_fresh (mld : datetime) (raw : pyval) (c : Contribution.t) :
  process_result mld raw = Ok (Some c) ->
  fresh mld raw = true
  /\ exists ld, parse_load_date raw = Ok ld /\ dt_gt ld mld = true
                /\ build_contribution raw ld = Ok c.
Proof.
  unfold process_result, fresh.
  destruct (parse_load_date raw) as [ld|e]; simpl; [|discriminate].
  destruct (dt_gt ld mld) eqn:Hgt; [|discriminate].
  destruct (build_contribution raw ld) as [c'|e] eqn:Hb; simpl; [|discriminate].
  intros [= <-]. split; [reflexivity|]. now exists ld.
Qed.

Lemma process_result_stale (mld : datetime) (raw : pyval) :
  process_result mld raw = Ok None ->
  fresh mld raw = false
  /\ exists ld, parse_load_date raw = Ok ld /\ dt_gt ld mld = false.
Proof.
  unfold process_result, fresh.
  destruct (parse_load_date raw) as [ld|e]; simpl; [|discriminate].
  destruct (dt_gt ld mld) eqn:Hgt.
  - destruct (build_contribution raw ld); discriminate.
  - intros _. split; [reflexivity|]. now exists ld.
Qed.

Lemma collect_filter (mld : datetime) (rs : list pyval) (cs : list Contribution.t) :
  collect mld rs [] = Ok cs ->
  Forall2 (kept_from mld) (filter (fresh mld) rs) cs.
Proof.
  revert cs.
  induction rs as [|raw rs IH]; intros cs; simpl.
  - intros [= <-]. constructor.
  - destruct (process_result mld raw) as [[c|]|e] eqn:Hp; simpl; [| |discriminate].
    + rewrite collect_acc.
      destruct (collect mld rs []) as [cs'|e]; simpl; [|discriminate].
      intros [= <-].
      destruct (process_result_fresh _ _ _ Hp) as [-> Hk].
      constructor; [exact Hk|]. now apply IH.
    + destruct (process_result_stale _ _ Hp) as [-> _]. apply IH.
Qed.

Lemma collect_total (mld : datetime) (rs : list pyval) :
  Forall (fun raw => exists kept, process_result mld raw = Ok kept) rs ->
  exists cs, collect mld rs [] = Ok cs.
Proof.
  induction 1 as [|raw rs [kept Hk] _ [cs IH]]; simpl.
  - now exists [].
  - rewrite Hk. simpl. rewrite collect_acc, IH. simpl. eauto.
Qed.

(** *** The calendar: [ord2ymd] inverts [ymd2ord] *)

Lemma ord2ymd_unfold (n : Z) :
  ord2ymd n = ord2ymd_in_cycle ((n - 1) / DI400Y) ((n - 1) mod DI400Y).
Proof.
  unfold ord2ymd, ord2ymd_in_cycle, month_day, leap_flag. cbv zeta.
  match goal with |- context [if ?c then _ else _] => destruct c end; [reflexivity|].
  match goal with |- context [if ?c then _ else _] => destruct c end; reflexivity.
Qed.

Lemma ord2ymd_in_cycle_shift (q r : Z) :
  ord2ymd_in_cycle q r =
  let '(y, m, d) := ord2ymd_in_cycle 0 r in (y + 400 * q, m, d).
Proof.
  unfold ord2ymd_in_cycle. cbv zeta.
  match goal with |- context [if ?c then _ else _] => destruct c end.
  - f_equal. f_equal. lia.
  - match goal with |- context [month_day ?n ?l] => destruct (month_day n l) end.
    f_equal. f_equal. lia.
Qed.

Lemma in_zrange (count : nat) (lo x : Z) :
  lo <= x < lo + Z.of_nat count -> In x (zrange count lo).
Proof.
  revert lo. induction count as [|count IH]; intros lo Hx; [lia|].
  simpl. destruct (Z.eq_dec lo x) as [->|Hne]; [now left|].
  right. apply IH. lia.
Qed.

Lemma year_fact (a b c : Z) :
  0 <= a <= 3 -> 0 <= b <= 24 -> 0 <= c <= 3 ->
  days_before_year (1 + 100 * a + 4 * b + c) = 36524 * a + 1461 * b + 365 * c
  /\ is_leap (1 + 100 * a + 4 * b + c) = leap_flag a b c.
Proof.
  intros Ha Hb Hc.
  assert (Hall : all_years_ok = true) by (vm_compute; reflexivity).
  unfold all_years_ok in Hall.
  rewrite forallb_forall in Hall. specialize (Hall a (in_zrange 4 0 a ltac:(simpl; lia))).
  rewrite forallb_forall in Hall. specialize (Hall b (in_zrange 25 0 b ltac:(simpl; lia))).
  rewrite forallb_forall in Hall. specialize (Hall c (in_zrange 4 0 c ltac:(simpl; lia))).
  unfold year_ok in Hall. apply andb_true_iff in Hall. destruct Hall as [H1 H2].
  apply Z.eqb_eq in H1. apply Bool.eqb_prop in H2. now split.
Qed.

Lemma month_day_fact (leapyear : bool) (n : Z) :
  0 <= n < 365 ->
  let '(m, d) := month_day n leapyear in
  1 <= m <= 12
  /\ 1 <= d <= (if (m =? 2) && leapyear then 29 else table DAYS_IN_MONTH m)
  /\ table DAYS_BEFORE_MONTH m + Z.b2z ((2 <? m) && leapyear) + d = n + 1.
Proof.
  intros Hn.
  assert (Hall : all_month_days_ok = true) by (vm_compute; reflexivity).
  unfold all_month_days_ok in Hall. apply andb_true_iff in Hall.
  assert (Hok : month_day_ok leapyear n = true).
  { destruct Hall as [Hf Ht]. rewrite forallb_forall in Hf, Ht.
    destruct leapyear; [apply Ht|apply Hf]; apply in_zrange; simpl; lia. }
  unfold month_day_ok in Hok. destruct (month_day n leapyear) as [m d].
  unfold between in Hok.
  repeat (apply andb_true_iff in Hok; destruct Hok as [Hok ?]).
  lia.
Qed.

Lemma first_cycle (r : Z) :
  0 <= r < 146097 ->
  let '(y, m, d) := ord2ymd_in_cycle 0 r in
  ymd2ord y m d = r + 1 /\ 1 <= y <= 400 /\ 1 <= m <= 12
  /\ 1 <= d <= days_in_month y m.
Proof.
  intros Hr. unfold ord2ymd_in_cycle. cbv zeta.
  change DI100Y with 36524. change DI4Y with 1461.
  set (a := r / 36524). set (r1 := r mod 36524).
  set (b := r1 / 1461). set (r2 := r1 mod 1461).
  set (c := r2 / 365). set (n := r2 mod 365).
  assert (Hdec : r = 36524 * a + 1461 * b + 365 * c + n
                 /\ 0 <= a <= 4 /\ 0 <= b <= 24 /\ 0 <= c <= 4 /\ 0 <= n < 365
                 /\ (a = 4 -> b = 0 /\ c = 0 /\ n = 0)
                 /\ (c = 4 -> n = 0 /\ (a <= 3 -> b <= 23))).
  { assert (H1 : r = 36524 * a + r1 /\ 0 <= r1 < 36524)
      by (subst a r1; Z.div_mod_to_equations; lia).
    assert (H2 : r1 = 1461 * b + r2 /\ 0 <= r2 < 1461)
      by (subst b r2; Z.div_mod_to_equations; lia).
    assert (H3 : r2 = 365 * c + n /\ 0 <= n < 365)
      by (subst c n; Z.div_mod_to_equations; lia).
    clearbody a r1 b r2 c n. repeat split; lia. }
  destruct Hdec as (Hdec & Ha & Hb & Hc & Hn & Ha4 & Hc4).
  clearbody a r1 b r2 c n.
  destruct ((c =? 4) || (a =? 4)) eqn:Hsp.
  - apply orb_true_iff in Hsp. destruct (Z.eq_dec a 4) as [->|Hna].
    + destruct Ha4 as (-> & -> & ->); [reflexivity|]. subst r. vm_compute.
      repeat split; discriminate.
    + destruct Hsp as [Hsp|Hsp]; apply Z.eqb_eq in Hsp; [|lia]. subst c.
      destruct Hc4 as [-> Hb23]; [reflexivity|].
      destruct (year_fact a b 3) as [Hdby Hleap]; try lia.
      replace (0 * 400 + 1 + a * 100 + b * 4 + 4 - 1) with (1 + 100 * a + 4 * b + 3) by ring.
      unfold ymd2ord, days_before_month, days_in_month. rewrite Hdby, Hleap.
      replace (leap_flag a b 3) with true
        by (unfold leap_flag;
            replace (b =? 24) with false by (symmetry; apply Z.eqb_neq; lia);
            reflexivity).
      change (2 <? 12) with true. change (12 =? 2) with false.
      cbn [andb Z.b2z].
      change (table DAYS_BEFORE_MONTH 12) with 334.
      change (table DAYS_IN_MONTH 12) with 31. lia.
  - apply orb_false_iff in Hsp. destruct Hsp as [Hc' Ha'].
    apply Z.eqb_neq in Hc', Ha'.
    destruct (year_fact a b c) as [Hdby Hleap]; try lia.
    pose proof (month_day_fact (leap_flag a b c) n Hn) as Hmd.
    destruct (month_day n (leap_flag a b c)) as [m d].
    replace (0 * 400 + 1 + a * 100 + b * 4 + c) with (1 + 100 * a + 4 * b + c) by ring.
    unfold ymd2ord, days_before_month, days_in_month. rewrite Hdby, Hleap. lia.
Qed.

Lemma is_leap_shift (y q : Z) : is_leap (y + 400 * q) = is_leap y.
Proof.
  unfold is_leap.
  replace ((y + 400 * q) mod 4) with (y mod 4)
    by (replace (y + 400 * q) with (y + (100 * q) * 4) by ring;
        now rewrite Z.mod_add).
  replace ((y + 400 * q) mod 100) with (y mod 100)
    by (replace (y + 400 * q) with (y + (4 * q) * 100) by ring;
        now rewrite Z.mod_add).
  replace ((y + 400 * q) mod 400) with (y mod 400)
    by (replace (y + 400 * q) with (y + q * 400) by ring;
        now rewrite Z.mod_add).
  reflexivity.
Qed.

Lemma days_before_year_shift (y q : Z) :
  days_before_year (y + 400 * q) = days_before_year y + 146097 * q.
Proof.
  unfold days_before_year. cbv zeta.
  replace ((y + 400 * q - 1) / 4) with ((y - 1) / 4 + 100 * q)
    by (replace (y + 400 * q - 1) with (y - 1 + (100 * q) * 4) by ring;
        now rewrite Z.div_add).
  replace ((y + 400 * q - 1) / 100) with ((y - 1) / 100 + 4 * q)
    by (replace (y + 400 * q - 1) with (y - 1 + (4 * q) * 100) by ring;
        now rewrite Z.div_add).
  replace ((y + 400 * q - 1) / 400) with ((y - 1) / 400 + q)
    by (replace (y + 400 * q - 1) with (y - 1 + q * 400) by ring;
        now rewrite Z.div_add).
  ring.
Qed.

Lemma ymd2ord_shift (y m d q : Z) :
  ymd2ord (y + 400 * q) m d = ymd2ord y m d + 146097 * q.
Proof.
  unfold ymd2ord, days_before_month.
  rewrite is_leap_shift, days_before_year_shift. ring.
Qed.

Lemma days_in_month_shift (y m q : Z) :
  days_in_month (y + 400 * q) m = days_in_month y m.
Proof. unfold days_in_month. now rewrite is_leap_shift. Qed.

Lemma days_before_year_mono (y y' : Z) :
  y <= y' -> days_before_year y <= days_before_year y'.
Proof.
  unfold days_before_year. cbv zeta. intros Hy.
  Z.div_mod_to_equations. lia.
Qed.

Lemma days_before_month_nonneg (y m : Z) :
  1 <= m <= 12 -> 0 <= days_before_month y m.
Proof.
  intros Hm. unfold days_before_month.
  assert (0 <= table DAYS_BEFORE_MONTH m).
  { assert (m = 1 \/ m = 2 \/ m = 3 \/ m = 4 \/ m = 5 \/ m = 6 \/ m = 7
            \/ m = 8 \/ m = 9 \/ m = 10 \/ m = 11 \/ m = 12) as Hc by lia.
    repeat (destruct Hc as [->|Hc]; [vm_compute; discriminate|]).
    subst m. vm_compute. discriminate. }
  destruct ((2 <? m) && is_leap y); simpl; lia.
Qed.

(** Every ordinal of the supported range is the ordinal of the date
    [ord2ymd] gives for it, and that date is a valid one. *)
Lemma ord2ymd_ymd2ord (o : Z) :
  0 < o <= MAXORDINAL ->
  let '(y, m, d) := ord2ymd o in
  ymd2ord y m d = o /\ valid_date y m d = true.
Proof.
  intros Ho.
  rewrite ord2ymd_unfold, ord2ymd_in_cycle_shift.
  set (q := (o - 1) / DI400Y). set (r := (o - 1) mod DI400Y).
  assert (Hqr : o - 1 = 146097 * q + r /\ 0 <= r < 146097 /\ 0 <= q).
  { subst q r. change DI400Y with 146097. unfold MAXORDINAL in Ho.
    Z.div_mod_to_equations. lia. }
  destruct Hqr as (Hqr & Hr & Hq).
  pose proof (first_cycle r Hr) as Hok.
  destruct (ord2ymd_in_cycle 0 r) as [[y m] d].
  destruct Hok as (Hok & Hy0 & Hm0 & Hd0).
  assert (Hord : ymd2ord (y + 400 * q) m d = o).
  { rewrite ymd2ord_shift. lia. }
  split; [exact Hord|].
  unfold valid_date, between, MINYEAR, MAXYEAR.
  rewrite days_in_month_shift.
  assert (Hy : y + 400 * q <= 9999).
  { destruct (Z_le_gt_dec (y + 400 * q) 9999) as [Hle|Hgt]; [exact Hle|exfalso].
    assert (Hm : days_before_year 10000 <= days_before_year (y + 400 * q))
      by (apply days_before_year_mono; lia).
    assert (0 <= days_before_month (y + 400 * q) m)
      by (apply days_before_month_nonneg; lia).
    unfold ymd2ord in Hord. change (days_before_year 10000) with 3652059 in Hm.
    unfold MAXORDINAL in Ho. lia. }
  repeat (apply andb_true_iff; split); lia.
Qed.

Lemma sub_days_ok (t : datetime) (n : Z) (t' : datetime) :
  sub_days t n = Ok t' ->
  toordinal t' = toordinal t - n
  /\ valid_date (year t') (month t') (day t') = true
  /\ hour t' = hour t /\ minute t' = minute t /\ second t' = second t
  /\ microsecond t' = microsecond t.
Proof.
  unfold sub_days.
  destruct (999999999 <? Z.abs n); [discriminate|].
  destruct ((0 <? toordinal t - n) && (toordinal t - n <=? MAXORDINAL)) eqn:Hr;
    [|discriminate].
  apply andb_true_iff in Hr. destruct Hr as [H0 H1].
  pose proof (ord2ymd_ymd2ord (toordinal t - n)) as Hrt.
  destruct (ord2ymd (toordinal t - n)) as [[y m] d].
  intros [= <-]. unfold toordinal. simpl.
  destruct Hrt as [Ho Hv]; [lia|]. tauto.
Qed.

Lemma fresh_set_field (mld : datetime) (raw : pyval) (k : string) (v : pyval) :
  k <> "load_date" -> fresh mld (set_field raw k v) = fresh mld raw.
Proof.
  intros Hk. unfold fresh, parse_load_date, getitem.
  destruct raw; simpl; try reflexivity.
  now rewrite assoc_dict_set_other.
Qed.

(** *** The freshness filter *)

(** C1. When the API answers with raw results that all parse, the fetcher
    returns exactly the records built from the results whose load timestamp
    is strictly after [min_load_date = now - days_back_load], in their order;
    [min_load_date] is the same time of day [days_back_load] calendar days
    before now, 14 by default. A result is dropped exactly when its load
    timestamp is not after [min_load_date], a load timestamp equal to it is
    dropped, and replacing any other field of a result, its contribution
    date included, does not change whether it is kept. *)
Theorem fetch_keeps_exactly_the_fresh_results :
  forall (contributor : Contributor.t) (api_key : string) (dl dc : Z) (h : history)
         (start mld : datetime) (response : Response) (rs : list pyval),
    sub_days (clock w h) dc = Ok start ->
    sub_days (clock w h) dl = Ok mld ->
    requests_get w (h ++ [Clock (clock w h)])%list base_url
      (query_params contributor api_key start (clock w h)) = Ok response ->
    raw_results response = Ok rs ->
    Forall (fun raw => exists kept, process_result mld raw = Ok kept) rs ->
    exists cs : list Contribution.t,
      fst (get_fec_contributions w contributor api_key dl dc h) = Ok cs
      /\ Forall2 (kept_from mld) (filter (fresh mld) rs) cs
      /\ Forall (fun c => dt_gt (Contribution.load_date c) mld = true) cs
      /\ (forall raw, In raw rs -> fresh mld raw = false ->
            exists ld, parse_load_date raw = Ok ld /\ dt_gt ld mld = false)
      /\ (forall raw, parse_load_date raw = Ok mld -> fresh mld raw = false)
      /\ (forall raw k v, k <> "load_date" ->
            fresh mld (set_field raw k v) = fresh mld raw)
      /\ toordinal mld = toordinal (clock w h) - dl
      /\ (hour mld, minute mld, second mld, microsecond mld)
         = (hour (clock w h), minute (clock w h), second (clock w h),
            microsecond (clock w h))
      /\ default_days_back_load = 14.
Proof.
  intros contributor api_key dl dc h start mld response rs Hs Hm Hget Hraw Hall.
  destruct (collect_total mld rs Hall) as [cs Hcs].
  exists cs.
  pose proof (collect_filter mld rs cs Hcs) as Hkept.
  repeat split.
  - rewrite get_fec_contributions_run. cbv zeta.
    rewrite Hs, Hm, Hget. simpl.
    unfold read_contributions. rewrite Hraw. simpl. now rewrite Hcs.
  - exact Hkept.
  - clear - Hkept. induction Hkept as [|raw c rs' cs' [ld (Hld & Hgt & Hb)] _ IH];
      constructor; [|exact IH].
    unfold build_contribution in Hb.
    repeat match type of Hb with
           | rbind ?r _ = Ok _ => destruct r; simpl in Hb; [|discriminate]
           end.
    injection Hb as <-. exact Hgt.
  - intros raw Hin Hstale.
    rewrite Forall_forall in Hall. destruct (Hall raw Hin) as [[c|] Hk].
    + apply process_result_fresh in Hk. destruct Hk as [Hf _]. congruence.
    + apply process_result_stale in Hk. tauto.
  - intros raw Hld. unfold fresh. rewrite Hld. apply dt_gt_irrefl.
  - intros raw k v. apply fresh_set_field.
  - apply (sub_days_ok _ _ _ Hm).
  - destruct (sub_days_ok _ _ _ Hm) as (_ & _ & -> & -> & -> & ->). reflexivity.
Qed.

(** *** The query *)

Lemma http_requests_app (h1 h2 : history) :
  http_requests (h1 ++ h2)%list = (http_requests h1 ++ http_requests h2)%list.
Proof. unfold http_requests. apply flat_map_app. Qed.

Lemma strftime_mdY (t : datetime) :
  strftime t "%m/%d/%Y" = pad2 (month t) ++ "/" ++ pad2 (day t) ++ "/" ++ pad4 (year t).
Proof. reflexivity. Qed.

(** C7. A fetch sends one GET request and no other: to the schedule-A
    endpoint, with the contributor's name and employer, the contribution
    dates bounded by [min_date = now - days_back_contrib] and
    [max_date = now], both written month/day/year, the sort key
    [-contribution_receipt_date], [per_page = 100] and
    [is_individual = True]; [min_date] is the calendar day
    [days_back_contrib] days before today, which is 180 by default. *)
Theorem fetch_sends_one_windowed_query :
  forall (contributor : Contributor.t) (api_key : string) (dl dc : Z) (h : history)
         (start mld : datetime),
    sub_days (clock w h) dc = Ok start ->
    sub_days (clock w h) dl = Ok mld ->
    http_requests (snd (get_fec_contributions w contributor api_key dl dc h))
    = (http_requests h
       ++ [ (base_url,
             [ ("api_key", PStr api_key);
               ("contributor_name", PStr (Contributor.name contributor));
               ("contributor_employer", option_str (Contributor.employer contributor));
               ("min_date", PStr (pad2 (month start) ++ "/" ++ pad2 (day start)
                                  ++ "/" ++ pad4 (year start)));
               ("max_date", PStr (pad2 (month (clock w h)) ++ "/" ++ pad2 (day (clock w h))
                                  ++ "/" ++ pad4 (year (clock w h))));
               ("sort", PStr "-contribution_receipt_date");
               ("per_page", PInt 100);
               ("is_individual", PBool true) ]) ])%list
    /\ toordinal start = toordinal (clock w h) - dc
    /\ valid_date (year start) (month start) (day start) = true
    /\ default_days_back_contrib = 180.
Proof.
  intros contributor api_key dl dc h start mld Hs Hm.
  split; [|split; [|split]].
  - rewrite get_fec_contributions_run. cbv zeta. rewrite Hs, Hm.
    unfold query_params. rewrite !strftime_mdY.
    match goal with
    | |- context [match ?r with Ok _ => _ | Raise _ => _ end] => destruct r as [cs|e]
    end.
    + simpl snd. rewrite !http_requests_app. simpl. now rewrite app_nil_r.
    + destruct (is_RequestException e); simpl snd;
        rewrite !http_requests_app; simpl; now rewrite ?app_nil_r.
  - apply (sub_days_ok _ _ _ Hs).
  - apply (sub_days_ok _ _ _ Hs).
  - reflexivity.
Qed.

(** *** The digest table *)

Lemma render_row_cells (c : Contribution.t) :
  render_row c
  = nl ++ sp16 ++ "<tr>" ++ nl ++ join (map td (row_cells c)) ++ sp16 ++ "</tr>" ++ nl ++ sp16.
Proof.
  unfold render_row, row_cells, td, join. cbn [map fold_right].
  rewrite !append_assoc. reflexivity.
Qed.

Lemma render_group_some (contributor : string) (c : Contribution.t)
    (cs : list Contribution.t) :
  render_group (contributor, c :: cs)
  = "<h3>Contributions from " ++ contributor ++ "</h3>" ++ table_open ++ table_header
    ++ join (map render_row (c :: cs)) ++ "</table><br>".
Proof.
  unfold render_group, append_group.
  rewrite (fold_left_append render_row). cbn [append].
  rewrite !append_assoc. reflexivity.
Qed.

Lemma render_group_none (contributor : string) :
  render_group (contributor, [])
  = "<p>No recent contributions found for " ++ contributor ++ "</p><br>".
Proof. reflexivity. Qed.

(** *** The employer of a record *)

Lemma truthy_false (v : pyval) : truthy v = false <-> falsy_value v.
Proof.
  unfold falsy_value. split.
  - destruct v as [|b|n|f|s|l|d]; simpl; intros H.
    + now left.
    + subst b. right. now left.
    + apply negb_false_iff, Z.eqb_eq in H. subst n. right. right. now left.
    + destruct f as [sgn| | |]; try discriminate. do 3 right. left. now exists sgn.
    + apply negb_false_iff, String.eqb_eq in H. subst s. do 4 right. now left.
    + destruct l; [|discriminate]. do 5 right. now left.
    + destruct d; [|discriminate]. do 6 right. reflexivity.
  - intros [->|[->|[->|[[s ->]|[->|[->| ->]]]]]]; reflexivity.
Qed.


Lemma build_contribution_fields (raw : pyval) (ld date : datetime) (amount : pyfloat)
    (nm cname v : pyval) :
  other_fields raw date amount nm cname ->
  getitem raw "contributor_employer" = Ok v ->
  build_contribution raw ld
  = Ok (Contribution.mk date amount nm (py_or v not_reported) cname ld).
Proof.
  intros (Hd & Ha & Hn & Hc) Hv. unfold build_contribution.
  destruct (getitem raw "contribution_receipt_date") as [x|]; [|discriminate].
  simpl in Hd |- *. rewrite Hd. simpl.
  destruct (getitem raw "contribution_receipt_amount") as [y|]; [|discriminate].
  simpl in Ha |- *. rewrite Ha. simpl.
  rewrite Hn, Hv. simpl.
  destruct (getitem raw "committee") as [z|]; [|discriminate].
  simpl in Hc |- *. now rewrite Hc.
Qed.





(** C9. The replacement is triggered by falsiness: whenever the employer
    field of a raw result is present with a value Python takes for false
    ([None], the empty string, [False], zero, an empty list or dict), the
    record built from it has the employer "Not reported"; a value Python
    takes for true is kept as it is. *)
Theorem falsy_employer_becomes_not_reported :
  forall (raw : pyval) (ld date : datetime) (amount : pyfloat) (nm cname v : pyval),
    other_fields raw date amount nm cname ->
    getitem raw "contributor_employer" = Ok v ->
    (truthy v = false ->
       build_contribution raw ld
       = Ok (Contribution.mk date amount nm (PStr "Not reported") cname ld))
    /\ (truthy v = true ->
          build_contribution raw ld = Ok (Contribution.mk date amount nm v cname ld))
    /\ (truthy v = false <-> falsy_value v)
    /\ truthy (PStr "") = false.
Proof.
  intros raw ld date amount nm cname v Hother Hemp.
  rewrite (build_contribution_fields raw ld date amount nm cname v Hother Hemp).
  unfold py_or.
  repeat split; try (intros ->; reflexivity); apply truthy_false.
Qed.

(** *** What reading a response can raise *)

Lemma only_parse_errors_bind {A B : Type} (r : result A) (k : A -> result B) :
  only_parse_errors r ->
  (forall a, only_parse_errors (k a)) ->
  only_parse_errors (rbind r k).
Proof.
  intros Hr Hk e. destruct r as [a|e']; simpl.
  - apply Hk.
  - intros [= ->]. now apply Hr.
Qed.

Lemma only_parse_errors_ok {A : Type} (a : A) : only_parse_errors (Ok a).
Proof. intros e. discriminate. Qed.

Lemma getitem_raises (obj : pyval) (key : string) : only_parse_errors (getitem obj key).
Proof.
  intros e. unfold getitem.
  destruct obj; try (intros [= <-]; reflexivity).
  destruct (assoc key items); [discriminate|]. now intros [= <-].
Qed.

Lemma py_iter_raises (obj : pyval) : only_parse_errors (py_iter obj).
Proof.
  intros e. destruct obj; simpl; try discriminate; now intros [= <-].
Qed.

Lemma strptime_raises (data : pyval) (format : string) :
  only_parse_errors (strptime data format).
Proof.
  intros e. unfold strptime, datetime_new.
  destruct data; try (intros [= <-]; reflexivity).
  destruct (compile_format format) as [items|]; [|now intros [= <-]].
  destruct (match_items items s) as [|[cs [|c rest]] ms]; try (now intros [= <-]).
  destruct (valid_date _ _ _ && valid_time _ _ _ _); [discriminate|now intros [= <-]].
Qed.

Lemma float_of_int_raises (n : Z) : only_parse_errors (float_of_int n).
Proof.
  intros e. unfold float_of_int.
  destruct (binary_normalize 53 1024 n 0 false); try discriminate. now intros [= <-].
Qed.

Lemma py_float_raises (v : pyval) : only_parse_errors (py_float v).
Proof.
  destruct v; simpl; try (intros e [= <-]; reflexivity);
    try apply float_of_int_raises; try apply only_parse_errors_ok.
  intros e. destruct (float_of_str s); [discriminate|now intros [= <-]].
Qed.

Lemma process_result_raises (mld : datetime) (raw : pyval) :
  only_parse_errors (process_result mld raw).
Proof.
  unfold process_result, parse_load_date, build_contribution.
  repeat first
    [ apply only_parse_errors_ok
    | apply getitem_raises
    | apply strptime_raises
    | apply py_float_raises
    | apply only_parse_errors_bind; [|intros ?]
    | match goal with |- only_parse_errors (if ?c then _ else _) => destruct c end ].
Qed.

Lemma collect_raises (mld : datetime) (rs : list pyval) (acc : list Contribution.t) :
  only_parse_errors (collect mld rs acc).
Proof.
  revert acc. induction rs as [|raw rs IH]; intros acc; simpl.
  - apply only_parse_errors_ok.
  - apply only_parse_errors_bind; [apply process_result_raises|].
    intros kept. apply IH.
Qed.

Lemma parse_error_not_request (e : exn) :
  is_parse_error e = true -> is_RequestException e = false.
Proof. destruct e; simpl; congruence. Qed.

Lemma raise_for_status_error (response : Response) :
  400 <= status_code response < 600 ->
  raise_for_status response = Raise (RequestException HTTPError "").
Proof.
  intros Hs. unfold raise_for_status.
  replace (400 <=? status_code response) with true by (symmetry; apply Z.leb_le; lia).
  replace (status_code response <? 600) with true by (symmetry; apply Z.ltb_lt; lia).
  reflexivity.
Qed.

Lemma raise_for_status_ok (response : Response) :
  ~ 400 <= status_code response < 600 ->
  raise_for_status response = Ok tt.
Proof.
  intros Hs. unfold raise_for_status.
  destruct (400 <=? status_code response) eqn:H1; [|reflexivity].
  destruct (status_code response <? 600) eqn:H2; [|reflexivity].
  apply Z.leb_le in H1. apply Z.ltb_lt in H2. lia.
Qed.

(** *** Failures of a fetch *)

(** C3, as the code has it. A fetch whose two windows can be computed
    swallows exactly the request errors: when the GET itself raises a
    [RequestException] (network failure), when the status is 4xx or 5xx, and
    when the body is not JSON, it prints one diagnostic and returns the
    empty list; but when the decoded body has the wrong shape or a record
    holds a malformed date or amount, the [KeyError], [TypeError],
    [ValueError] or [OverflowError] of the parse is raised to the caller, and
    nothing is printed. *)
Theorem fetch_swallows_request_errors_only :
  forall (contributor : Contributor.t) (api_key : string) (dl dc : Z) (h : history)
         (start mld : datetime),
    sub_days (clock w h) dc = Ok start ->
    sub_days (clock w h) dl = Ok mld ->
    let query := query_params contributor api_key start (clock w h) in
    let h1 := (h ++ [Clock (clock w h)])%list in
    let h2 := (h1 ++ [HttpGet base_url query])%list in
    let run := get_fec_contributions w contributor api_key dl dc h in
    (forall e,
        requests_get w h1 base_url query = Raise e ->
        is_RequestException e = true ->
        run = (Ok [], (h2 ++ [Printed (fetch_diagnostic contributor e)])%list))
    /\ (forall response,
          requests_get w h1 base_url query = Ok response ->
          400 <= status_code response < 600 ->
          run = (Ok [], (h2 ++ [Printed (fetch_diagnostic contributor
                                          (RequestException HTTPError ""))])%list))
    /\ (forall response,
          requests_get w h1 base_url query = Ok response ->
          ~ 400 <= status_code response < 600 ->
          json_body response = None ->
          run = (Ok [], (h2 ++ [Printed (fetch_diagnostic contributor
                                          (RequestException JSONDecodeError ""))])%list))
    /\ (forall response data e,
          requests_get w h1 base_url query = Ok response ->
          ~ 400 <= status_code response < 600 ->
          json_body response = Some data ->
          (results <- getitem data "results" ;;
           items <- py_iter results ;;
           collect mld items []) = Raise e ->
          run = (Raise e, h2)
          /\ is_parse_error e = true
          /\ is_RequestException e = false).
Proof.
  intros contributor api_key dl dc h start mld Hs Hm query h1 h2 run.
  subst run. rewrite get_fec_contributions_run. cbv zeta. rewrite Hs, Hm.
  fold query h1 h2.
  split; [|split; [|split]].
  - intros e Hget He. rewrite Hget. simpl. now rewrite He.
  - intros response Hget Hst. rewrite Hget. simpl.
    unfold read_contributions, raw_results.
    now rewrite (raise_for_status_error _ Hst).
  - intros response Hget Hst Hbody. rewrite Hget. simpl.
    unfold read_contributions, raw_results, response_json.
    now rewrite (raise_for_status_ok _ Hst), Hbody.
  - intros response data e Hget Hst Hbody Hparse. rewrite Hget. simpl.
    unfold read_contributions, raw_results, response_json.
    rewrite (raise_for_status_ok _ Hst), Hbody. simpl.
    assert (Hpe : is_parse_error e = true).
    { revert Hparse.
      apply (only_parse_errors_bind (getitem data "results")); [apply getitem_raises|].
      intros results.
      apply only_parse_errors_bind; [apply py_iter_raises|].
      intros items. apply collect_raises. }
    pose proof (parse_error_not_request e Hpe) as Hnr.
    destruct (getitem data "results") as [results|e0]; simpl in Hparse |- *.
    + destruct (py_iter results) as [items|e1]; simpl in Hparse |- *.
      * rewrite Hparse, Hnr. auto.
      * injection Hparse as ->. rewrite Hnr. auto.
    + injection Hparse as ->. rewrite Hnr. auto.
Qed.

(** *** The loop over the registry *)

Lemma fetch_all_app (pre post : list Contributor.t) (key : string)
    (acc : dict (list Contribution.t)) (h : history) :
  fetch_all w (pre ++ post) key acc h
  = match fetch_all w pre key acc h with
    | (Ok d, h1) => fetch_all w post key d h1
    | (Raise e, h1) => (Raise e, h1)
    end.
Proof.
  revert acc h. induction pre as [|c pre IH]; intros acc h; simpl.
  - reflexivity.
  - unfold bind.
    destruct (get_fec_contributions w c key _ _ h) as [[cs|e] h1]; [|reflexivity].
    apply IH.
Qed.

Lemma fetch_all_fetched (registry : list Contributor.t) (key : string) (h h' : history)
    (groups : list (list Contribution.t)) :
  fetched w key registry h groups h' ->
  forall acc, fetch_all w registry key acc h = (Ok (store acc registry groups), h').
Proof.
  induction 1 as [h|c rest h h1 h2 cs groups Hc _ IH]; intros acc; simpl.
  - reflexivity.
  - unfold bind. rewrite Hc. apply IH.
Qed.

Lemma fetch_all_inv (registry : list Contributor.t) (key : string) (h h' : history)
    (acc d : dict (list Contribution.t)) :
  fetch_all w registry key acc h = (Ok d, h') ->
  exists groups, fetched w key registry h groups h' /\ d = store acc registry groups.
Proof.
  revert acc h. induction registry as [|c rest IH]; intros acc h; simpl.
  - intros [= <- <-]. exists []. split; [constructor|reflexivity].
  - unfold bind.
    destruct (get_fec_contributions w c key _ _ h) as [[cs|e] h1] eqn:Hc; [|discriminate].
    intros Hrest. destruct (IH _ _ Hrest) as (groups & Hf & ->).
    exists (cs :: groups). split; [econstructor; eassumption|reflexivity].
Qed.

Lemma fetched_length (registry : list Contributor.t) (key : string) (h h' : history)
    (groups : list (list Contribution.t)) :
  fetched w key registry h groups h' -> List.length groups = List.length registry.
Proof. induction 1; simpl; congruence. Qed.

Lemma fetched_app (pre post : list Contributor.t) (key : string) (h h1 h2 : history)
    (g1 g2 : list (list Contribution.t)) :
  fetched w key pre h g1 h1 ->
  fetched w key post h1 g2 h2 ->
  fetched w key (pre ++ post) h (g1 ++ g2) h2.
Proof.
  induction 1 as [h|c rest h ha hb cs groups Hc _ IH]; intros Hpost; simpl.
  - exact Hpost.
  - econstructor; [exact Hc|]. now apply IH.
Qed.

Lemma dict_set_new {V : Type} (k : string) (v : V) (d : dict V) :
  ~ In k (keys d) -> dict_set k v d = (d ++ [(k, v)])%list.
Proof.
  induction d as [|[k0 v0] d IH]; simpl; intros Hk; [reflexivity|].
  destruct (String.eqb_spec k k0) as [->|Hne]; [tauto|].
  rewrite IH; [reflexivity|tauto].
Qed.

Lemma store_distinct (registry : list Contributor.t)
    (groups : list (list Contribution.t)) (acc : dict (list Contribution.t)) :
  List.length groups = List.length registry ->
  NoDup (keys acc ++ names registry) ->
  store acc registry groups = (acc ++ combine (names registry) groups)%list.
Proof.
  revert groups acc.
  induction registry as [|c rest IH]; intros groups acc Hlen Hnd.
  - destruct groups; [|discriminate]. unfold store. simpl. now rewrite app_nil_r.
  - destruct groups as [|cs groups]; [discriminate|].
    unfold store. simpl. fold (store (dict_set (Contributor.name c) cs acc) rest groups).
    simpl in Hnd.
    assert (Hnew : ~ In (Contributor.name c) (keys acc)).
    { apply NoDup_remove_2 in Hnd. intros Hin. apply Hnd. apply in_or_app. now left. }
    rewrite (dict_set_new _ _ _ Hnew).
    rewrite IH.
    + now rewrite <- app_assoc.
    + simpl in Hlen. congruence.
    + unfold keys. rewrite map_app. simpl. rewrite <- app_assoc. simpl.
      exact Hnd.
Qed.

Lemma requested_names_app (h1 h2 : history) :
  requested_names (h1 ++ h2)%list = (requested_names h1 ++ requested_names h2)%list.
Proof. unfold requested_names. now rewrite http_requests_app, map_app. Qed.

(** A fetch that returns has sent one request, for its contributor. *)
Lemma get_fec_contributions_asks (c : Contributor.t) (key : string) (dl dc : Z)
    (h h' : history) (cs : list Contribution.t) :
  get_fec_contributions w c key dl dc h = (Ok cs, h') ->
  requested_names h' = (requested_names h ++ [Some (PStr (Contributor.name c))])%list.
Proof.
  rewrite get_fec_contributions_run. cbv zeta.
  destruct (sub_days (clock w h) dc) as [start|e]; [|discriminate].
  destruct (sub_days (clock w h) dl) as [mld|e]; [|discriminate].
  match goal with
  | |- context [match ?r with Ok _ => _ | Raise _ => _ end] => destruct r as [cs'|e]
  end.
  - intros [= _ <-]. rewrite !requested_names_app. simpl. now rewrite app_nil_r.
  - destruct (is_RequestException e); [|discriminate].
    intros [= _ <-]. rewrite !requested_names_app. simpl. now rewrite !app_nil_r.
Qed.

Lemma fetched_asks (registry : list Contributor.t) (key : string) (h h' : history)
    (groups : list (list Contribution.t)) :
  fetched w key registry h groups h' ->
  requested_names h' = (requested_names h ++ asked registry)%list.
Proof.
  induction 1 as [h|c rest h h1 h2 cs groups Hc _ IH]; simpl.
  - now rewrite app_nil_r.
  - rewrite IH, (get_fec_contributions_asks _ _ _ _ _ _ _ Hc), <- app_assoc.
    reflexivity.
Qed.

(** A group a fetch returns is in the order of the response to its
    request. *)
Lemma get_fec_contributions_order (c : Contributor.t) (key : string) (dl dc : Z)
    (h h' : history) (cs : list Contribution.t) :
  get_fec_contributions w c key dl dc h = (Ok cs, h') ->
  in_response_order w c key dl dc h cs.
Proof.
  rewrite get_fec_contributions_run. cbv zeta.
  unfold in_response_order, response_results.
  destruct (sub_days (clock w h) dc) as [start|e]; [|discriminate].
  destruct (sub_days (clock w h) dl) as [mld|e]; [|discriminate].
  destruct (requests_get w _ base_url _) as [response|e]; simpl.
  - unfold read_contributions.
    destruct (raw_results response) as [rs|e] eqn:Hraw; simpl.
    + destruct (collect mld rs []) as [cs'|e] eqn:Hcol.
      * intros [= <- _]. now apply collect_filter.
      * rewrite (parse_error_not_request e (collect_raises _ _ _ _ Hcol)).
        discriminate.
    + destruct (is_RequestException e); [|discriminate]. now intros [= <- _].
  - destruct (is_RequestException e); [|discriminate]. now intros [= <- _].
Qed.

Lemma fetched_order (registry : list Contributor.t) (key : string) (h h' : history)
    (groups : list (list Contribution.t)) :
  fetched w key registry h groups h' ->
  groups_in_response_order w key registry h groups.
Proof.
  induction 1 as [h|c rest h h1 h2 cs groups Hc _ IH]; simpl; [exact I|].
  split; [eapply get_fec_contributions_order; exact Hc|].
  now rewrite Hc.
Qed.

Lemma append_group_render (html : string) (item : string * list Contribution.t) :
  append_group html item = html ++ render_group item.
Proof.
  destruct item as [contributor [|c cs]].
  - reflexivity.
  - rewrite render_group_some. unfold append_group.
    rewrite (fold_left_append render_row). rewrite !append_assoc. reflexivity.
Qed.

Lemma format_email_body_sections (d : dict (list Contribution.t)) :
  format_email_body d
  = "<html><body><h2>FEC Contribution Alert</h2>" ++ join (map render_group d)
    ++ "</body></html>".
Proof.
  unfold format_email_body.
  assert (Hf : forall l html, fold_left append_group l html
                              = html ++ join (map render_group l)).
  { induction l as [|item l IH]; intros html; simpl.
    - now rewrite append_empty_r.
    - rewrite IH, append_group_render. apply append_assoc. }
  rewrite Hf. rewrite !append_assoc. reflexivity.
Qed.

Lemma keys_combine {V : Type} (ks : list string) (vs : list V) :
  List.length vs = List.length ks -> keys (combine ks vs) = ks.
Proof.
  revert vs. induction ks as [|k ks IH]; intros [|v vs]; simpl; try discriminate.
  - reflexivity.
  - intros [= Hlen]. f_equal. now apply IH.
Qed.

Lemma values_combine {V : Type} (ks : list string) (vs : list V) :
  List.length vs = List.length ks -> values (combine ks vs) = vs.
Proof.
  revert vs. induction ks as [|k ks IH]; intros [|v vs]; simpl; try discriminate.
  - reflexivity.
  - intros [= Hlen]. f_equal. now apply IH.
Qed.

Lemma assoc_combine_middle {V : Type} (ks1 ks2 : list string) (k : string)
    (vs1 vs2 : list V) (v : V) :
  ~ In k ks1 ->
  List.length vs1 = List.length ks1 ->
  assoc k (combine (ks1 ++ k :: ks2) (vs1 ++ v :: vs2)) = Some v.
Proof.
  revert vs1. induction ks1 as [|k1 ks1 IH]; intros [|v1 vs1]; simpl; try discriminate.
  - intros _ _. now rewrite String.eqb_refl.
  - intros Hk [= Hlen].
    destruct (String.eqb_spec k k1) as [->|_]; [tauto|].
    apply IH; [tauto|exact Hlen].
Qed.

Lemma any_values_nonempty (d : dict (list Contribution.t)) :
  any_values d = existsb nonempty (values d).
Proof. reflexivity. Qed.

Lemma any_values_false (d : dict (list Contribution.t)) :
  any_values d = false <-> (forall n cs, In (n, cs) d -> cs = []).
Proof.
  unfold any_values, values. induction d as [|[k v] d IH]; simpl.
  - split; [intros _ n cs []|reflexivity].
  - rewrite orb_false_iff, IH. split.
    + intros [Hv Hd] n cs [[= <- <-]|Hin]; [now destruct v|eauto].
    + intros Hall. split.
      * now rewrite (Hall k v) by now left.
      * intros n cs Hin. apply (Hall n cs). now right.
Qed.

(** *** A transport failure *)

(** C4. When the loop over the registry has fetched the contributors
    before [failed] and the request for [failed] raises a request error, the
    fetch of [failed] returns the empty list and the loop goes on with the
    contributors after it, whoever they are; when their fetches return,
    the loop ends with the mapping that gives every contributor of the
    registry, in order, its own group, and [failed] the empty group; a
    request was sent for every contributor; and the decision whether to
    notify depends on the other groups only. *)
Theorem transport_failure_empties_one_group_only :
  forall (pre post : list Contributor.t) (failed : Contributor.t) (key : string)
         (h h1 h3 : history) (g_pre g_post : list (list Contribution.t))
         (start mld : datetime) (e : exn),
    NoDup (names (pre ++ failed :: post)) ->
    fetched w key pre h g_pre h1 ->
    sub_days (clock w h1) default_days_back_contrib = Ok start ->
    sub_days (clock w h1) default_days_back_load = Ok mld ->
    requests_get w (h1 ++ [Clock (clock w h1)])%list base_url
      (query_params failed key start (clock w h1)) = Raise e ->
    is_RequestException e = true ->
    let h2 := (h1 ++ [ Clock (clock w h1);
                       HttpGet base_url (query_params failed key start (clock w h1));
                       Printed (fetch_diagnostic failed e) ])%list in
    let d := combine (names (pre ++ failed :: post)) (g_pre ++ [] :: g_post)%list in
    fetched w key post h2 g_post h3 ->
    get_fec_contributions w failed key default_days_back_load default_days_back_contrib h1
    = (Ok [], h2)
    /\ (forall rest,
          fetch_all w (pre ++ failed :: rest) key [] h
          = fetch_all w rest key (dict_set (Contributor.name failed) [] (store [] pre g_pre)) h2)
    /\ fetch_all w (pre ++ failed :: post) key [] h = (Ok d, h3)
    /\ keys d = names (pre ++ failed :: post)
    /\ assoc (Contributor.name failed) d = Some []
    /\ requested_names h3 = (requested_names h ++ asked (pre ++ failed :: post))%list
    /\ any_values d = existsb nonempty (g_pre ++ g_post).
Proof.
  intros pre post failed key h h1 h3 g_pre g_post start mld e
         Hnd Hpre Hs Hm Hget He h2 d Hpost.
  assert (Hfail : get_fec_contributions w failed key default_days_back_load
                    default_days_back_contrib h1 = (Ok [], h2)).
  { rewrite get_fec_contributions_run. cbv zeta. rewrite Hs, Hm, Hget. simpl.
    rewrite He. subst h2. now rewrite <- !app_assoc. }
  assert (Hall : fetched w key (pre ++ failed :: post) h (g_pre ++ [] :: g_post) h3).
  { eapply fetched_app; [exact Hpre|]. econstructor; eassumption. }
  pose proof (fetched_length _ _ _ _ _ Hall) as Hlen.
  pose proof (fetched_length _ _ _ _ _ Hpre) as Hlen_pre.
  split; [exact Hfail|]. split; [|split; [|split; [|split; [|split]]]].
  - intros rest. rewrite fetch_all_app, (fetch_all_fetched _ _ _ _ _ Hpre).
    simpl. unfold bind. now rewrite Hfail.
  - rewrite (fetch_all_fetched _ _ _ _ _ Hall).
    rewrite store_distinct; [reflexivity|exact Hlen|exact Hnd].
  - subst d. apply keys_combine. unfold names. now rewrite length_map.
  - subst d. unfold names. rewrite map_app. simpl.
    apply assoc_combine_middle.
    + unfold names in Hnd. rewrite map_app in Hnd. simpl in Hnd.
      apply NoDup_remove_2 in Hnd. intros Hin. apply Hnd. apply in_or_app. now left.
    + now rewrite length_map.
  - apply (fetched_asks _ _ _ _ _ Hall).
  - rewrite any_values_nonempty. subst d.
    rewrite values_combine by (unfold names; now rewrite length_map).
    rewrite !existsb_app. simpl. reflexivity.
Qed.

(** *** Order *)

Lemma contributors_distinct : NoDup (names contributors).
Proof.
  unfold names, contributors. simpl.
  repeat (constructor; [simpl; intuition discriminate|]).
  constructor.
Qed.

(** C8. When the fetches of a registry of distinct names return, the
    requests were sent in registry order, the mapping lists the contributors
    in registry order, every group lists, in the order of the response, the
    records built from the fresh results of the response the API gave to
    that contributor's request, the digest is the sequence of the groups'
    sections in the order of the mapping, and the table of a group is the
    sequence of its records' rows in the order of the group. *)
Theorem registry_and_response_order_are_kept :
  forall (registry : list Contributor.t) (key : string) (h h' : history)
         (groups : list (list Contribution.t)),
    NoDup (names registry) ->
    fetched w key registry h groups h' ->
    let d := combine (names registry) groups in
    fetch_all w registry key [] h = (Ok d, h')
    /\ keys d = names registry
    /\ values d = groups
    /\ requested_names h' = (requested_names h ++ asked registry)%list
    /\ groups_in_response_order w key registry h groups
    /\ format_email_body d
       = "<html><body><h2>FEC Contribution Alert</h2>" ++ join (map render_group d)
         ++ "</body></html>"
    /\ (forall n c cs,
          render_group (n, c :: cs)
          = "<h3>Contributions from " ++ n ++ "</h3>" ++ table_open ++ table_header
            ++ join (map render_row (c :: cs)) ++ "</table><br>")
    /\ (forall n,
          render_group (n, [])
          = "<p>No recent contributions found for " ++ n ++ "</p><br>")
    /\ NoDup (names contributors).
Proof.
  intros registry key h h' groups Hnd Hf d.
  pose proof (fetched_length _ _ _ _ _ Hf) as Hlen.
  assert (Hlen' : List.length groups = List.length (names registry))
    by (unfold names; now rewrite length_map).
  split; [|split; [|split; [|split; [|split; [|split; [|split; [|split]]]]]]].
  - rewrite (fetch_all_fetched _ _ _ _ _ Hf).
    rewrite store_distinct; [reflexivity|exact Hlen|exact Hnd].
  - now apply keys_combine.
  - now apply values_combine.
  - apply (fetched_asks _ _ _ _ _ Hf).
  - apply (fetched_order _ _ _ _ _ Hf).
  - apply format_email_body_sections.
  - intros n c cs. apply render_group_some.
  - intros n. apply render_group_none.
  - apply contributors_distinct.
Qed.

(** *** The run as a whole *)

Lemma monitor_contributions_on_run (registry : list Contributor.t) (h : history) :
  monitor_contributions_on w registry h
  = match gather w registry h with
    | (Raise e, h1) =>
        (Ok ("Error: " ++ str_exn e, 500),
         (h1 ++ [Printed ("Error in monitor_contributions: " ++ str_exn e)])%list)
    | (Ok (notification_email, cfg, d), h1) =>
        if any_values d then
          let today := clock w h1 in
          let msg := alert_message notification_email cfg d today in
          let h2 := (h1 ++ [Clock today])%list in
          match smtp_session w h2 cfg msg with
          | None =>
              (Ok ("Alert sent successfully", 200),
               (h2 ++ [SmtpSession cfg msg true])%list)
          | Some e =>
              (Ok ("Error: " ++ str_exn e, 500),
               (h2 ++ [ SmtpSession cfg msg false;
                        Printed ("Error sending email: " ++ str_exn e);
                        Printed ("Error in monitor_contributions: " ++ str_exn e) ])%list)
          end
        else (Ok ("No new contributions found", 200), h1)
    end.
Proof.
  unfold monitor_contributions_on, try_except, bind at 1.
  destruct (gather w registry h) as [[[[email cfg] d]|e] h1]; [|reflexivity].
  unfold notify_if_any.
  destruct (any_values d); [|reflexivity].
  unfold bind, now, send_email, try_except, smtp_send, print, raise, ret, alert_message.
  cbv zeta.
  destruct (smtp_session w _ cfg _) as [e|]; simpl; [|reflexivity].
  now rewrite <- !app_assoc.
Qed.

Lemma smtp_sessions_app (h1 h2 : history) :
  smtp_sessions (h1 ++ h2)%list = (smtp_sessions h1 ++ smtp_sessions h2)%list.
Proof. unfold smtp_sessions. apply flat_map_app. Qed.

Lemma get_fec_contributions_sends_no_mail (c : Contributor.t) (key : string) (dl dc : Z)
    (h : history) :
  smtp_sessions (snd (get_fec_contributions w c key dl dc h)) = smtp_sessions h.
Proof.
  rewrite get_fec_contributions_run. cbv zeta.
  destruct (sub_days (clock w h) dc) as [start|e];
    [|simpl; rewrite smtp_sessions_app; simpl; apply app_nil_r].
  destruct (sub_days (clock w h) dl) as [mld|e];
    [|simpl; rewrite smtp_sessions_app; simpl; apply app_nil_r].
  match goal with
  | |- context [match ?r with Ok _ => _ | Raise _ => _ end] => destruct r as [cs|e]
  end; [|destruct (is_RequestException e)];
    simpl; rewrite !smtp_sessions_app; simpl; now rewrite !app_nil_r.
Qed.

Lemma fetch_all_sends_no_mail (registry : list Contributor.t) (key : string)
    (acc : dict (list Contribution.t)) (h : history) :
  smtp_sessions (snd (fetch_all w registry key acc h)) = smtp_sessions h.
Proof.
  revert acc h. induction registry as [|c rest IH]; intros acc h; simpl.
  - reflexivity.
  - unfold bind.
    pose proof (get_fec_contributions_sends_no_mail c key default_days_back_load
                  default_days_back_contrib h) as Hc.
    destruct (get_fec_contributions w c key _ _ h) as [[cs|e] h1]; simpl in Hc.
    + now rewrite IH.
    + exact Hc.
Qed.

Lemma get_secret_sends_no_mail (secret_id : string) (h : history) :
  smtp_sessions (snd (get_secret w secret_id h)) = smtp_sessions h.
Proof.
  unfold get_secret, bind, client_new, environ_item, lift, client_access.
  destruct (secret_client w h); [reflexivity|].
  destruct (environ w "PROJECT_ID"); [|reflexivity].
  simpl. rewrite smtp_sessions_app. simpl. apply app_nil_r.
Qed.

Lemma load_configuration_sends_no_mail (h : history) :
  smtp_sessions (snd (load_configuration w h)) = smtp_sessions h.
Proof.
  unfold load_configuration, bind, environ_item, lift, ret.
  destruct (environ w "PROJECT_ID"); [|reflexivity].
  destruct (environ w "NOTIFICATION_EMAIL"); [|reflexivity].
  pose proof (get_secret_sends_no_mail "fec-api-key" h) as H1.
  destruct (get_secret w "fec-api-key" h) as [[key|e] h1]; simpl in H1; [|exact H1].
  pose proof (get_secret_sends_no_mail "smtp-password" h1) as H2.
  destruct (get_secret w "smtp-password" h1) as [[pw|e] h2]; simpl in H2;
    [|simpl; congruence].
  destruct (py_int _); simpl; congruence.
Qed.

Lemma gather_inv (registry : list Contributor.t) (h h1 : history) (email : string)
    (cfg : smtp_config) (d : dict (list Contribution.t)) :
  gather w registry h = (Ok (email, cfg, d), h1) ->
  exists key h0,
    load_configuration w h = (Ok (email, key, cfg), h0)
    /\ fetch_all w registry key [] h0 = (Ok d, h1).
Proof.
  unfold gather, bind at 1.
  destruct (load_configuration w h) as [[[[email' key] cfg']|e] h0]; [|discriminate].
  unfold bind, ret.
  destruct (fetch_all w registry key [] h0) as [[d'|e] h1'] eqn:Hf; [|discriminate].
  intros [= <- <- <- <-]. now exists key, h0.
Qed.

Lemma gather_sends_no_mail (registry : list Contributor.t) (h : history) :
  smtp_sessions (snd (gather w registry h)) = smtp_sessions h.
Proof.
  unfold gather, bind at 1.
  pose proof (load_configuration_sends_no_mail h) as H0.
  destruct (load_configuration w h) as [[[[email key] cfg]|e] h0]; simpl in H0;
    [|exact H0].
  unfold bind, ret.
  pose proof (fetch_all_sends_no_mail registry key [] h0) as H1.
  destruct (fetch_all w registry key [] h0) as [[d|e] h1]; simpl in H1 |- *; congruence.
Qed.

Lemma keys_dict_set {V : Type} (k k' : string) (v : V) (d : dict V) :
  In k' (keys (dict_set k v d)) <-> k' = k \/ In k' (keys d).
Proof.
  induction d as [|[k0 v0] d IH]; simpl.
  - intuition.
  - destruct (String.eqb_spec k k0) as [->|Hne]; simpl.
    + intuition.
    + rewrite IH. intuition.
Qed.

Lemma store_keeps_keys (registry : list Contributor.t)
    (groups : list (list Contribution.t)) (acc : dict (list Contribution.t)) (k : string) :
  In k (keys acc) -> In k (keys (store acc registry groups)).
Proof.
  revert groups acc. induction registry as [|c rest IH]; intros groups acc Hin.
  - exact Hin.
  - destruct groups as [|cs groups]; [exact Hin|].
    unfold store. simpl. apply IH. apply keys_dict_set. now right.
Qed.

Lemma store_has_names (registry : list Contributor.t)
    (groups : list (list Contribution.t)) (acc : dict (list Contribution.t))
    (c : Contributor.t) :
  List.length groups = List.length registry ->
  In c registry ->
  In (Contributor.name c) (keys (store acc registry groups)).
Proof.
  revert groups acc. induction registry as [|c0 rest IH]; intros groups acc Hlen Hin.
  - destruct Hin.
  - destruct groups as [|cs groups]; [discriminate|].
    unfold store. simpl.
    fold (store (dict_set (Contributor.name c0) cs acc) rest groups).
    destruct Hin as [->|Hin].
    + apply store_keeps_keys. apply keys_dict_set. now left.
    + apply IH; [simpl in Hlen; congruence|exact Hin].
Qed.

Lemma in_keys_item {V : Type} (k : string) (d : dict V) :
  In k (keys d) -> exists v, In (k, v) d.
Proof.
  unfold keys. rewrite in_map_iff. intros [[k' v] [Hk Hin]]. simpl in Hk. subst k'.
  now exists v.
Qed.

Lemma join_in {A : Type} (f : A -> string) (x : A) (l : list A) :
  In x l -> exists before after, join (map f l) = before ++ f x ++ after.
Proof.
  induction l as [|y l IH]; intros Hin; [destruct Hin|].
  destruct Hin as [->|Hin].
  - exists "", (join (map f l)). reflexivity.
  - destruct (IH Hin) as (before & after & Heq).
    exists (f y ++ before), after. simpl. rewrite Heq. now rewrite append_assoc.
Qed.

Lemma digest_has_section (d : dict (list Contribution.t))
    (item : string * list Contribution.t) :
  In item d ->
  exists before after, format_email_body d = before ++ render_group item ++ after.
Proof.
  intros Hin. rewrite format_email_body_sections.
  destruct (join_in render_group item d Hin) as (before & after & ->).
  exists ("<html><body><h2>FEC Contribution Alert</h2>" ++ before),
         (after ++ "</body></html>").
  rewrite !append_assoc. reflexivity.
Qed.

(** C10. For every contributor of the mapping with at least one record, the
    digest that [format_email_body] returns holds the contributor's table: a
    header row of exactly four labels, Date, Amount, Committee and Employer,
    followed by one row of five cells for each record, in order; the fifth
    cell is the load timestamp written [%Y-%m-%d %H:%M:%S] and has no label
    above it. *)
Theorem digest_rows_have_one_cell_more_than_the_header :
  forall (d : dict (list Contribution.t)) (contributor : string) (c : Contribution.t)
         (cs : list Contribution.t),
    In (contributor, c :: cs) d ->
    (exists before after : string,
       format_email_body d
       = before ++ "<h3>Contributions from " ++ contributor ++ "</h3>" ++ table_open
         ++ "<tr>" ++ join (map th header_labels) ++ "</tr>"
         ++ join (map (fun row =>
                         nl ++ sp16 ++ "<tr>" ++ nl ++ join (map td (row_cells row))
                         ++ sp16 ++ "</tr>" ++ nl ++ sp16) (c :: cs))
         ++ "</table><br>" ++ after)
    /\ header_labels = ["Date"; "Amount"; "Committee"; "Employer"]
    /\ List.length header_labels = 4%nat
    /\ Forall (fun row =>
         render_row row
         = nl ++ sp16 ++ "<tr>" ++ nl ++ join (map td (row_cells row))
           ++ sp16 ++ "</tr>" ++ nl ++ sp16
         /\ List.length (row_cells row) = 5%nat
         /\ nth_error (row_cells row) 4
            = Some (strftime (Contribution.load_date row) "%Y-%m-%d %H:%M:%S")
         /\ nth_error header_labels 4 = None) (c :: cs)
    /\ (forall t : datetime,
          strftime t "%Y-%m-%d %H:%M:%S"
          = pad4 (year t) ++ "-" ++ pad2 (month t) ++ "-" ++ pad2 (day t) ++ " "
            ++ pad2 (hour t) ++ ":" ++ pad2 (minute t) ++ ":" ++ pad2 (second t)).
Proof.
  intros d contributor c cs Hin.
  split.
  - destruct (digest_has_section d (contributor, c :: cs) Hin) as (before & after & ->).
    exists before, after. rewrite render_group_some.
    rewrite (map_ext render_row _ render_row_cells).
    change table_header with ("<tr>" ++ join (map th header_labels) ++ "</tr>").
    rewrite !append_assoc. reflexivity.
  - repeat split.
    apply Forall_forall. intros row _.
    split; [apply render_row_cells|]. repeat split.
Qed.

(** C2, as the code has it. Once the configuration is read and every fetch
    has returned, with mapping [d]: nothing was sent so far, and every
    contributor of the registry has a group in [d]. If every group is empty
    the run sends nothing and reports "No new contributions found".
    Otherwise one SMTP session is opened and no other, for one message whose
    body is the digest of [d], which holds the section of every group, the
    empty ones included; the run reports "Alert sent successfully" when the
    relay takes the message, and the 500 outcome "Error: ..." when the
    session raises. *)
Theorem notification_follows_the_groups :
  forall (registry : list Contributor.t) (h h1 : history) (notification_email : string)
         (cfg : smtp_config) (d : dict (list Contribution.t)),
    gather w registry h = (Ok (notification_email, cfg, d), h1) ->
    let run := monitor_contributions_on w registry h in
    let msg := alert_message notification_email cfg d (clock w h1) in
    let relay := smtp_session w (h1 ++ [Clock (clock w h1)])%list cfg msg in
    smtp_sessions h1 = smtp_sessions h
    /\ (forall c, In c registry -> exists cs, In (Contributor.name c, cs) d)
    /\ (any_values d = false <-> all_empty d)
    /\ (any_values d = false ->
          run = (Ok ("No new contributions found", 200), h1))
    /\ (any_values d = true ->
          msg_html msg = format_email_body d
          /\ (forall n cs, In (n, cs) d ->
                exists before after,
                  format_email_body d = before ++ render_group (n, cs) ++ after)
          /\ (forall n, render_group (n, [])
                        = "<p>No recent contributions found for " ++ n ++ "</p><br>")
          /\ (relay = None ->
                fst run = Ok ("Alert sent successfully", 200)
                /\ smtp_sessions (snd run) = (smtp_sessions h ++ [(cfg, msg, true)])%list)
          /\ (forall e, relay = Some e ->
                fst run = Ok ("Error: " ++ str_exn e, 500)
                /\ smtp_sessions (snd run)
                   = (smtp_sessions h ++ [(cfg, msg, false)])%list)).
Proof.
  intros registry h h1 email cfg d Hg run msg relay.
  assert (Hmail : smtp_sessions h1 = smtp_sessions h).
  { pose proof (gather_sends_no_mail registry h) as Hs. now rewrite Hg in Hs. }
  split; [exact Hmail|]. split; [|split; [apply any_values_false|split]].
  - intros c Hin.
    destruct (gather_inv _ _ _ _ _ _ Hg) as (key & h0 & _ & Hf).
    destruct (fetch_all_inv _ _ _ _ _ _ Hf) as (groups & Hfetched & ->).
    apply in_keys_item. apply store_has_names; [|exact Hin].
    eapply fetched_length. exact Hfetched.
  - intros Hany. subst run. rewrite monitor_contributions_on_run, Hg. now rewrite Hany.
  - intros Hany. split; [reflexivity|]. split; [|split; [|split]].
    + intros n cs Hin. now apply digest_has_section.
    + intros n. apply render_group_none.
    + intros Hrelay. subst run. rewrite monitor_contributions_on_run, Hg, Hany.
      cbv zeta. fold msg. fold relay. rewrite Hrelay. simpl.
      split; [reflexivity|].
      rewrite !smtp_sessions_app, Hmail. simpl. now rewrite app_nil_r.
    + intros e Hrelay. subst run. rewrite monitor_contributions_on_run, Hg, Hany.
      cbv zeta. fold msg. fold relay. rewrite Hrelay. simpl.
      split; [reflexivity|].
      rewrite !smtp_sessions_app, Hmail. simpl. now rewrite app_nil_r.
Qed.

(** C6. Whatever the world does, the entry point returns, and what it
    returns is one of three pairs: "Alert sent successfully" with 200, "No
    new contributions found" with 200, or "Error: " followed by the message
    of an exception with 500; the three exclude one another. No exception
    leaves it. In particular, when the groups call for a notification and
    the SMTP session raises, the exception is printed by [send_email],
    raised again, and reported as the 500 outcome. *)
Theorem entry_point_reports_one_of_three_outcomes :
  forall (registry : list Contributor.t) (h : history),
    monitor_contributions w = monitor_contributions_on w contributors
    /\ exists (body : string) (status : Z) (h' : history),
         monitor_contributions_on w registry h = (Ok (body, status), h')
         /\ ((body = "Alert sent successfully" /\ status = 200)
             \/ (body = "No new contributions found" /\ status = 200)
             \/ (exists e, body = "Error: " ++ str_exn e /\ status = 500))
         /\ "Alert sent successfully" <> "No new contributions found"
         /\ (200 <> 500)
         /\ (forall notification_email cfg d h1 e,
               gather w registry h = (Ok (notification_email, cfg, d), h1) ->
               any_values d = true ->
               smtp_session w (h1 ++ [Clock (clock w h1)])%list cfg
                 (alert_message notification_email cfg d (clock w h1)) = Some e ->
               body = "Error: " ++ str_exn e
               /\ status = 500
               /\ In ("Error sending email: " ++ str_exn e) (printed h')).
Proof.
  intros registry h. split; [reflexivity|].
  rewrite monitor_contributions_on_run.
  destruct (gather w registry h) as [[[[email cfg] d]|e] h1].
  - destruct (any_values d) eqn:Hany.
    + cbv zeta.
      destruct (smtp_session w _ cfg _) as [e|] eqn:Hrelay.
      * do 3 eexists. split; [reflexivity|].
        split; [right; right; now exists e|].
        split; [discriminate|]. split; [discriminate|].
        intros email' cfg' d' h1' e' [= <- <- <- <-] _ Hrelay'.
        rewrite Hrelay in Hrelay'. injection Hrelay' as <-.
        split; [reflexivity|]. split; [reflexivity|].
        unfold printed. rewrite flat_map_app. apply in_or_app. right.
        simpl. now left.
      * do 3 eexists. split; [reflexivity|].
        split; [now left|].
        split; [discriminate|]. split; [discriminate|].
        intros email' cfg' d' h1' e' [= <- <- <- <-] _ Hrelay'.
        rewrite Hrelay in Hrelay'. discriminate.
    + do 3 eexists. split; [reflexivity|].
      split; [right; now left|].
      split; [discriminate|]. split; [discriminate|].
      intros email' cfg' d' h1' e' [= <- <- <- <-] Hany'. congruence.
  - do 3 eexists. split; [reflexivity|].
    split; [right; right; now exists e|].
    split; [discriminate|]. split; [discriminate|].
    intros email' cfg' d' h1' e' [=].
Qed.

(** *** Beyond the fetch: configuration, aborted runs, mail *)

Lemma gather_run (registry : list Contributor.t) (h : history) :
  gather w registry h
  = match load_configuration w h with
    | (Raise e, h0) => (Raise e, h0)
    | (Ok (notification_email, fec_api_key, cfg), h0) =>
        match fetch_all w registry fec_api_key [] h0 with
        | (Ok d, h1) => (Ok (notification_email, cfg, d), h1)
        | (Raise e, h1) => (Raise e, h1)
        end
    end.
Proof.
  unfold gather, bind at 1.
  destruct (load_configuration w h) as [[[[email key] cfg]|e] h0]; [|reflexivity].
  unfold bind, ret.
  destruct (fetch_all w registry key [] h0) as [[d|e] h1]; reflexivity.
Qed.

Lemma get_secret_sends_no_request (secret_id : string) (h : history) :
  http_requests (snd (get_secret w secret_id h)) = http_requests h.
Proof.
  unfold get_secret, bind, client_new, environ_item, lift, client_access.
  destruct (secret_client w h); [reflexivity|].
  destruct (environ w "PROJECT_ID"); [|reflexivity].
  simpl. rewrite http_requests_app. simpl. apply app_nil_r.
Qed.

Lemma load_configuration_sends_no_request (h : history) :
  http_requests (snd (load_configuration w h)) = http_requests h.
Proof.
  unfold load_configuration, bind, environ_item, lift, ret.
  destruct (environ w "PROJECT_ID"); [|reflexivity].
  destruct (environ w "NOTIFICATION_EMAIL"); [|reflexivity].
  pose proof (get_secret_sends_no_request "fec-api-key" h) as H1.
  destruct (get_secret w "fec-api-key" h) as [[key|e] h1]; simpl in H1; [|exact H1].
  pose proof (get_secret_sends_no_request "smtp-password" h1) as H2.
  destruct (get_secret w "smtp-password" h1) as [[pw|e] h2]; simpl in H2;
    [|simpl; congruence].
  destruct (py_int _); simpl; congruence.
Qed.

(** X1. When reading the configuration raises (a required variable is not
    set, the secret store fails, the port is not a number), the run reports
    the 500 outcome with that exception's message, and neither the API nor
    the mail relay was contacted. *)
Theorem configuration_failure_contacts_nobody :
  forall (registry : list Contributor.t) (h h0 : history) (e : exn),
    load_configuration w h = (Raise e, h0) ->
    monitor_contributions_on w registry h
    = (Ok ("Error: " ++ str_exn e, 500),
       (h0 ++ [Printed ("Error in monitor_contributions: " ++ str_exn e)])%list)
    /\ http_requests h0 = http_requests h
    /\ smtp_sessions h0 = smtp_sessions h.
Proof.
  intros registry h h0 e Hconf.
  split; [|split].
  - rewrite monitor_contributions_on_run, gather_run, Hconf. reflexivity.
  - pose proof (load_configuration_sends_no_request h) as Hr. now rewrite Hconf in Hr.
  - pose proof (load_configuration_sends_no_mail h) as Hm. now rewrite Hconf in Hm.
Qed.

(** X2. When [PROJECT_ID] is not set, or it is set and [NOTIFICATION_EMAIL]
    is not, the run does nothing but print and report the 500 outcome whose
    message is that of the [KeyError] for the variable: the secret store is
    not asked, no request is sent, no mail either. *)
Theorem missing_variable_stops_the_run_at_once :
  forall (registry : list Contributor.t) (h : history) (var : string),
    environ w var = None ->
    var = "PROJECT_ID" \/ (var = "NOTIFICATION_EMAIL" /\ environ w "PROJECT_ID" <> None) ->
    monitor_contributions_on w registry h
    = (Ok ("Error: " ++ str_exn (KeyError var), 500),
       (h ++ [Printed ("Error in monitor_contributions: " ++ str_exn (KeyError var))])%list).
Proof.
  intros registry h var Hvar Hwhich.
  assert (Hconf : load_configuration w h = (Raise (KeyError var), h)).
  { unfold load_configuration, bind, environ_item, lift.
    destruct Hwhich as [->|[-> Hpid]].
    - now rewrite Hvar.
    - destruct (environ w "PROJECT_ID"); [|contradiction]. now rewrite Hvar. }
  rewrite monitor_contributions_on_run, gather_run, Hconf. reflexivity.
Qed.

(** X3. A fetch that raises ends the run: when the configuration is read,
    the contributors before [c] are fetched and the fetch of [c] raises [e]
    (a malformed record, say), the run reports the 500 outcome with the
    message of [e]; no request is sent for the contributors after [c], and
    no mail is sent, whatever the earlier contributors' groups hold. *)
Theorem raising_fetch_ends_the_run :
  forall (pre post : list Contributor.t) (c : Contributor.t) (h h0 h1 h2 : history)
         (notification_email key : string) (cfg : smtp_config)
         (groups : list (list Contribution.t)) (e : exn),
    load_configuration w h = (Ok (notification_email, key, cfg), h0) ->
    fetched w key pre h0 groups h1 ->
    get_fec_contributions w c key default_days_back_load default_days_back_contrib h1
    = (Raise e, h2) ->
    let run := monitor_contributions_on w (pre ++ c :: post) h in
    run = (Ok ("Error: " ++ str_exn e, 500),
           (h2 ++ [Printed ("Error in monitor_contributions: " ++ str_exn e)])%list)
    /\ http_requests (snd run) = http_requests h2
    /\ smtp_sessions (snd run) = smtp_sessions h.
Proof.
  intros pre post c h h0 h1 h2 email key cfg groups e Hconf Hpre Hc run.
  assert (Hrun : run = (Ok ("Error: " ++ str_exn e, 500),
                        (h2 ++ [Printed ("Error in monitor_contributions: "
                                          ++ str_exn e)])%list)).
  { subst run. rewrite monitor_contributions_on_run, gather_run, Hconf.
    rewrite fetch_all_app, (fetch_all_fetched _ _ _ _ _ Hpre).
    simpl. unfold bind. now rewrite Hc. }
  split; [exact Hrun|]. rewrite Hrun. simpl snd.
  split.
  - rewrite http_requests_app. simpl. apply app_nil_r.
  - rewrite smtp_sessions_app. simpl. rewrite app_nil_r.
    pose proof (get_fec_contributions_sends_no_mail c key default_days_back_load
                  default_days_back_contrib h1) as H2.
    rewrite Hc in H2. simpl in H2. rewrite H2.
    pose proof (fetch_all_sends_no_mail pre key [] h0) as H1.
    rewrite (fetch_all_fetched _ _ _ _ _ Hpre) in H1. simpl in H1. rewrite H1.
    pose proof (load_configuration_sends_no_mail h) as H0.
    now rewrite Hconf in H0.
Qed.

(** X4. A run opens at most one SMTP session, and none when it reports
    "No new contributions found"; when it reports "Alert sent successfully"
    it opened exactly one, which delivered the message. *)
Theorem run_opens_at_most_one_session :
  forall (registry : list Contributor.t) (h : history),
    exists sent : list (smtp_config * message * bool),
      smtp_sessions (snd (monitor_contributions_on w registry h))
      = (smtp_sessions h ++ sent)%list
      /\ (List.length sent <= 1)%nat
      /\ (fst (monitor_contributions_on w registry h)
          = Ok ("No new contributions found", 200) -> sent = [])
      /\ (fst (monitor_contributions_on w registry h)
          = Ok ("Alert sent successfully", 200) ->
          exists cfg msg, sent = [(cfg, msg, true)]).
Proof.
  intros registry h. rewrite monitor_contributions_on_run.
  pose proof (gather_sends_no_mail registry h) as Hg.
  destruct (gather w registry h) as [[[[email cfg] d]|e] h1]; simpl in Hg.
  - destruct (any_values d).
    + cbv zeta. destruct (smtp_session w _ cfg _) as [e|].
      * exists [(cfg, alert_message email cfg d (clock w h1), false)].
        split; [|split; [|split]].
        -- simpl snd. rewrite !smtp_sessions_app, Hg. simpl.
           now rewrite !app_nil_r.
        -- simpl. lia.
        -- simpl. intros [=].
        -- simpl. intros [=].
      * exists [(cfg, alert_message email cfg d (clock w h1), true)].
        split; [|split; [|split]].
        -- simpl snd. rewrite !smtp_sessions_app, Hg. simpl.
           now rewrite !app_nil_r.
        -- simpl. lia.
        -- simpl. intros [=].
        -- intros _. eauto.
    + exists []. split; [simpl; now rewrite app_nil_r, Hg|].
      split; [simpl; lia|]. split; [reflexivity|]. simpl. intros [=].
  - exists []. split; [|split; [simpl; lia|split; [reflexivity|]]].
    + simpl snd. rewrite smtp_sessions_app, Hg. simpl. now rewrite !app_nil_r.
    + simpl. intros [=].
Qed.

(** *** Stale results, windows that overflow *)

Lemma collect_all_stale (mld : datetime) (rs : list pyval) :
  Forall (fun raw => exists ld, parse_load_date raw = Ok ld /\ dt_gt ld mld = false) rs ->
  collect mld rs [] = Ok [].
Proof.
  induction 1 as [|raw rs (ld & Hld & Hgt) _ IH]; simpl; [reflexivity|].
  unfold process_result. rewrite Hld. simpl. rewrite Hgt. simpl. exact IH.
Qed.

(** X5. A result whose load timestamp is not after [min_load_date] is
    skipped without its other fields being read: when every result of a
    response is such, the fetch returns the empty list and prints nothing,
    even if contribution dates, amounts, names, employers or committees
    are missing or malformed. *)
Theorem stale_results_are_skipped_unread :
  forall (contributor : Contributor.t) (api_key : string) (dl dc : Z) (h : history)
         (start mld : datetime) (response : Response) (rs : list pyval),
    sub_days (clock w h) dc = Ok start ->
    sub_days (clock w h) dl = Ok mld ->
    requests_get w (h ++ [Clock (clock w h)])%list base_url
      (query_params contributor api_key start (clock w h)) = Ok response ->
    raw_results response = Ok rs ->
    Forall (fun raw => exists ld, parse_load_date raw = Ok ld /\ dt_gt ld mld = false) rs ->
    get_fec_contributions w contributor api_key dl dc h
    = (Ok [],
       (h ++ [ Clock (clock w h);
               HttpGet base_url (query_params contributor api_key start (clock w h)) ])%list).
Proof.
  intros contributor api_key dl dc h start mld response rs Hs Hm Hget Hraw Hstale.
  rewrite get_fec_contributions_run. cbv zeta. rewrite Hs, Hm, Hget. simpl.
  unfold read_contributions. rewrite Hraw. simpl.
  rewrite (collect_all_stale _ _ Hstale). now rewrite <- app_assoc.
Qed.

Lemma sub_days_raises (t : datetime) (n : Z) (e : exn) :
  sub_days t n = Raise e -> e = OverflowError.
Proof.
  unfold sub_days.
  destruct (999999999 <? Z.abs n); [now intros [= <-]|].
  destruct ((0 <? toordinal t - n) && (toordinal t - n <=? MAXORDINAL)).
  - destruct (ord2ymd (toordinal t - n)) as [[y m] d]. discriminate.
  - now intros [= <-].
Qed.

(** X6. The two windows are computed before the [try] block: when either
    cannot be computed (more than 999999999 days back, or a day outside the
    years 1 to 9999), the fetch raises [OverflowError] to its caller after
    reading the clock, without sending a request or printing a line. *)
Theorem window_overflow_is_raised_before_the_request :
  forall (contributor : Contributor.t) (api_key : string) (dl dc : Z) (h : history),
    (exists e, sub_days (clock w h) dc = Raise e)
    \/ (exists e, sub_days (clock w h) dl = Raise e) ->
    get_fec_contributions w contributor api_key dl dc h
    = (Raise OverflowError, (h ++ [Clock (clock w h)])%list)
    /\ (999999999 < Z.abs dc -> sub_days (clock w h) dc = Raise OverflowError)
    /\ (toordinal (clock w h) <= dc -> sub_days (clock w h) dc = Raise OverflowError).
Proof.
  intros contributor api_key dl dc h Hfail.
  split; [|split].
  - rewrite get_fec_contributions_run. cbv zeta.
    destruct (sub_days (clock w h) dc) as [start|e1] eqn:Hs.
    + destruct Hfail as [[e He]|[e He]]; [discriminate|].
      rewrite He. now rewrite (sub_days_raises _ _ _ He).
    + now rewrite (sub_days_raises _ _ _ Hs).
  - intros Hbig. unfold sub_days.
    now replace (999999999 <? Z.abs dc) with true by (symmetry; apply Z.ltb_lt; lia).
  - intros Hearly. unfold sub_days.
    destruct (999999999 <? Z.abs dc); [reflexivity|].
    now replace (0 <? toordinal (clock w h) - dc) with false
      by (symmetry; apply Z.ltb_ge; lia).
Qed.

(** *** Every record reaches the digest *)

Lemma render_group_has_row (n : string) (cs : list Contribution.t) (c : Contribution.t) :
  In c cs ->
  exists before after, render_group (n, cs) = before ++ render_row c ++ after.
Proof.
  intros Hin. destruct cs as [|c0 cs0]; [destruct Hin|].
  rewrite render_group_some.
  destruct (join_in render_row c (c0 :: cs0) Hin) as (before & after & ->).
  exists ("<h3>Contributions from " ++ n ++ "</h3>" ++ table_open ++ table_header ++ before),
         (after ++ "</table><br>").
  rewrite !append_assoc. reflexivity.
Qed.

(** X7. The digest drops nothing: for every group of the mapping and every
    record of the group, the digest holds the record's row, which holds the
    record's committee and employer as they are (no character is escaped or
    replaced). *)
Theorem digest_holds_every_record :
  forall (d : dict (list Contribution.t)) (n : string) (cs : list Contribution.t)
         (c : Contribution.t),
    In (n, cs) d ->
    In c cs ->
    (exists before after, format_email_body d = before ++ render_row c ++ after)
    /\ (exists before after,
          format_email_body d
          = before ++ "<td>" ++ py_str (Contribution.committee_name c) ++ "</td>" ++ nl
            ++ sp20 ++ "<td>" ++ py_str (Contribution.employer c) ++ "</td>" ++ after).
Proof.
  intros d n cs c Hd Hc.
  destruct (digest_has_section d (n, cs) Hd) as (b1 & a1 & Hdigest).
  destruct (render_group_has_row n cs c Hc) as (b2 & a2 & Hgroup).
  assert (Hrow : format_email_body d = (b1 ++ b2) ++ render_row c ++ (a2 ++ a1)).
  { rewrite Hdigest, Hgroup. rewrite !append_assoc. reflexivity. }
  split.
  - exists (b1 ++ b2), (a2 ++ a1). exact Hrow.
  - exists ((b1 ++ b2) ++ nl ++ sp16 ++ "<tr>" ++ nl
            ++ sp20 ++ "<td>" ++ strftime (Contribution.date c) "%Y-%m-%d" ++ "</td>" ++ nl
            ++ sp20 ++ "<td>$" ++ format_amount (Contribution.amount c) ++ "</td>" ++ nl
            ++ sp20),
           ((nl ++ sp20 ++ "<td>"
             ++ strftime (Contribution.load_date c) "%Y-%m-%d %H:%M:%S"
             ++ "</td>" ++ nl ++ sp16 ++ "</tr>" ++ nl ++ sp16) ++ a2 ++ a1).
    rewrite Hrow. unfold render_row. rewrite !append_assoc. reflexivity.
Qed.

(** *** Contributors of the same name *)

Lemma keys_dict_set_old {V : Type} (k : string) (v : V) (d : dict V) :
  In k (keys d) -> keys (dict_set k v d) = keys d.
Proof.
  induction d as [|[k0 v0] d IH]; simpl; intros Hin; [destruct Hin|].
  destruct (String.eqb_spec k k0) as [->|Hne]; [reflexivity|].
  simpl. f_equal. apply IH. destruct Hin as [Heq|Hin]; [congruence|exact Hin].
Qed.

Lemma existsb_eqb_in (k : string) (l : list string) :
  existsb (String.eqb k) l = true <-> In k l.
Proof.
  rewrite existsb_exists. split.
  - intros (x & Hin & Heq). apply String.eqb_eq in Heq. now subst x.
  - intros Hin. exists k. split; [exact Hin|apply String.eqb_refl].
Qed.

Lemma first_occurrences_ext (seen seen' l : list string) :
  (forall k, In k seen <-> In k seen') ->
  first_occurrences seen l = first_occurrences seen' l.
Proof.
  revert seen seen'. induction l as [|k l IH]; intros seen seen' Hsame; [reflexivity|].
  simpl.
  assert (Hk : existsb (String.eqb k) seen = existsb (String.eqb k) seen').
  { destruct (existsb (String.eqb k) seen) eqn:H1; symmetry.
    - apply existsb_eqb_in. apply Hsame. now apply existsb_eqb_in.
    - destruct (existsb (String.eqb k) seen') eqn:H2; [|reflexivity].
      apply existsb_eqb_in, Hsame, existsb_eqb_in in H2. congruence. }
  rewrite Hk. destruct (existsb (String.eqb k) seen').
  - now apply IH.
  - f_equal. apply IH. intros k'. simpl. now rewrite Hsame.
Qed.

Lemma store_cons (acc : dict (list Contribution.t)) (c : Contributor.t)
    (rest : list Contributor.t) (cs : list Contribution.t)
    (groups : list (list Contribution.t)) :
  store acc (c :: rest) (cs :: groups)
  = store (dict_set (Contributor.name c) cs acc) rest groups.
Proof. reflexivity. Qed.

Lemma store_keys (registry : list Contributor.t) (groups : list (list Contribution.t))
    (acc : dict (list Contribution.t)) :
  List.length groups = List.length registry ->
  keys (store acc registry groups)
  = (keys acc ++ first_occurrences (keys acc) (names registry))%list.
Proof.
  revert groups acc. induction registry as [|c rest IH]; intros [|cs groups] acc Hlen;
    try discriminate.
  - unfold store. simpl. now rewrite app_nil_r.
  - rewrite store_cons, IH by (simpl in Hlen; congruence). simpl.
    destruct (existsb (String.eqb (Contributor.name c)) (keys acc)) eqn:Hseen.
    + apply existsb_eqb_in in Hseen. now rewrite (keys_dict_set_old _ _ _ Hseen).
    + assert (Hnew : ~ In (Contributor.name c) (keys acc)).
      { intros Hin. apply existsb_eqb_in in Hin. congruence. }
      rewrite (dict_set_new _ _ _ Hnew). unfold keys at 1 2. rewrite map_app. simpl.
      rewrite <- app_assoc. simpl. f_equal. f_equal.
      apply first_occurrences_ext. intros k. rewrite in_app_iff. simpl.
      unfold keys. tauto.
Qed.

Lemma first_occurrences_fresh (seen l : list string) :
  NoDup (first_occurrences seen l)
  /\ (forall k, In k (first_occurrences seen l) -> ~ In k seen).
Proof.
  revert seen. induction l as [|k l IH]; intros seen; simpl.
  - split; [constructor|intros k []].
  - destruct (existsb (String.eqb k) seen) eqn:Hseen; [apply IH|].
    destruct (IH (k :: seen)) as [Hnd Hfresh]. split.
    + constructor; [|exact Hnd]. intros Hin. apply (Hfresh k Hin). now left.
    + intros k' [<-|Hin].
      * intros Hin. apply existsb_eqb_in in Hin. congruence.
      * intros Hs. apply (Hfresh k' Hin). now right.
Qed.

Lemma assoc_dict_set_same {V : Type} (k : string) (v : V) (d : dict V) :
  assoc k (dict_set k v d) = Some v.
Proof.
  induction d as [|[k0 v0] d IH]; simpl.
  - now rewrite String.eqb_refl.
  - destruct (String.eqb_spec k k0) as [->|Hne]; simpl.
    + now rewrite String.eqb_refl.
    + destruct (String.eqb_spec k k0); [contradiction|exact IH].
Qed.

Lemma assoc_store_other (registry : list Contributor.t)
    (groups : list (list Contribution.t)) (acc : dict (list Contribution.t)) (k : string) :
  ~ In k (names registry) -> assoc k (store acc registry groups) = assoc k acc.
Proof.
  revert groups acc. induction registry as [|c rest IH]; intros groups acc Hk.
  - reflexivity.
  - destruct groups as [|cs groups]; [reflexivity|].
    rewrite store_cons, IH by (intros Hin; apply Hk; now right).
    apply assoc_dict_set_other. intros Heq. apply Hk. now left.
Qed.

Lemma store_app (pre post : list Contributor.t) (g_pre g_post : list (list Contribution.t))
    (acc : dict (list Contribution.t)) :
  List.length g_pre = List.length pre ->
  store acc (pre ++ post) (g_pre ++ g_post) = store (store acc pre g_pre) post g_post.
Proof.
  revert g_pre acc. induction pre as [|c pre IH]; intros [|cs g_pre] acc Hlen;
    try discriminate.
  - reflexivity.
  - simpl app. rewrite !store_cons. apply IH. simpl in Hlen. congruence.
Qed.

(** X8. Registry entries of the same name share one entry of the mapping:
    when the fetches of a registry return, whatever names it holds, the
    mapping lists each name once, at the place of its first entry, and a
    name's group is the one fetched for its last entry (earlier groups of
    that name are overwritten). *)
Theorem same_name_keeps_first_place_and_last_group :
  forall (registry : list Contributor.t) (key : string) (h h' : history)
         (groups : list (list Contribution.t)),
    fetched w key registry h groups h' ->
    exists d : dict (list Contribution.t),
      fetch_all w registry key [] h = (Ok d, h')
      /\ keys d = first_occurrences [] (names registry)
      /\ NoDup (keys d)
      /\ (forall pre c post g_pre cs g_post,
            registry = (pre ++ c :: post)%list ->
            groups = (g_pre ++ cs :: g_post)%list ->
            List.length g_pre = List.length pre ->
            ~ In (Contributor.name c) (names post) ->
            assoc (Contributor.name c) d = Some cs).
Proof.
  intros registry key h h' groups Hf.
  pose proof (fetched_length _ _ _ _ _ Hf) as Hlen.
  exists (store [] registry groups).
  split; [apply (fetch_all_fetched _ _ _ _ _ Hf)|].
  assert (Hkeys : keys (store [] registry groups) = first_occurrences [] (names registry))
    by (rewrite store_keys by exact Hlen; reflexivity).
  split; [exact Hkeys|]. split.
  - rewrite Hkeys. apply first_occurrences_fresh.
  - intros pre c post g_pre cs g_post -> -> Hpre Hlast.
    rewrite store_app by exact Hpre. rewrite store_cons.
    rewrite assoc_store_other by exact Hlast.
    apply assoc_dict_set_same.
Qed.

(** *** The order of days *)

Lemma month_fact (leap : bool) (m : Z) :
  1 <= m <= 12 ->
  0 <= month_start leap m
  /\ month_start leap m + month_length leap m <= 365 + Z.b2z leap
  /\ (forall m', m < m' <= 12 ->
        month_start leap m + month_length leap m <= month_start leap m').
Proof.
  intros Hm.
  assert (Hall : all_months_ok = true) by (vm_compute; reflexivity).
  unfold all_months_ok in Hall. apply andb_true_iff in Hall.
  assert (Hok : month_ok leap m = true).
  { destruct Hall as [Hf Ht]. rewrite forallb_forall in Hf, Ht.
    destruct leap; [apply Ht|apply Hf]; apply in_zrange; simpl; lia. }
  unfold month_ok in Hok.
  apply andb_true_iff in Hok. destruct Hok as [Hok Hnext].
  apply andb_true_iff in Hok. destruct Hok as [H0 H1].
  split; [lia|]. split; [lia|].
  intros m' Hm'. rewrite forallb_forall in Hnext.
  specialize (Hnext m' (in_zrange 12 1 m' ltac:(simpl; lia))).
  apply orb_true_iff in Hnext. destruct Hnext as [Hle|Hle]; lia.
Qed.

Lemma days_before_month_flag (y m : Z) :
  days_before_month y m = month_start (is_leap y) m.
Proof. reflexivity. Qed.

Lemma days_in_month_flag (y m : Z) :
  days_in_month y m = month_length (is_leap y) m.
Proof. reflexivity. Qed.

Lemma days_before_year_succ (y : Z) :
  days_before_year (y + 1) = days_before_year y + 365 + Z.b2z (is_leap y).
Proof.
  unfold days_before_year, is_leap. cbv zeta.
  replace (y + 1 - 1) with y by ring.
  destruct (Z.eqb_spec (y mod 4) 0) as [H4|H4];
  destruct (Z.eqb_spec (y mod 100) 0) as [H100|H100];
  destruct (Z.eqb_spec (y mod 400) 0) as [H400|H400];
  cbn [negb orb andb Z.b2z]; Z.div_mod_to_equations; lia.
Qed.

Lemma valid_date_bounds (y m d : Z) :
  valid_date y m d = true ->
  1 <= y <= 9999 /\ 1 <= m <= 12 /\ 1 <= d <= days_in_month y m.
Proof.
  unfold valid_date, between, MINYEAR, MAXYEAR. intros H.
  repeat (apply andb_true_iff in H; destruct H as [H ?]). lia.
Qed.

(** A date lies within its year. *)
Lemma ymd2ord_in_year (y m d : Z) :
  valid_date y m d = true ->
  days_before_year y < ymd2ord y m d <= days_before_year (y + 1).
Proof.
  intros Hv. apply valid_date_bounds in Hv. destruct Hv as (Hy & Hm & Hd).
  rewrite days_before_year_succ. unfold ymd2ord.
  rewrite days_before_month_flag. rewrite days_in_month_flag in Hd.
  destruct (month_fact (is_leap y) m Hm) as (H0 & H1 & _). lia.
Qed.

Lemma ymd2ord_lt (y m d y' m' d' : Z) :
  valid_date y m d = true ->
  valid_date y' m' d' = true ->
  date_lt y m d y' m' d' ->
  ymd2ord y m d < ymd2ord y' m' d'.
Proof.
  intros Hv Hv' Hlt.
  pose proof (ymd2ord_in_year _ _ _ Hv) as Hin.
  pose proof (ymd2ord_in_year _ _ _ Hv') as Hin'.
  apply valid_date_bounds in Hv, Hv'.
  destruct Hv as (Hy & Hm & Hd). destruct Hv' as (Hy' & Hm' & Hd').
  destruct Hlt as [Hlt|[<- [Hlt|[<- Hlt]]]].
  - pose proof (days_before_year_mono (y + 1) y' ltac:(lia)). lia.
  - unfold ymd2ord. rewrite !days_before_month_flag.
    rewrite days_in_month_flag in Hd.
    destruct (month_fact (is_leap y) m Hm) as (_ & _ & Hnext).
    specialize (Hnext m' ltac:(lia)). lia.
  - unfold ymd2ord. lia.
Qed.

Lemma toordinal_bounds (t : datetime) :
  valid_datetime t = true ->
  days_before_year (year t) < toordinal t <= MAXORDINAL.
Proof.
  unfold valid_datetime. intros Hv. apply andb_true_iff in Hv. destruct Hv as [Hv _].
  pose proof (ymd2ord_in_year _ _ _ Hv) as Hin.
  apply valid_date_bounds in Hv. destruct Hv as (Hy & _).
  pose proof (days_before_year_mono (year t + 1) 10000 ltac:(lia)) as Hmax.
  change (days_before_year 10000) with MAXORDINAL in Hmax.
  unfold toordinal. lia.
Qed.

Lemma dt_gt_not_earlier_day (a b : datetime) :
  dt_gt a b = true ->
  ~ date_lt (year a) (month a) (day a) (year b) (month b) (day b).
Proof.
  unfold dt_gt, dt_compare, dt_fields, date_lt. simpl.
  destruct (Z.compare_spec (year a) (year b)) as [Hy|Hy|Hy]; try discriminate; [|lia].
  destruct (Z.compare_spec (month a) (month b)) as [Hm|Hm|Hm]; try discriminate; [|lia].
  destruct (Z.compare_spec (day a) (day b)) as [Hd|Hd|Hd]; try discriminate; lia.
Qed.

Lemma earlier_day_is_lt (a b : datetime) :
  date_lt (year a) (month a) (day a) (year b) (month b) (day b) ->
  dt_compare a b = Lt.
Proof.
  unfold dt_compare, dt_fields, date_lt. simpl.
  intros [Hy|[Hy [Hm|[Hm Hd]]]].
  - now rewrite (proj2 (Z.compare_lt_iff _ _) Hy).
  - rewrite Hy, Z.compare_refl. now rewrite (proj2 (Z.compare_lt_iff _ _) Hm).
  - rewrite Hy, Hm, !Z.compare_refl. now rewrite (proj2 (Z.compare_lt_iff _ _) Hd).
Qed.

Lemma date_trichotomy (y m d y' m' d' : Z) :
  date_lt y m d y' m' d' \/ (y = y' /\ m = m' /\ d = d') \/ date_lt y' m' d' y m d.
Proof. unfold date_lt. lia. Qed.

Lemma toordinal_le_of_dt_gt (a b : datetime) :
  valid_datetime a = true -> valid_datetime b = true ->
  dt_gt a b = true -> toordinal b <= toordinal a.
Proof.
  intros Ha Hb Hgt. apply dt_gt_not_earlier_day in Hgt.
  unfold valid_datetime in Ha, Hb.
  apply andb_true_iff in Ha, Hb. destruct Ha as [Ha _]. destruct Hb as [Hb _].
  unfold toordinal.
  destruct (date_trichotomy (year a) (month a) (day a) (year b) (month b) (day b))
    as [Hlt|[(-> & -> & ->)|Hlt]]; [contradiction|lia|].
  pose proof (ymd2ord_lt _ _ _ _ _ _ Hb Ha Hlt). lia.
Qed.

Lemma lex_compare_gt_trans (a b c : list Z) :
  List.length a = List.length b -> List.length c = List.length b ->
  lex_compare a b = Gt -> lex_compare c b <> Gt -> lex_compare a c = Gt.
Proof.
  revert b c. induction a as [|x a IH]; intros [|y b] [|z c]; simpl; try discriminate.
  intros [= Hab] [= Hcb].
  destruct (Z.compare_spec x y) as [Hxy|Hxy|Hxy]; try discriminate.
  - subst y. destruct (Z.compare_spec z x) as [Hzx|Hzx|Hzx].
    + subst z. rewrite Z.compare_refl. now apply IH.
    + intros _ _. now rewrite (proj2 (Z.compare_gt_iff _ _) Hzx).
    + intros _ H. congruence.
  - intros _. destruct (Z.compare_spec z y) as [Hzy|Hzy|Hzy].
    + intros _. subst z. now rewrite (proj2 (Z.compare_gt_iff _ _) Hxy).
    + intros _. now rewrite (proj2 (Z.compare_gt_iff x z) ltac:(lia)).
    + intros H. congruence.
Qed.

Lemma sub_days_order (t : datetime) (n n' : Z) (t1 t2 : datetime) :
  n <= n' ->
  sub_days t n = Ok t1 -> sub_days t n' = Ok t2 ->
  dt_compare t2 t1 <> Gt.
Proof.
  intros Hn H1 H2.
  destruct (sub_days_ok _ _ _ H1) as (Ho1 & Hv1 & HH1 & HM1 & HS1 & Hu1).
  destruct (sub_days_ok _ _ _ H2) as (Ho2 & Hv2 & HH2 & HM2 & HS2 & Hu2).
  destruct (date_trichotomy (year t2) (month t2) (day t2) (year t1) (month t1) (day t1))
    as [Hlt|[(Hy & Hm & Hd)|Hlt]].
  - rewrite (earlier_day_is_lt _ _ Hlt). discriminate.
  - unfold dt_compare, dt_fields.
    rewrite Hy, Hm, Hd, HH1, HM1, HS1, Hu1, HH2, HM2, HS2, Hu2.
    rewrite lex_compare_refl. discriminate.
  - pose proof (ymd2ord_lt _ _ _ _ _ _ Hv1 Hv2 Hlt) as Hord.
    unfold toordinal in Ho1, Ho2. lia.
Qed.

Lemma dt_gt_wider (t : datetime) (n n' : Z) (t1 t2 ld : datetime) :
  n <= n' ->
  sub_days t n = Ok t1 -> sub_days t n' = Ok t2 ->
  dt_gt ld t1 = true -> dt_gt ld t2 = true.
Proof.
  intros Hn H1 H2 Hgt.
  pose proof (sub_days_order t n n' t1 t2 Hn H1 H2) as Hle.
  unfold dt_gt in *. unfold dt_compare in *.
  rewrite (lex_compare_gt_trans (dt_fields ld) (dt_fields t1) (dt_fields t2));
    try reflexivity; [|exact Hle].
  destruct (lex_compare (dt_fields ld) (dt_fields t1)); try discriminate. reflexivity.
Qed.

Lemma strptime_valid (data : pyval) (format : string) (t : datetime) :
  strptime data format = Ok t -> valid_datetime t = true.
Proof.
  unfold strptime, datetime_new.
  destruct data; try discriminate.
  destruct (compile_format format) as [items|]; [|discriminate].
  destruct (match_items items s) as [|[cs [|c rest]] ms]; try discriminate.
  destruct (valid_date _ _ _ && valid_time _ _ _ _) eqn:Hv; [|discriminate].
  intros [= <-]. exact Hv.
Qed.

Lemma build_contribution_dates (raw : pyval) (ld : datetime) (c : Contribution.t) :
  build_contribution raw ld = Ok c ->
  Contribution.load_date c = ld /\ valid_datetime (Contribution.date c) = true.
Proof.
  unfold build_contribution. intros Hb.
  destruct (getitem raw "contribution_receipt_date"); simpl in Hb; [|discriminate].
  destruct (strptime _ _) as [date|] eqn:Hdate; simpl in Hb; [|discriminate].
  destruct (getitem raw "contribution_receipt_amount"); simpl in Hb; [|discriminate].
  destruct (py_float _); simpl in Hb; [|discriminate].
  destruct (getitem raw "contributor_name"); simpl in Hb; [|discriminate].
  destruct (getitem raw "contributor_employer"); simpl in Hb; [|discriminate].
  destruct (getitem raw "committee"); simpl in Hb; [|discriminate].
  destruct (getitem _ "name"); simpl in Hb; [|discriminate].
  injection Hb as <-. simpl. split; [reflexivity|].
  eapply strptime_valid. exact Hdate.
Qed.

(** X9. Every record a fetch returns carries a well-formed load timestamp
    and contribution date, and was loaded no earlier than the calendar day
    [days_back_load] days before the day of the fetch. *)
Theorem returned_records_were_loaded_within_the_window :
  forall (contributor : Contributor.t) (api_key : string) (dl dc : Z) (h h' : history)
         (cs : list Contribution.t),
    get_fec_contributions w contributor api_key dl dc h = (Ok cs, h') ->
    Forall (fun c =>
              toordinal (clock w h) - dl <= toordinal (Contribution.load_date c)
              /\ valid_datetime (Contribution.load_date c) = true
              /\ valid_datetime (Contribution.date c) = true) cs.
Proof.
  intros contributor api_key dl dc h h' cs.
  rewrite get_fec_contributions_run. cbv zeta.
  destruct (sub_days (clock w h) dc) as [start|e]; [|discriminate].
  destruct (sub_days (clock w h) dl) as [mld|e] eqn:Hm; [|discriminate].
  destruct (sub_days_ok _ _ _ Hm) as (Hord & Hvalid & _).
  destruct (requests_get w _ base_url _) as [response|e]; simpl;
    [|destruct (is_RequestException e); [intros [= <- _]; constructor|discriminate]].
  unfold read_contributions.
  destruct (raw_results response) as [rs|e]; simpl;
    [|destruct (is_RequestException e); [intros [= <- _]; constructor|discriminate]].
  destruct (collect mld rs []) as [cs'|e] eqn:Hcol;
    [|destruct (is_RequestException e); [intros [= <- _]; constructor|discriminate]].
  intros [= <- _]. apply collect_filter in Hcol.
  induction Hcol as [|raw c rs' cs'' (ld & Hld & Hgt & Hb) _ IH]; constructor; [|exact IH].
  destruct (build_contribution_dates _ _ _ Hb) as [-> Hdate].
  unfold parse_load_date in Hld.
  destruct (getitem raw "load_date") as [x|]; simpl in Hld; [|discriminate].
  pose proof (strptime_valid _ _ _ Hld) as Hvld.
  split; [|split; assumption].
  rewrite <- Hord.
  assert (Hdays : ~ date_lt (year ld) (month ld) (day ld) (year mld) (month mld) (day mld))
    by now apply dt_gt_not_earlier_day.
  unfold valid_datetime in Hvld. apply andb_true_iff in Hvld. destruct Hvld as [Hvd _].
  unfold toordinal.
  destruct (date_trichotomy (year ld) (month ld) (day ld) (year mld) (month mld) (day mld))
    as [Hlt|[(-> & -> & ->)|Hlt]]; [contradiction|lia|].
  pose proof (ymd2ord_lt _ _ _ _ _ _ Hvalid Hvd Hlt). lia.
Qed.

Lemma collect_wider (mld mld' : datetime) (rs : list pyval) :
  (forall ld, dt_gt ld mld = true -> dt_gt ld mld' = true) ->
  forall cs cs' : list Contribution.t,
    collect mld rs [] = Ok cs ->
    collect mld' rs [] = Ok cs' ->
    cs = filter (fun r => dt_gt (Contribution.load_date r) mld) cs'.
Proof.
  intros Hw. induction rs as [|raw rs IH]; intros cs cs'; simpl.
  - intros [= <-] [= <-]. reflexivity.
  - unfold process_result.
    destruct (parse_load_date raw) as [ld|e]; simpl; [|discriminate].
    destruct (dt_gt ld mld) eqn:Hs.
    + rewrite (Hw _ Hs).
      destruct (build_contribution raw ld) as [c|e] eqn:Hb; simpl; [|discriminate].
      rewrite (collect_acc mld rs [c]), (collect_acc mld' rs [c]).
      destruct (collect mld rs []) as [cs0|e]; simpl; [|discriminate].
      destruct (collect mld' rs []) as [cs0'|e]; simpl; [|discriminate].
      intros [= <-] [= <-]. simpl.
      rewrite (proj1 (build_contribution_dates _ _ _ Hb)), Hs.
      f_equal. now apply IH.
    + destruct (dt_gt ld mld') eqn:Hl; simpl; [|apply IH].
      destruct (build_contribution raw ld) as [c|e] eqn:Hb; simpl; [|discriminate].
      rewrite (collect_acc mld' rs [c]).
      destruct (collect mld' rs []) as [cs0'|e]; simpl; [|discriminate].
      intros Hc [= <-]. simpl.
      rewrite (proj1 (build_contribution_dates _ _ _ Hb)), Hs.
      now apply IH.
Qed.

(** X10. Looking further back loses no record: when the fetch with
    [days_back_load = n] and the fetch with a longer window [n' >= n] both
    return, from the same history, the records of the first are those of the
    second whose load timestamp is after the first's bound, in the same
    order, and the two fetches leave the same history. (The longer window
    may raise where the shorter returns: it builds records the shorter one
    skips unread.) *)
Theorem longer_window_keeps_more :
  forall (contributor : Contributor.t) (api_key : string) (n n' dc : Z)
         (h h1 h1' : history) (cs cs' : list Contribution.t),
    n <= n' ->
    get_fec_contributions w contributor api_key n dc h = (Ok cs, h1) ->
    get_fec_contributions w contributor api_key n' dc h = (Ok cs', h1') ->
    exists mld mld' : datetime,
      sub_days (clock w h) n = Ok mld
      /\ sub_days (clock w h) n' = Ok mld'
      /\ toordinal mld' <= toordinal mld
      /\ cs = filter (fun r => dt_gt (Contribution.load_date r) mld) cs'
      /\ h1 = h1'.
Proof.
  intros contributor api_key n n' dc h h1 h1' cs cs' Hn.
  rewrite !get_fec_contributions_run. cbv zeta.
  destruct (sub_days (clock w h) dc) as [start|e]; [|discriminate].
  destruct (sub_days (clock w h) n) as [mld|e] eqn:Hm; [|discriminate].
  destruct (sub_days (clock w h) n') as [mld'|e] eqn:Hm'; [|discriminate].
  intros Hshort Hlong. exists mld, mld'.
  split; [reflexivity|]. split; [reflexivity|]. split.
  { destruct (sub_days_ok _ _ _ Hm) as (-> & _).
    destruct (sub_days_ok _ _ _ Hm') as (-> & _). lia. }
  destruct (requests_get w _ base_url _) as [response|e]; simpl in Hshort, Hlong.
  - unfold read_contributions in Hshort, Hlong.
    destruct (raw_results response) as [rs|e]; simpl in Hshort, Hlong.
    + destruct (collect mld rs []) as [cs0|e] eqn:Hc.
      * destruct (collect mld' rs []) as [cs0'|e] eqn:Hc'.
        -- injection Hshort as <- <-. injection Hlong as <- <-.
           split; [|reflexivity].
           apply (collect_wider mld mld' rs); [|exact Hc|exact Hc'].
           intros ld. apply (dt_gt_wider (clock w h) n n' mld mld' ld Hn Hm Hm').
        -- rewrite (parse_error_not_request e (collect_raises _ _ _ _ Hc')) in Hlong.
           discriminate.
      * rewrite (parse_error_not_request e (collect_raises _ _ _ _ Hc)) in Hshort.
        discriminate.
    + destruct (is_RequestException e); [|discriminate].
      injection Hshort as <- <-. injection Hlong as <- <-. now split.
  - destruct (is_RequestException e); [|discriminate].
    injection Hshort as <- <-. injection Hlong as <- <-. now split.
Qed.

(** X11. With a clock that shows a valid date of year 2 or later, the two
    default windows can always be computed, the contribution window opens no
    later than the load window, and the fetch sends its request. *)
Theorem default_fetch_always_sends_its_request :
  forall (contributor : Contributor.t) (api_key : string) (h : history),
    valid_datetime (clock w h) = true ->
    2 <= year (clock w h) ->
    exists start mld : datetime,
      sub_days (clock w h) default_days_back_contrib = Ok start
      /\ sub_days (clock w h) default_days_back_load = Ok mld
      /\ dt_compare start mld <> Gt
      /\ http_requests (snd (get_fec_contributions w contributor api_key
                               default_days_back_load default_days_back_contrib h))
         = (http_requests h
            ++ [(base_url, query_params contributor api_key start (clock w h))])%list.
Proof.
  intros contributor api_key h Hvalid Hyear.
  pose proof (toordinal_bounds _ Hvalid) as Hbounds.
  pose proof (days_before_year_mono 2 (year (clock w h)) Hyear) as Hfloor.
  change (days_before_year 2) with 365 in Hfloor.
  assert (Hsub : forall n, 0 <= n <= 365 ->
                           exists t', sub_days (clock w h) n = Ok t').
  { intros n Hn. unfold sub_days.
    replace (999999999 <? Z.abs n) with false by (symmetry; apply Z.ltb_ge; lia).
    replace (0 <? toordinal (clock w h) - n) with true by (symmetry; apply Z.ltb_lt; lia).
    replace (toordinal (clock w h) - n <=? MAXORDINAL) with true
      by (symmetry; apply Z.leb_le; lia).
    simpl. destruct (ord2ymd _) as [[y m] d]. eauto. }
  destruct (Hsub default_days_back_contrib) as [start Hs]; [unfold default_days_back_contrib; lia|].
  destruct (Hsub default_days_back_load) as [mld Hm]; [unfold default_days_back_load; lia|].
  exists start, mld. split; [exact Hs|]. split; [exact Hm|]. split.
  - apply (sub_days_order (clock w h) default_days_back_load default_days_back_contrib);
      [unfold default_days_back_load, default_days_back_contrib; lia|exact Hm|exact Hs].
  - rewrite get_fec_contributions_run. cbv zeta. rewrite Hs, Hm.
    match goal with
    | |- context [match ?r with Ok _ => _ | Raise _ => _ end] => destruct r as [cs|e]
    end.
    + simpl snd. rewrite !http_requests_app. simpl. now rewrite app_nil_r.
    + destruct (is_RequestException e); simpl snd;
        rewrite !http_requests_app; simpl; now rewrite ?app_nil_r.
Qed.

(** ** Formatting and parsing dates *)

Lemma digit_char_cases (n : Z) :
  In (digit_char n) ["0"; "1"; "2"; "3"; "4"; "5"; "6"; "7"; "8"; "9"]%char
  /\ Z.of_nat (nat_of_ascii (digit_char n) - 48) = n mod 10.
Proof.
  unfold digit_char.
  assert (H : 0 <= n mod 10 < 10) by (apply Z.mod_pos_bound; lia).
  assert (Hc : n mod 10 = 0 \/ n mod 10 = 1 \/ n mod 10 = 2 \/ n mod 10 = 3
               \/ n mod 10 = 4 \/ n mod 10 = 5 \/ n mod 10 = 6 \/ n mod 10 = 7
               \/ n mod 10 = 8 \/ n mod 10 = 9) by lia.
  repeat (destruct Hc as [->|Hc]; [split; [simpl; tauto|reflexivity]|]).
  rewrite Hc. split; [simpl; tauto|reflexivity].
Qed.

Lemma digit_char_is_digit (n : Z) : in_range "0" (digit_char n) "9" = true.
Proof.
  destruct (digit_char_cases n) as [Hin _].
  repeat (destruct Hin as [<-|Hin]; [reflexivity|]). destruct Hin.
Qed.

Lemma rmatch_digit (n : Z) (s : string) :
  rmatch digit (String (digit_char n) s) = [(String (digit_char n) "", s)].
Proof. unfold digit. cbn [rmatch]. now rewrite digit_char_is_digit. Qed.

Lemma rmatch_year (y : Z) (s : string) :
  rmatch (Cat digit (Cat digit (Cat digit digit))) (pad4 y ++ s) = [(pad4 y, s)].
Proof.
  unfold pad4, pad2. cbn [append].
  cbn [rmatch]. rewrite !rmatch_digit. cbn [flat_map map app fst snd].
  rewrite !rmatch_digit. cbn [flat_map map app fst snd].
  rewrite !rmatch_digit. cbn [flat_map map app fst snd].
  rewrite !rmatch_digit. reflexivity.
Qed.

Ltac each_numeral :=
  repeat (constructor; [intros s; vm_compute; reflexivity|]); constructor.

Lemma months_read : Forall (reads_two_digits (directive "m")) (zrange 12 1).
Proof. each_numeral. Qed.

Lemma days_read : Forall (reads_two_digits (directive "d")) (zrange 31 1).
Proof. each_numeral. Qed.

Lemma hours_read : Forall (reads_two_digits (directive "H")) (zrange 24 0).
Proof. each_numeral. Qed.

Lemma minutes_read : Forall (reads_two_digits (directive "M")) (zrange 60 0).
Proof. each_numeral. Qed.

Lemma seconds_read : Forall (reads_two_digits (directive "S")) (zrange 60 0).
Proof. each_numeral. Qed.

Lemma reads_in_range (r : regex) (count : nat) (lo v : Z) :
  Forall (reads_two_digits r) (zrange count lo) ->
  lo <= v < lo + Z.of_nat count ->
  reads_two_digits r v.
Proof.
  intros Hall Hv. rewrite Forall_forall in Hall. apply Hall. now apply in_zrange.
Qed.

Lemma match_group (g : ascii) (r : regex) (rest : list pattern_item) (s s' s'' txt : string)
    (others : list (string * string)) (cs : captures) (more : list (captures * string)) :
  rmatch r s = (txt, s') :: others ->
  match_items rest s' = (cs, s'') :: more ->
  exists more', match_items (Group g r :: rest) s = ((g, txt) :: cs, s'') :: more'.
Proof.
  intros Hr Hrest. cbn [match_items]. rewrite Hr. cbn [flat_map fst snd].
  rewrite Hrest. cbn [map app fst snd]. eauto.
Qed.

Lemma match_literal (c : ascii) (rest : list pattern_item) (s : string) :
  match_items (Literal c :: rest) (String c s) = (match_items rest s ++ [])%list.
Proof.
  cbn [match_items rmatch]. rewrite Ascii.eqb_refl. reflexivity.
Qed.

Lemma int_of_text_digit (acc n : Z) (s : string) :
  int_of_text acc (String (digit_char n) s) = int_of_text (10 * acc + n mod 10) s.
Proof.
  cbn [int_of_text]. rewrite digit_char_is_digit.
  now rewrite (proj2 (digit_char_cases n)).
Qed.

Lemma int_of_pad2 (v : Z) : 0 <= v <= 99 -> int_of_text 0 (pad2 v) = v.
Proof.
  intros Hv. unfold pad2. rewrite !int_of_text_digit. cbn [int_of_text].
  Z.div_mod_to_equations. lia.
Qed.

Lemma int_of_pad4 (y : Z) : 0 <= y <= 9999 -> int_of_text 0 (pad4 y) = y.
Proof.
  intros Hy. unfold pad4, pad2. rewrite !int_of_text_digit. cbn [int_of_text].
  Z.div_mod_to_equations. lia.
Qed.

Lemma valid_datetime_bounds (t : datetime) :
  valid_datetime t = true ->
  1 <= year t <= 9999 /\ 1 <= month t <= 12 /\ 1 <= day t <= 31
  /\ 0 <= hour t <= 23 /\ 0 <= minute t <= 59 /\ 0 <= second t <= 59.
Proof.
  unfold valid_datetime, valid_date, valid_time, between, MINYEAR, MAXYEAR. intros H.
  repeat (apply andb_true_iff in H; destruct H as [H ?]).
  assert (Hdim : days_in_month (year t) (month t) <= 31).
  { unfold days_in_month. destruct ((month t =? 2) && is_leap (year t)); [lia|].
    assert (Hc : month t = 1 \/ month t = 2 \/ month t = 3 \/ month t = 4 \/ month t = 5
                 \/ month t = 6 \/ month t = 7 \/ month t = 8 \/ month t = 9
                 \/ month t = 10 \/ month t = 11 \/ month t = 12) by lia.
    repeat (destruct Hc as [->|Hc]; [vm_compute; discriminate|]).
    rewrite Hc. vm_compute. discriminate. }
  lia.
Qed.

Lemma match_last_group (g : ascii) (r : regex) (v : Z) :
  reads_two_digits r v ->
  exists more, match_items [Group g r] (pad2 v ++ "") = ([(g, pad2 v)], "") :: more.
Proof.
  intros Hr. eapply match_group; [apply Hr|reflexivity].
Qed.

Lemma match_group_then_literal (g : ascii) (r : regex) (v : Z) (c : ascii)
    (rest : list pattern_item) (s s' : string) (cs : captures)
    (more : list (captures * string)) :
  reads_two_digits r v ->
  match_items rest s = (cs, s') :: more ->
  exists more', match_items (Group g r :: Literal c :: rest) (pad2 v ++ String c s)
                = ((g, pad2 v) :: cs, s') :: more'.
Proof.
  intros Hr Hrest. eapply match_group; [apply Hr|].
  rewrite match_literal, Hrest. reflexivity.
Qed.

Lemma match_year_then_literal (c : ascii) (y : Z)
    (rest : list pattern_item) (s s' : string) (cs : captures)
    (more : list (captures * string)) :
  match_items rest s = (cs, s') :: more ->
  exists more', match_items (Group "Y" (directive "Y") :: Literal c :: rest)
                            (pad4 y ++ String c s)
                = (("Y"%char, pad4 y) :: cs, s') :: more'.
Proof.
  intros Hrest. eapply match_group; [apply rmatch_year|].
  rewrite match_literal, Hrest. reflexivity.
Qed.

Lemma strptime_strftime_timestamp (t : datetime) :
  valid_datetime t = true ->
  microsecond t = 0 ->
  strptime (PStr (strftime t "%Y-%m-%dT%H:%M:%S")) "%Y-%m-%dT%H:%M:%S" = Ok t.
Proof.
  intros Hvalid Hus.
  destruct (valid_datetime_bounds t Hvalid) as (Hy & Hm & Hd & HH & HM & HS).
  change (strftime t "%Y-%m-%dT%H:%M:%S")
    with (pad4 (year t) ++ String "-" (pad2 (month t) ++ String "-" (pad2 (day t)
          ++ String "T" (pad2 (hour t) ++ String ":" (pad2 (minute t)
          ++ String ":" (pad2 (second t) ++ "")))))).
  unfold strptime.
  change (compile_format "%Y-%m-%dT%H:%M:%S")
    with (Some [ Group "Y" (directive "Y"); Literal "-"; Group "m" (directive "m");
                 Literal "-"; Group "d" (directive "d"); Literal "T";
                 Group "H" (directive "H"); Literal ":"; Group "M" (directive "M");
                 Literal ":"; Group "S" (directive "S") ]).
  destruct (match_last_group "S" _ (second t)
              (reads_in_range _ 60 0 (second t) seconds_read ltac:(cbn; lia))) as [m6 H6].
  destruct (match_group_then_literal "M" _ (minute t) ":" _ _ _ _ _
              (reads_in_range _ 60 0 (minute t) minutes_read ltac:(cbn; lia)) H6) as [m5 H5].
  destruct (match_group_then_literal "H" _ (hour t) ":" _ _ _ _ _
              (reads_in_range _ 24 0 (hour t) hours_read ltac:(cbn; lia)) H5) as [m4 H4].
  destruct (match_group_then_literal "d" _ (day t) "T" _ _ _ _ _
              (reads_in_range _ 31 1 (day t) days_read ltac:(cbn; lia)) H4) as [m3 H3].
  destruct (match_group_then_literal "m" _ (month t) "-" _ _ _ _ _
              (reads_in_range _ 12 1 (month t) months_read ltac:(cbn; lia)) H3) as [m2 H2].
  destruct (match_year_then_literal "-" (year t) _ _ _ _ _ H2) as [m1 H1].
  rewrite H1.
  unfold field. cbn [capture Ascii.eqb Bool.eqb].
  rewrite int_of_pad4, !int_of_pad2 by lia.
  unfold datetime_new.
  unfold valid_datetime in Hvalid. rewrite Hus in Hvalid. rewrite Hvalid.
  rewrite <- Hus. now destruct t.
Qed.

Lemma strptime_strftime_date (t : datetime) :
  valid_datetime t = true ->
  hour t = 0 -> minute t = 0 -> second t = 0 -> microsecond t = 0 ->
  strptime (PStr (strftime t "%Y-%m-%d")) "%Y-%m-%d" = Ok t.
Proof.
  intros Hvalid H0 M0 S0 Hus.
  destruct (valid_datetime_bounds t Hvalid) as (Hy & Hm & Hd & _).
  change (strftime t "%Y-%m-%d")
    with (pad4 (year t) ++ String "-" (pad2 (month t) ++ String "-" (pad2 (day t) ++ ""))).
  unfold strptime.
  change (compile_format "%Y-%m-%d")
    with (Some [ Group "Y" (directive "Y"); Literal "-"; Group "m" (directive "m");
                 Literal "-"; Group "d" (directive "d") ]).
  destruct (match_last_group "d" _ (day t)
              (reads_in_range _ 31 1 (day t) days_read ltac:(cbn; lia))) as [m3 H3].
  destruct (match_group_then_literal "m" _ (month t) "-" _ _ _ _ _
              (reads_in_range _ 12 1 (month t) months_read ltac:(cbn; lia)) H3) as [m2 H2].
  destruct (match_year_then_literal "-" (year t) _ _ _ _ _ H2) as [m1 H1].
  rewrite H1.
  unfold field. cbn [capture Ascii.eqb Bool.eqb].
  rewrite int_of_pad4, !int_of_pad2 by lia.
  unfold datetime_new.
  unfold valid_datetime in Hvalid. rewrite H0, M0, S0, Hus in Hvalid. rewrite Hvalid.
  rewrite <- H0 at 1. rewrite <- M0 at 1. rewrite <- S0 at 1. rewrite <- Hus.
  now destruct t.
Qed.

Lemma kept_load_dates (mld : datetime) (rs : list pyval) (ts : list datetime) :
  Forall2 (fun raw t => parse_load_date raw = Ok t) rs ts ->
  forall cs : list Contribution.t,
    Forall2 (kept_from mld) (filter (fresh mld) rs) cs ->
    map Contribution.load_date cs = filter (fun t => dt_gt t mld) ts.
Proof.
  induction 1 as [|raw t rs ts Ht _ IH]; intros cs; simpl.
  - intros Hk. inversion Hk. reflexivity.
  - unfold fresh at 1. rewrite Ht.
    destruct (dt_gt t mld) eqn:Hgt; [|apply IH].
    intros Hk. inversion Hk as [|raw' c rs' cs' (ld & Hld & _ & Hb) Hrest]; subst.
    rewrite Ht in Hld. injection Hld as <-.
    simpl. rewrite (proj1 (build_contribution_dates _ _ _ Hb)).
    f_equal. now apply IH.
Qed.

(** X14. Load timestamps written in the API's form are read back as they
    are and decide what a fetch keeps: when every result of the response
    carries as [load_date] the zero-padded text [YYYY-MM-DDTHH:MM:SS] of a
    well-formed datetime (from year 1000 on) and the fetch returns, the load
    timestamps of the records it returns are exactly those datetimes that are
    later than the bound, in the order of the response. *)
Theorem canonical_load_timestamp_is_read_back :
  forall (contributor : Contributor.t) (api_key : string) (dl dc : Z) (h h' : history)
         (start mld : datetime) (response : Response) (rs : list pyval)
         (ts : list datetime) (cs : list Contribution.t),
    sub_days (clock w h) dc = Ok start ->
    sub_days (clock w h) dl = Ok mld ->
    requests_get w (h ++ [Clock (clock w h)])%list base_url
      (query_params contributor api_key start (clock w h)) = Ok response ->
    raw_results response = Ok rs ->
    Forall2 (fun raw t =>
               getitem raw "load_date" = Ok (PStr (strftime t "%Y-%m-%dT%H:%M:%S"))
               /\ valid_datetime t = true /\ microsecond t = 0 /\ 1000 <= year t)
            rs ts ->
    get_fec_contributions w contributor api_key dl dc h = (Ok cs, h') ->
    map Contribution.load_date cs = filter (fun t => dt_gt t mld) ts.
Proof.
  intros contributor api_key dl dc h h' start mld response rs ts cs
    Hstart Hmld Hget Hraw Hts.
  rewrite get_fec_contributions_run. cbv zeta.
  rewrite Hstart, Hmld, Hget. simpl. unfold read_contributions. rewrite Hraw. simpl.
  destruct (collect mld rs []) as [cs0|e] eqn:Hc.
  - intros [= <- _]. apply (kept_load_dates mld rs ts); [|now apply collect_filter].
    eapply Forall2_impl; [|exact Hts].
    intros raw t (Hload & Hvalid & Hus & _).
    unfold parse_load_date. rewrite Hload. cbn [rbind].
    now apply strptime_strftime_timestamp.
  - rewrite (parse_error_not_request e (collect_raises _ _ _ _ Hc)). discriminate.
Qed.

Lemma digest_has_row (d : dict (list Contribution.t)) (n : string)
    (cs : list Contribution.t) (c : Contribution.t) :
  In (n, cs) d ->
  In c cs ->
  exists before after, format_email_body d = before ++ render_row c ++ after.
Proof.
  intros Hin Hc.
  destruct (digest_has_section d (n, cs) Hin) as (b1 & a1 & ->).
  destruct (render_group_has_row n cs c Hc) as (b2 & a2 & ->).
  exists (b1 ++ b2), (a2 ++ a1). rewrite !append_assoc. reflexivity.
Qed.

(** X15. A contribution date is shown as it was received: when a record
    built from a result whose [contribution_receipt_date] is the zero-padded
    text [YYYY-MM-DD] of a well-formed date (from year 1000 on) is in a group
    of the mapping, the record carries that date at midnight and the digest
    holds a row that opens with a cell showing that very text. *)
Theorem receipt_date_is_shown_as_received :
  forall (d : dict (list Contribution.t)) (n : string) (cs : list Contribution.t)
         (t ld : datetime) (raw : pyval) (c : Contribution.t),
    valid_datetime t = true ->
    hour t = 0 -> minute t = 0 -> second t = 0 -> microsecond t = 0 ->
    1000 <= year t ->
    getitem raw "contribution_receipt_date" = Ok (PStr (strftime t "%Y-%m-%d")) ->
    build_contribution raw ld = Ok c ->
    In (n, cs) d ->
    In c cs ->
    Contribution.date c = t
    /\ exists before after : string,
         format_email_body d
         = before ++ "<tr>" ++ nl ++ sp20 ++ "<td>" ++ strftime t "%Y-%m-%d" ++ "</td>"
           ++ after.
Proof.
  intros d n cs t ld raw c Hvalid H0 M0 S0 Hus _ Hraw Hb Hin Hc.
  assert (Hdate : Contribution.date c = t).
  { unfold build_contribution in Hb. rewrite Hraw in Hb. cbn [rbind] in Hb.
    rewrite (strptime_strftime_date t Hvalid H0 M0 S0 Hus) in Hb. cbn [rbind] in Hb.
    destruct (getitem raw "contribution_receipt_amount"); simpl in Hb; [|discriminate].
    destruct (py_float _); simpl in Hb; [|discriminate].
    destruct (getitem raw "contributor_name"); simpl in Hb; [|discriminate].
    destruct (getitem raw "contributor_employer"); simpl in Hb; [|discriminate].
    destruct (getitem raw "committee"); simpl in Hb; [|discriminate].
    destruct (getitem _ "name"); simpl in Hb; [|discriminate].
    now injection Hb as <-. }
  split; [exact Hdate|].
  destruct (digest_has_row d n cs c Hin Hc) as (before & after & ->).
  unfold render_row. rewrite Hdate.
  exists (before ++ nl ++ sp16). eexists.
  rewrite !append_assoc. reflexivity.
Qed.

(** ** The configuration and the key *)

Lemma load_configuration_key (h h0 : history) (notification_email key : string)
    (cfg : smtp_config) :
  load_configuration w h = (Ok (notification_email, key, cfg), h0) ->
  exists project : string,
    environ w "PROJECT_ID" = Some project
    /\ access_secret_version w h (secret_path project "fec-api-key") = Ok key.
Proof.
  unfold load_configuration, get_secret, bind, environ_item, lift, ret, client_new,
    client_access.
  destruct (environ w "PROJECT_ID") as [project|]; [|discriminate].
  destruct (environ w "NOTIFICATION_EMAIL") as [email'|]; [|discriminate].
  destruct (secret_client w h); [discriminate|].
  fold (secret_path project "fec-api-key") (secret_path project "smtp-password").
  destruct (access_secret_version w h _) as [key'|] eqn:Hkey; [|discriminate].
  destruct (secret_client w _); [discriminate|].
  destruct (access_secret_version w (h ++ _)%list _) as [pw|]; [|discriminate].
  destruct (py_int _) as [n|]; [|discriminate].
  intros [= _ <- _ _]. now exists project.
Qed.

(** X16. A configuration that is read consists of this: both required
    variables are set; the secret store was asked twice and no more, for the
    latest version of [fec-api-key] and then of [smtp-password] of the
    project, whose answers are the API key and the SMTP password; the server
    and the port are the environment's, or smtp.gmail.com and 587 when it has
    none; user name and sender are the environment's, absent when it has
    none. *)
Theorem configuration_reads_both_secrets :
  forall (h h0 : history) (notification_email key : string) (cfg : smtp_config),
    load_configuration w h = (Ok (notification_email, key, cfg), h0) ->
    exists project : string,
      environ w "PROJECT_ID" = Some project
      /\ environ w "NOTIFICATION_EMAIL" = Some notification_email
      /\ h0 = (h ++ [ SecretAccess (secret_path project "fec-api-key");
                      SecretAccess (secret_path project "smtp-password") ])%list
      /\ access_secret_version w h (secret_path project "fec-api-key") = Ok key
      /\ access_secret_version w
           (h ++ [SecretAccess (secret_path project "fec-api-key")])%list
           (secret_path project "smtp-password") = Ok (password cfg)
      /\ server cfg = environ_get w "SMTP_SERVER" "smtp.gmail.com"
      /\ py_int (environ_get w "SMTP_PORT" "587") = Ok (port cfg)
      /\ username cfg = environ w "SMTP_USERNAME"
      /\ from_email cfg = environ w "FROM_EMAIL".
Proof.
  intros h h0 email key cfg.
  unfold load_configuration, get_secret, bind, environ_item, lift, ret, client_new,
    client_access.
  destruct (environ w "PROJECT_ID") as [project|]; [|discriminate].
  destruct (environ w "NOTIFICATION_EMAIL") as [email'|]; [|discriminate].
  destruct (secret_client w h); [discriminate|].
  fold (secret_path project "fec-api-key") (secret_path project "smtp-password").
  destruct (access_secret_version w h _) as [key'|] eqn:Hkey; [|discriminate].
  destruct (secret_client w _); [discriminate|].
  destruct (access_secret_version w (h ++ _)%list _) as [pw|] eqn:Hpw; [|discriminate].
  destruct (py_int _) as [n|] eqn:Hport; [|discriminate].
  intros [= <- <- <- <-]. exists project. rewrite <- app_assoc.
  repeat split; assumption.
Qed.

Lemma request_targets_app (h1 h2 : history) :
  request_targets (h1 ++ h2)%list = (request_targets h1 ++ request_targets h2)%list.
Proof. unfold request_targets. now rewrite http_requests_app, map_app. Qed.

Lemma get_fec_contributions_target (c : Contributor.t) (key : string) (dl dc : Z)
    (h h' : history) (cs : list Contribution.t) :
  get_fec_contributions w c key dl dc h = (Ok cs, h') ->
  request_targets h' = (request_targets h ++ [(base_url, Some (PStr key))])%list.
Proof.
  rewrite get_fec_contributions_run. cbv zeta.
  destruct (sub_days (clock w h) dc) as [start|e]; [|discriminate].
  destruct (sub_days (clock w h) dl) as [mld|e]; [|discriminate].
  match goal with
  | |- context [match ?r with Ok _ => _ | Raise _ => _ end] => destruct r as [cs'|e]
  end.
  - intros [= _ <-]. rewrite !request_targets_app. simpl. now rewrite app_nil_r.
  - destruct (is_RequestException e); [|discriminate].
    intros [= _ <-]. rewrite !request_targets_app. simpl. now rewrite !app_nil_r.
Qed.

Lemma fetched_targets (registry : list Contributor.t) (key : string) (h h' : history)
    (groups : list (list Contribution.t)) :
  fetched w key registry h groups h' ->
  request_targets h'
  = (request_targets h
     ++ repeat (base_url, Some (PStr key)) (List.length registry))%list.
Proof.
  induction 1 as [h|c rest h h1 h2 cs groups Hc _ IH]; simpl.
  - now rewrite app_nil_r.
  - rewrite IH, (get_fec_contributions_target _ _ _ _ _ _ _ Hc), <- app_assoc.
    reflexivity.
Qed.

(** X17. The key the secret store gave for [fec-api-key] is the key of
    every request of the run: when the configuration is read and the fetches
    return, the run has sent one request per registry entry, each to the
    API's address and each with that key as [api_key]. *)
Theorem every_request_carries_the_stored_key :
  forall (registry : list Contributor.t) (h h1 : history) (notification_email : string)
         (cfg : smtp_config) (d : dict (list Contribution.t)),
    gather w registry h = (Ok (notification_email, cfg, d), h1) ->
    exists project key : string,
      environ w "PROJECT_ID" = Some project
      /\ access_secret_version w h (secret_path project "fec-api-key") = Ok key
      /\ request_targets h1
         = (request_targets h
            ++ repeat (base_url, Some (PStr key)) (List.length registry))%list.
Proof.
  intros registry h h1 email cfg d Hg.
  destruct (gather_inv _ _ _ _ _ _ Hg) as (key & h0 & Hconf & Hf).
  destruct (fetch_all_inv _ _ _ _ _ _ Hf) as (groups & Hfetched & _).
  pose proof (load_configuration_sends_no_request h) as Hsame.
  rewrite Hconf in Hsame. simpl in Hsame.
  destruct (load_configuration_key _ _ _ _ _ Hconf) as (project & Hproject & Hkey).
  exists project, key. split; [exact Hproject|]. split; [exact Hkey|].
  rewrite (fetched_targets _ _ _ _ _ Hfetched).
  unfold request_targets at 1 2. now rewrite Hsame.
Qed.

Lemma printed_app (h1 h2 : history) :
  printed (h1 ++ h2)%list = (printed h1 ++ printed h2)%list.
Proof. unfold printed. apply flat_map_app. Qed.

(** X18. A relay failure is logged twice and raised no further: when the
    groups call for a notification and the SMTP session raises [e],
    [send_email] prints its line and re-raises, and the entry point prints
    its own line and reports the 500 outcome; these two lines are the only
    ones the run adds after the fetches. *)
Theorem relay_failure_is_logged_twice :
  forall (registry : list Contributor.t) (h h1 : history) (notification_email : string)
         (cfg : smtp_config) (d : dict (list Contribution.t)) (e : exn),
    gather w registry h = (Ok (notification_email, cfg, d), h1) ->
    any_values d = true ->
    smtp_session w (h1 ++ [Clock (clock w h1)])%list cfg
      (alert_message notification_email cfg d (clock w h1)) = Some e ->
    fst (monitor_contributions_on w registry h) = Ok ("Error: " ++ str_exn e, 500)
    /\ printed (snd (monitor_contributions_on w registry h))
       = (printed h1 ++ [ ("Error sending email: " ++ str_exn e)%string;
                          ("Error in monitor_contributions: " ++ str_exn e)%string ])%list.
Proof.
  intros registry h h1 email cfg d e Hg Hany Hrelay.
  rewrite monitor_contributions_on_run, Hg, Hany. cbv zeta. rewrite Hrelay.
  split; [reflexivity|].
  cbn [snd]. rewrite !printed_app. cbn. now rewrite app_nil_r.
Qed.

End Properties.

(** ** Properties of the local test script *)

Section ScriptProperties.

Context {rt : Runtime}.
Variable w : World.


Lemma print_each_run (lines : list string) (h : history) :
  print_each lines h = (Ok tt, (h ++ map Printed lines)%list).
Proof.
  revert h. induction lines as [|line lines IH]; intros h; simpl.
  - unfold ret. now rewrite app_nil_r.
  - unfold bind, print. rewrite IH. now rewrite <- app_assoc.
Qed.

(** X12. When, after the .env file is loaded, one of the six variables the
    script requires is unset or empty, [main] prints the heading and one
    line per such variable, in the order of its list, and returns: the entry
    point is not called, so no secret is read, no request is sent and no
    mail either. A variable set in the environment is never replaced by the
    file's. *)
Theorem main_lists_the_missing_variables :
  forall (dotenv : string -> option string) (h : history) (var : string)
         (others : list string),
    filter (fun v => negb (getenv_is_set (load_dotenv dotenv w) v)) required_vars
    = var :: others ->
    main w dotenv h
    = (Ok tt,
       (h ++ Printed "Missing required environment variables:"
          :: map (fun v => Printed ("- " ++ v)) (var :: others))%list)
    /\ (forall v, In v (var :: others) <->
                  In v required_vars
                  /\ (environ w v = None /\ dotenv v = None
                      \/ environ w v = Some ""
                      \/ environ w v = None /\ dotenv v = Some ""))
    /\ (forall v value, environ w v = Some value ->
                        environ (load_dotenv dotenv w) v = Some value).
Proof.
  intros dotenv h var others Hmissing.
  split; [|split].
  - unfold main. cbv zeta. rewrite Hmissing.
    unfold bind, print. rewrite print_each_run.
    rewrite <- app_assoc. simpl. now rewrite map_map.
  - intros v. rewrite <- Hmissing, filter_In.
    unfold getenv_is_set, load_dotenv. simpl.
    split.
    + intros [Hin Hunset]. split; [exact Hin|].
      destruct (environ w v) as [value|].
      * apply negb_true_iff, negb_false_iff, String.eqb_eq in Hunset. subst value.
        right. now left.
      * destruct (dotenv v) as [value|]; [|now left].
        apply negb_true_iff, negb_false_iff, String.eqb_eq in Hunset. subst value.
        right. now right.
    + intros [Hin [[-> ->]|[->|[-> ->]]]]; split; try exact Hin; reflexivity.
  - intros v value Hv. unfold load_dotenv. simpl. now rewrite Hv.
Qed.

(** X13. When none of the six variables is missing, [main] calls the entry
    point once, in the environment completed from the .env file, and prints
    one more line, "Response (status N): BODY", for the outcome the entry
    point returned, N being 200 or 500; the branch that would print "Error
    running monitor_contributions" is never taken. *)
Theorem main_prints_the_outcome :
  forall (dotenv : string -> option string) (h : history),
    filter (fun v => negb (getenv_is_set (load_dotenv dotenv w) v)) required_vars = [] ->
    exists (body : string) (status : Z) (h1 : history),
      monitor_contributions (load_dotenv dotenv w) h = (Ok (body, status), h1)
      /\ main w dotenv h
         = (Ok tt, (h1 ++ [Printed ("Response (status " ++ str_int status ++ "): "
                                    ++ body)])%list)
      /\ (status = 200 /\ str_int status = "200"
          \/ status = 500 /\ str_int status = "500").
Proof.
  intros dotenv h Hnone.
  unfold main. cbv zeta. rewrite Hnone.
  unfold monitor_contributions.
  unfold try_except at 1, bind at 1.
  rewrite monitor_contributions_on_run.
  destruct (gather (load_dotenv dotenv w) contributors h) as [[[[email cfg] d]|e] h1].
  - destruct (any_values d).
    + cbv zeta. destruct (smtp_session (load_dotenv dotenv w) _ cfg _) as [e|].
      * do 3 eexists. split; [reflexivity|]. split; [reflexivity|].
        right. split; reflexivity.
      * do 3 eexists. split; [reflexivity|]. split; [reflexivity|].
        left. split; reflexivity.
    + do 3 eexists. split; [reflexivity|]. split; [reflexivity|].
      left. split; reflexivity.
  - do 3 eexists. split; [reflexivity|]. split; [reflexivity|].
    right. split; reflexivity.
Qed.

End ScriptProperties.

(** ** The properties at work on the sample worlds *)

(** C1 at work: of three results, the one loaded twenty days ago is dropped
    although it was given last week, and the one given five months ago is
    kept because it was loaded yesterday. *)
Lemma fetch_keeps_exactly_the_fresh_results_witness :
  exists cs : list Contribution.t,
    fst (get_fec_contributions (rt := ascii_runtime) (world_of one_hit None)
           sundar "k" 14 180 []) = Ok cs
    /\ Forall2 (kept_from (rt := ascii_runtime) sample_min_load)
         [fresh_old; fresh_unreported] cs.
Proof.
  destruct (fetch_keeps_exactly_the_fresh_results (rt := ascii_runtime)
              (world_of one_hit None) sundar "k" 14 180 []
              sample_start sample_min_load
              (mkResponse 200 (Some (body_of [fresh_old; stale_recent; fresh_unreported])))
              [fresh_old; stale_recent; fresh_unreported]
              eq_refl eq_refl eq_refl eq_refl)
    as (cs & Hrun & Hkept & _).
  - repeat constructor; eexists; reflexivity.
  - exists cs. split; [exact Hrun|exact Hkept].
Defined.

(** C7 at work: on 15 January 2025 the one request of a fetch asks for
    contributions between 07/19/2024 and 01/15/2025. *)
Lemma fetch_sends_one_windowed_query_witness :
  http_requests (snd (get_fec_contributions (rt := ascii_runtime) (world_of one_hit None)
                        sundar "k" 14 180 []))
  = [ (base_url,
       [ ("api_key", PStr "k");
         ("contributor_name", PStr "Sundar Pichai");
         ("contributor_employer", PStr "Google");
         ("min_date", PStr "07/19/2024");
         ("max_date", PStr "01/15/2025");
         ("sort", PStr "-contribution_receipt_date");
         ("per_page", PInt 100);
         ("is_individual", PBool true) ]) ].
Proof.
  exact (proj1 (fetch_sends_one_windowed_query (rt := ascii_runtime)
                  (world_of one_hit None) sundar "k" 14 180 []
                  sample_start sample_min_load eq_refl eq_refl)).
Defined.

(** C3 at work: a refused connection leaves an empty list and one printed
    line. *)
Lemma fetch_swallows_request_errors_only_witness :
  get_fec_contributions (rt := ascii_runtime) (world_of one_down None) kent "k" 14 180 []
  = (Ok [],
     [ Clock sample_now;
       HttpGet base_url (query_params kent "k" sample_start sample_now);
       Printed "Error fetching FEC data for Kent Walker: connection refused" ]).
Proof.
  exact (proj1 (fetch_swallows_request_errors_only (rt := ascii_runtime)
                  (world_of one_down None) kent "k" 14 180 []
                  sample_start sample_min_load eq_refl eq_refl)
               (RequestException ConnectionError "connection refused") eq_refl eq_refl).
Defined.

(** C3 as stated fails: a record whose load date is not a date makes the
    fetch raise [ValueError] to its caller, with nothing printed, instead of
    returning the empty list. *)
Lemma malformed_date_is_raised :
  fst (get_fec_contributions (rt := ascii_runtime) (world_of one_malformed None)
         sundar "k" 14 180 []) = Raise ValueError
  /\ printed (snd (get_fec_contributions (rt := ascii_runtime)
                     (world_of one_malformed None) sundar "k" 14 180 [])) = [].
Proof. split; reflexivity. Qed.


(** C9 at work on a result whose employer is the empty string. *)
Lemma falsy_employer_becomes_not_reported_witness :
  build_contribution (rt := ascii_runtime)
    (raw_result "2025-01-13T09:15:00" "2024-12-30" (PStr ""))
    (mkdatetime 2025 1 13 9 15 0 0)
  = Ok (Contribution.mk (mkdatetime 2024 12 30 0 0 0 0)
          (S754_finite false 5497558138880000 (-42))
          (PStr "PICHAI, SUNDAR") (PStr "Not reported") (PStr "GOOGLE LLC NETPAC")
          (mkdatetime 2025 1 13 9 15 0 0)).
Proof.
  refine (proj1 (falsy_employer_becomes_not_reported (rt := ascii_runtime)
                   (raw_result "2025-01-13T09:15:00" "2024-12-30" (PStr ""))
                   (mkdatetime 2025 1 13 9 15 0 0)
                   (mkdatetime 2024 12 30 0 0 0 0)
                   (S754_finite false 5497558138880000 (-42))
                   (PStr "PICHAI, SUNDAR") (PStr "GOOGLE LLC NETPAC") (PStr "")
                   _ eq_refl) eq_refl).
  repeat split.
Defined.

(** C4 at work: the connection fails for the second of three contributors;
    the loop still ends, with all three in the mapping, the second with the
    empty group, and the first contributor's records still call for a
    notification. *)
Lemma transport_failure_empties_one_group_only_witness :
  exists (d : dict (list Contribution.t)) (h3 : history),
    fetch_all (rt := ascii_runtime) (world_of one_down None) [sundar; kent; thomas]
      "k" [] [] = (Ok d, h3)
    /\ keys d = ["Sundar Pichai"; "Kent Walker"; "Thomas Kurian"]
    /\ assoc "Kent Walker" d = Some []
    /\ requested_names h3
       = [ Some (PStr "Sundar Pichai"); Some (PStr "Kent Walker");
           Some (PStr "Thomas Kurian") ]
    /\ any_values d = true.
Proof.
  pose (w := world_of one_down None).
  pose (run1 := get_fec_contributions (rt := ascii_runtime) w sundar "k" 14 180 []).
  pose (g1 := match fst run1 with Ok cs => cs | Raise _ => [] end).
  pose (h1 := snd run1).
  pose (h2 := (h1 ++ [ Clock (clock w h1);
                       HttpGet base_url (query_params kent "k" sample_start (clock w h1));
                       Printed (fetch_diagnostic (rt := ascii_runtime) kent
                                  (RequestException ConnectionError "connection refused"))
                     ])%list).
  pose (run3 := get_fec_contributions (rt := ascii_runtime) w thomas "k" 14 180 h2).
  pose (g3 := match fst run3 with Ok cs => cs | Raise _ => [] end).
  assert (Hpre : fetched (rt := ascii_runtime) w "k" [sundar] [] [g1] h1)
    by exact (fetched_cons w "k" sundar [] [] h1 h1 g1 [] eq_refl (fetched_nil w "k" h1)).
  assert (Hpost : fetched (rt := ascii_runtime) w "k" [thomas] h2 [g3] (snd run3))
    by exact (fetched_cons w "k" thomas [] h2 (snd run3) (snd run3) g3 [] eq_refl
                (fetched_nil w "k" (snd run3))).
  assert (Hnd : NoDup (names ([sundar] ++ kent :: [thomas]))).
  { repeat constructor; simpl; intuition discriminate. }
  destruct (transport_failure_empties_one_group_only (rt := ascii_runtime) w
              [sundar] [thomas] kent "k" [] h1 (snd run3) [g1] [g3]
              sample_start sample_min_load
              (RequestException ConnectionError "connection refused")
              Hnd Hpre eq_refl eq_refl eq_refl eq_refl Hpost)
    as (_ & _ & Hrun & Hkeys & Hkent & Hasked & Hany).
  eexists. eexists.
  split; [exact Hrun|]. split; [exact Hkeys|]. split; [exact Hkent|].
  split; [exact Hasked|]. rewrite Hany. reflexivity.
Defined.

(** C8 at work on three contributors: the names are asked and stored in
    registry order, and the first contributor's group holds the records of
    the first and the third result of its response, in that order (the second
    result is stale). *)
Lemma registry_and_response_order_are_kept_witness :
  exists (d : dict (list Contribution.t)) (h' : history),
    fetch_all (rt := ascii_runtime) (world_of one_hit None) [sundar; kent; thomas]
      "k" [] [] = (Ok d, h')
    /\ keys d = ["Sundar Pichai"; "Kent Walker"; "Thomas Kurian"]
    /\ requested_names h'
       = [ Some (PStr "Sundar Pichai"); Some (PStr "Kent Walker");
           Some (PStr "Thomas Kurian") ]
    /\ exists cs : list Contribution.t,
         values d = [cs; []; []]
         /\ Forall2 (kept_from (rt := ascii_runtime) sample_min_load)
              [fresh_old; fresh_unreported] cs.
Proof.
  pose (w := world_of one_hit None).
  pose (run1 := get_fec_contributions (rt := ascii_runtime) w sundar "k" 14 180 []).
  pose (run2 := get_fec_contributions (rt := ascii_runtime) w kent "k" 14 180 (snd run1)).
  pose (run3 := get_fec_contributions (rt := ascii_runtime) w thomas "k" 14 180 (snd run2)).
  pose (group := fun run : result (list Contribution.t) * history =>
                   match fst run with Ok cs => cs | Raise _ => [] end).
  assert (Hf : fetched (rt := ascii_runtime) w "k" [sundar; kent; thomas] []
                 [group run1; group run2; group run3] (snd run3)).
  { exact (fetched_cons w "k" sundar _ [] (snd run1) (snd run3) (group run1) _ eq_refl
             (fetched_cons w "k" kent _ (snd run1) (snd run2) (snd run3) (group run2) _ eq_refl
                (fetched_cons w "k" thomas _ (snd run2) (snd run3) (snd run3) (group run3) _
                   eq_refl (fetched_nil w "k" (snd run3))))). }
  assert (Hnd : NoDup (names [sundar; kent; thomas])).
  { repeat constructor; simpl; intuition discriminate. }
  destruct (registry_and_response_order_are_kept (rt := ascii_runtime) w
              [sundar; kent; thomas] "k" [] (snd run3)
              [group run1; group run2; group run3] Hnd Hf)
    as (Hrun & Hkeys & Hvalues & Hasked & Horder & _).
  eexists. eexists.
  split; [exact Hrun|]. split; [exact Hkeys|]. split; [exact Hasked|].
  exists (group run1). split; [exact Hvalues|exact (proj1 Horder)].
Defined.

(** C10 at work on a digest with one record: four labels, five cells. *)
Lemma digest_rows_have_one_cell_more_than_the_header_witness :
  exists before after : string,
    format_email_body (rt := ascii_runtime)
      [("Kent Walker", []); ("Sundar Pichai", [marked_record])]
    = before ++ "<h3>Contributions from Sundar Pichai</h3>" ++ table_open
      ++ "<tr><th>Date</th><th>Amount</th><th>Committee</th><th>Employer</th></tr>"
      ++ nl ++ sp16 ++ "<tr>" ++ nl
      ++ sp20 ++ "<td>2024-12-30</td>" ++ nl
      ++ sp20 ++ "<td>$1,250.00</td>" ++ nl
      ++ sp20 ++ "<td>GOOGLE LLC NETPAC</td>" ++ nl
      ++ sp20 ++ "<td>R&D <labs></td>" ++ nl
      ++ sp20 ++ "<td>2025-01-13 09:15:00</td>" ++ nl
      ++ sp16 ++ "</tr>" ++ nl ++ sp16
      ++ "</table><br>" ++ after.
Proof.
  refine (proj1 (digest_rows_have_one_cell_more_than_the_header (rt := ascii_runtime)
                   [("Kent Walker", []); ("Sundar Pichai", [marked_record])]
                   "Sundar Pichai" marked_record [] _)).
  right. left. reflexivity.
Defined.

(** C2 at work: one contributor of two has records and the relay takes the
    message; one session is opened and the run reports the alert. *)
Lemma notification_follows_the_groups_witness :
  fst (monitor_contributions_on (rt := ascii_runtime) (world_of one_hit None)
         [sundar; kent] []) = Ok ("Alert sent successfully", 200)
  /\ List.length (smtp_sessions
                    (snd (monitor_contributions_on (rt := ascii_runtime)
                            (world_of one_hit None) [sundar; kent] []))) = 1%nat.
Proof.
  pose (w := world_of one_hit None).
  pose (g := gather (rt := ascii_runtime) w [sundar; kent] []).
  assert (Hg : g = (Ok ("desk@example.org", sample_cfg, mapping_of g), snd g))
    by reflexivity.
  destruct (notification_follows_the_groups (rt := ascii_runtime) w [sundar; kent] []
              (snd g) "desk@example.org" sample_cfg (mapping_of g) Hg)
    as (_ & _ & _ & _ & Hsend).
  destruct (Hsend eq_refl) as (_ & _ & _ & Hok & _).
  destruct (Hok eq_refl) as [Hbody Hsessions].
  split; [exact Hbody|].
  fold w. rewrite Hsessions. reflexivity.
Defined.

(** C2 as stated fails: a contributor has records, so a notification is
    called for, but the relay refuses the message; the run reports the 500
    outcome, not "Alert sent successfully", and nothing was delivered. *)
Lemma relay_failure_reports_error :
  any_values (mapping_of (gather (rt := ascii_runtime) (world_of one_hit relay_down)
                            contributors [])) = true
  /\ fst (monitor_contributions (rt := ascii_runtime) (world_of one_hit relay_down) [])
     = Ok ("Error: relay refused", 500)
  /\ map snd (smtp_sessions
                (snd (monitor_contributions (rt := ascii_runtime)
                        (world_of one_hit relay_down) []))) = [false].
Proof. repeat split; vm_compute; reflexivity. Qed.

(** ** The further properties at work *)

(** X1 at work: on a host where no variable is set, the run reports the
    [KeyError] of the first variable it reads and contacts nobody. *)
Lemma configuration_failure_contacts_nobody_witness :
  monitor_contributions_on (rt := ascii_runtime) bare_world [sundar; kent] []
  = (Ok ("Error: 'PROJECT_ID'", 500),
     [Printed "Error in monitor_contributions: 'PROJECT_ID'"]).
Proof.
  exact (proj1 (configuration_failure_contacts_nobody (rt := ascii_runtime) bare_world
                  [sundar; kent] [] [] (KeyError "PROJECT_ID") eq_refl)).
Defined.

(** X2 at work: the .env file names the project, and nothing names the
    address for notifications. *)
Lemma missing_variable_stops_the_run_at_once_witness :
  monitor_contributions_on (rt := ascii_runtime)
    (load_dotenv sample_dotenv bare_world) [sundar] []
  = (Ok ("Error: 'NOTIFICATION_EMAIL'", 500),
     [Printed "Error in monitor_contributions: 'NOTIFICATION_EMAIL'"]).
Proof.
  refine (missing_variable_stops_the_run_at_once (rt := ascii_runtime)
            (load_dotenv sample_dotenv bare_world) [sundar] [] "NOTIFICATION_EMAIL"
            eq_refl (or_intror (conj eq_refl _))).
  discriminate.
Defined.

(** X3 at work: the second of three responses holds a load date that is not
    a date; the run reports the [ValueError], the third contributor is never
    asked about, and the first contributor's records are not mailed. *)
Lemma raising_fetch_ends_the_run_witness :
  fst (monitor_contributions_on (rt := ascii_runtime) (world_of second_malformed None)
         [sundar; kent; thomas] []) = Ok ("Error: ValueError", 500)
  /\ requested_names (snd (monitor_contributions_on (rt := ascii_runtime)
                             (world_of second_malformed None) [sundar; kent; thomas] []))
     = [Some (PStr "Sundar Pichai"); Some (PStr "Kent Walker")]
  /\ smtp_sessions (snd (monitor_contributions_on (rt := ascii_runtime)
                           (world_of second_malformed None) [sundar; kent; thomas] []))
     = [].
Proof.
  pose (w := world_of second_malformed None).
  pose (h0 := snd (load_configuration (rt := ascii_runtime) w [])).
  pose (run1 := get_fec_contributions (rt := ascii_runtime) w sundar "secret" 14 180 h0).
  pose (g1 := match fst run1 with Ok cs => cs | Raise _ => [] end).
  pose (run2 := get_fec_contributions (rt := ascii_runtime) w kent "secret" 14 180
                  (snd run1)).
  assert (Hpre : fetched (rt := ascii_runtime) w "secret" [sundar] h0 [g1] (snd run1))
    by exact (fetched_cons w "secret" sundar [] h0 (snd run1) (snd run1) g1 [] eq_refl
                (fetched_nil w "secret" (snd run1))).
  pose proof (raising_fetch_ends_the_run (rt := ascii_runtime) w [sundar] [thomas] kent
                [] h0 (snd run1) (snd run2) "desk@example.org" "secret" sample_cfg [g1]
                ValueError eq_refl Hpre eq_refl) as Hend.
  cbv zeta in Hend.
  change ([sundar] ++ kent :: [thomas])%list with [sundar; kent; thomas] in Hend.
  destruct Hend as (Hrun & Hreq & Hsmtp).
  fold w. split; [now rewrite Hrun|]. split; [|exact Hsmtp].
  unfold requested_names. rewrite Hreq. reflexivity.
Defined.

(** X5 at work: two stale results, one without any other field and one with
    a date that is not a date and no amount, are passed over in silence. *)
Lemma stale_results_are_skipped_unread_witness :
  get_fec_contributions (rt := ascii_runtime) (world_of all_stale None) sundar "k" 14 180 []
  = (Ok [],
     [ Clock sample_now;
       HttpGet base_url (query_params sundar "k" sample_start sample_now) ]).
Proof.
  refine (stale_results_are_skipped_unread (rt := ascii_runtime) (world_of all_stale None)
            sundar "k" 14 180 [] sample_start sample_min_load
            (mkResponse 200 (Some (body_of stale_broken))) stale_broken
            eq_refl eq_refl eq_refl eq_refl _).
  repeat constructor; eexists; split; reflexivity.
Defined.

(** X6 at work: a window of a thousand million days cannot be computed. *)
Lemma window_overflow_is_raised_before_the_request_witness :
  get_fec_contributions (rt := ascii_runtime) (world_of one_hit None) sundar "k"
    14 1000000000 []
  = (Raise OverflowError, [Clock sample_now]).
Proof.
  refine (proj1 (window_overflow_is_raised_before_the_request (rt := ascii_runtime)
                   (world_of one_hit None) sundar "k" 14 1000000000 [] _)).
  left. exists OverflowError. reflexivity.
Defined.


(** X11 at work on the sample clock. *)
Lemma default_fetch_always_sends_its_request_witness :
  exists start mld : datetime,
    sub_days sample_now 180 = Ok start
    /\ sub_days sample_now 14 = Ok mld
    /\ http_requests (snd (get_fec_contributions (rt := ascii_runtime)
                             (world_of one_down None) kent "k" 14 180 []))
       = [(base_url, query_params kent "k" start sample_now)].
Proof.
  destruct (default_fetch_always_sends_its_request (rt := ascii_runtime)
              (world_of one_down None) kent "k" [] eq_refl ltac:(simpl; lia))
    as (start & mld & Hstart & Hmld & _ & Hreq).
  exists start, mld. split; [exact Hstart|]. split; [exact Hmld|exact Hreq].
Defined.

(** X9 at work: the two records kept on 15 January 2025 were loaded on
    1 January or later. *)
Lemma returned_records_were_loaded_within_the_window_witness :
  Forall (fun c => toordinal sample_now - 14 <= toordinal (Contribution.load_date c))
    (match fst (get_fec_contributions (rt := ascii_runtime) (world_of one_hit None)
                  sundar "k" 14 180 []) with
     | Ok cs => cs
     | Raise _ => []
     end)
  /\ List.length
       (match fst (get_fec_contributions (rt := ascii_runtime) (world_of one_hit None)
                     sundar "k" 14 180 []) with
        | Ok cs => cs
        | Raise _ => []
        end) = 2%nat.
Proof.
  pose (run := get_fec_contributions (rt := ascii_runtime) (world_of one_hit None)
                 sundar "k" 14 180 []).
  pose (cs := match fst run with Ok cs => cs | Raise _ => [] end).
  assert (Hrun : run = (Ok cs, snd run)) by reflexivity.
  split; [|reflexivity].
  eapply Forall_impl;
    [|exact (returned_records_were_loaded_within_the_window (rt := ascii_runtime)
               (world_of one_hit None) sundar "k" 14 180 [] (snd run) cs Hrun)].
  intros c Hc. exact (proj1 Hc).
Defined.

(** X7 at work: an employer whose name holds the characters of HTML markup
    is written into the digest as it is. *)
Lemma digest_holds_every_record_witness :
  exists before after : string,
    format_email_body (rt := ascii_runtime)
      [("Kent Walker", []); ("Sundar Pichai", [marked_record])]
    = before ++ "<td>" ++ "GOOGLE LLC NETPAC" ++ "</td>" ++ nl
      ++ sp20 ++ "<td>" ++ "R&D <labs>" ++ "</td>" ++ after.
Proof.
  refine (proj2 (digest_holds_every_record (rt := ascii_runtime)
                   [("Kent Walker", []); ("Sundar Pichai", [marked_record])]
                   "Sundar Pichai" [marked_record] marked_record _ _)).
  - right. left. reflexivity.
  - left. reflexivity.
Defined.

(** X8 at work: the first contributor is entered twice and only the first
    request finds records; the mapping has two entries, the first
    contributor's first, with the empty group of the second request. *)
Lemma same_name_keeps_first_place_and_last_group_witness :
  exists d : dict (list Contribution.t),
    fst (fetch_all (rt := ascii_runtime) world_records_once [sundar; kent; sundar]
           "k" [] []) = Ok d
    /\ keys d = ["Sundar Pichai"; "Kent Walker"]
    /\ assoc "Sundar Pichai" d = Some [].
Proof.
  pose (w := world_records_once).
  pose (run1 := get_fec_contributions (rt := ascii_runtime) w sundar "k" 14 180 []).
  pose (run2 := get_fec_contributions (rt := ascii_runtime) w kent "k" 14 180 (snd run1)).
  pose (run3 := get_fec_contributions (rt := ascii_runtime) w sundar "k" 14 180 (snd run2)).
  pose (group := fun run : result (list Contribution.t) * history =>
                   match fst run with Ok cs => cs | Raise _ => [] end).
  assert (Hf : fetched (rt := ascii_runtime) w "k" [sundar; kent; sundar] []
                 [group run1; group run2; group run3] (snd run3)).
  { exact (fetched_cons w "k" sundar _ [] (snd run1) (snd run3) (group run1) _ eq_refl
             (fetched_cons w "k" kent _ (snd run1) (snd run2) (snd run3) (group run2) _ eq_refl
                (fetched_cons w "k" sundar _ (snd run2) (snd run3) (snd run3) (group run3) _
                   eq_refl (fetched_nil w "k" (snd run3))))). }
  destruct (same_name_keeps_first_place_and_last_group (rt := ascii_runtime) w
              [sundar; kent; sundar] "k" [] (snd run3)
              [group run1; group run2; group run3] Hf)
    as (d & Hrun & Hkeys & _ & Hlast).
  exists d. fold w. rewrite Hrun. split; [reflexivity|]. split; [exact Hkeys|].
  exact (Hlast [sundar; kent] sundar [] [group run1; group run2] (group run3) []
           eq_refl eq_refl eq_refl (fun absurd => absurd)).
Defined.


(** X10 at work: with a window of 30 days the result loaded twenty days ago
    is kept too; the two records of the window of 14 days are the last two
    of the three, those loaded after 1 January. *)
Lemma longer_window_keeps_more_witness :
  exists cs cs' : list Contribution.t,
    fst (get_fec_contributions (rt := ascii_runtime) (world_of one_hit None)
           sundar "k" 14 180 []) = Ok cs
    /\ fst (get_fec_contributions (rt := ascii_runtime) (world_of one_hit None)
              sundar "k" 30 180 []) = Ok cs'
    /\ List.length cs = 2%nat
    /\ List.length cs' = 3%nat
    /\ cs = filter (fun r => dt_gt (Contribution.load_date r) sample_min_load) cs'.
Proof.
  pose (w := world_of one_hit None).
  pose (short := get_fec_contributions (rt := ascii_runtime) w sundar "k" 14 180 []).
  pose (long := get_fec_contributions (rt := ascii_runtime) w sundar "k" 30 180 []).
  pose (group := fun run : result (list Contribution.t) * history =>
                   match fst run with Ok cs => cs | Raise _ => [] end).
  assert (Hshort : short = (Ok (group short), snd short)) by reflexivity.
  assert (Hlong : long = (Ok (group long), snd long)) by reflexivity.
  destruct (longer_window_keeps_more (rt := ascii_runtime) w sundar "k" 14 30 180 []
              (snd short) (snd long) (group short) (group long)
              ltac:(lia) Hshort Hlong)
    as (mld & mld' & Hm & _ & _ & Hcs & _).
  change (Ok sample_min_load = Ok mld) in Hm. injection Hm as <-.
  exists (group short), (group long).
  split; [reflexivity|]. split; [reflexivity|]. split; [reflexivity|].
  split; [reflexivity|exact Hcs].
Defined.

(** The longer window may raise where the shorter returns: the result
    loaded twenty days ago carries a contribution date that is not a date,
    which only the window of 30 days reads. *)
Example longer_window_may_raise :
  List.length (match fst (get_fec_contributions (rt := ascii_runtime)
                            (world_of older_malformed None) sundar "k" 14 180 []) with
               | Ok cs => cs
               | Raise _ => []
               end) = 1%nat
  /\ fst (get_fec_contributions (rt := ascii_runtime) (world_of older_malformed None)
            sundar "k" 30 180 []) = Raise ValueError.
Proof. split; reflexivity. Qed.

(** X14 at work: of the three load timestamps of the sample response, the
    first and the third are after 1 January, 10:30. *)
Lemma canonical_load_timestamp_is_read_back_witness :
  map Contribution.load_date
    (match fst (get_fec_contributions (rt := ascii_runtime) (world_of one_hit None)
                  sundar "k" 14 180 []) with
     | Ok cs => cs
     | Raise _ => []
     end)
  = [mkdatetime 2025 1 14 8 0 0 0; mkdatetime 2025 1 13 9 15 0 0].
Proof.
  pose (w := world_of one_hit None).
  pose (run := get_fec_contributions (rt := ascii_runtime) w sundar "k" 14 180 []).
  pose (cs := match fst run with Ok cs => cs | Raise _ => [] end).
  assert (Hrun : run = (Ok cs, snd run)) by reflexivity.
  refine (canonical_load_timestamp_is_read_back (rt := ascii_runtime) w sundar "k" 14 180
            [] (snd run) sample_start sample_min_load
            (mkResponse 200 (Some (body_of [fresh_old; stale_recent; fresh_unreported])))
            [fresh_old; stale_recent; fresh_unreported]
            [ mkdatetime 2025 1 14 8 0 0 0; mkdatetime 2024 12 26 8 0 0 0;
              mkdatetime 2025 1 13 9 15 0 0 ]
            cs eq_refl eq_refl eq_refl eq_refl _ Hrun).
  repeat constructor; simpl; lia.
Defined.

(** X15 at work: the date of the sample record is shown as the API wrote
    it. *)
Lemma receipt_date_is_shown_as_received_witness :
  exists before after : string,
    format_email_body (rt := ascii_runtime) [("Sundar Pichai", [fresh_old_record])]
    = before ++ "<tr>" ++ nl ++ sp20 ++ "<td>2024-08-01</td>" ++ after.
Proof.
  refine (proj2 (receipt_date_is_shown_as_received (rt := ascii_runtime)
                   [("Sundar Pichai", [fresh_old_record])] "Sundar Pichai"
                   [fresh_old_record] (mkdatetime 2024 8 1 0 0 0 0)
                   (mkdatetime 2025 1 14 8 0 0 0) fresh_old fresh_old_record
                   eq_refl eq_refl eq_refl eq_refl eq_refl ltac:(simpl; lia)
                   eq_refl eq_refl _ _)).
  - left. reflexivity.
  - left. reflexivity.
Defined.

(** X12 at work: the sample environment names no relay and there is no .env
    file; the script lists the two variables and stops. *)
Lemma main_lists_the_missing_variables_witness :
  main (rt := ascii_runtime) (world_of one_hit None) (fun _ => None) []
  = (Ok tt,
     [ Printed "Missing required environment variables:";
       Printed "- SMTP_SERVER"; Printed "- SMTP_PORT" ]).
Proof.
  exact (proj1 (main_lists_the_missing_variables (rt := ascii_runtime)
                  (world_of one_hit None) (fun _ => None) [] "SMTP_SERVER" ["SMTP_PORT"]
                  eq_refl)).
Defined.

(** X13 at work: with the relay named by the .env file the entry point runs,
    the alert is sent and the script prints the outcome. *)
Lemma main_prints_the_outcome_witness :
  exists h1 : history,
    main (rt := ascii_runtime) (world_of one_hit None) sample_dotenv []
    = (Ok tt, (h1 ++ [Printed "Response (status 200): Alert sent successfully"])%list).
Proof.
  destruct (main_prints_the_outcome (rt := ascii_runtime) (world_of one_hit None)
              sample_dotenv [] eq_refl)
    as (body & status & h1 & Hrun & Hmain & _).
  assert (Hbody : fst (monitor_contributions (rt := ascii_runtime)
                         (load_dotenv sample_dotenv (world_of one_hit None)) [])
                  = Ok ("Alert sent successfully", 200)) by reflexivity.
  rewrite Hrun in Hbody. injection Hbody as -> ->.
  exists h1. exact Hmain.
Defined.

(** X16 at work: the sample environment names neither server nor port, so
    the defaults are used, and the two secrets of project [watch] are
    read. *)
Lemma configuration_reads_both_secrets_witness :
  snd (load_configuration (rt := ascii_runtime) (world_of one_hit None) [])
  = [ SecretAccess "projects/watch/secrets/fec-api-key/versions/latest";
      SecretAccess "projects/watch/secrets/smtp-password/versions/latest" ]
  /\ server sample_cfg = "smtp.gmail.com"
  /\ port sample_cfg = 587.
Proof.
  destruct (configuration_reads_both_secrets (rt := ascii_runtime) (world_of one_hit None)
              [] (snd (load_configuration (rt := ascii_runtime) (world_of one_hit None) []))
              "desk@example.org" "secret" sample_cfg eq_refl)
    as (project & Hproject & _ & Hh0 & _ & _ & Hserver & Hport & _).
  change (Some "watch" = Some project) in Hproject. injection Hproject as <-.
  split; [exact Hh0|]. split; [exact Hserver|].
  symmetry. exact (f_equal (fun r => match r with Ok n => n | Raise _ => 0 end) Hport).
Defined.

(** X17 at work: the three requests of a run carry the key of the store. *)
Lemma every_request_carries_the_stored_key_witness :
  request_targets (snd (gather (rt := ascii_runtime) (world_of one_hit None)
                          [sundar; kent; thomas] []))
  = [ (base_url, Some (PStr "secret")); (base_url, Some (PStr "secret"));
      (base_url, Some (PStr "secret")) ].
Proof.
  pose (w := world_of one_hit None).
  pose (g := gather (rt := ascii_runtime) w [sundar; kent; thomas] []).
  assert (Hg : g = (Ok ("desk@example.org", sample_cfg, mapping_of g), snd g))
    by reflexivity.
  destruct (every_request_carries_the_stored_key (rt := ascii_runtime) w
              [sundar; kent; thomas] [] (snd g) "desk@example.org" sample_cfg
              (mapping_of g) Hg)
    as (project & key & Hproject & Hkey & Hsent).
  change (Some "watch" = Some project) in Hproject. injection Hproject as <-.
  change (Ok "secret" = Ok key) in Hkey. injection Hkey as <-. exact Hsent.
Defined.

(** X18 at work: the relay refuses the message. *)
Lemma relay_failure_is_logged_twice_witness :
  printed (snd (monitor_contributions_on (rt := ascii_runtime)
                  (world_of one_hit relay_down) [sundar; kent] []))
  = [ "Error sending email: relay refused";
      "Error in monitor_contributions: relay refused" ].
Proof.
  pose (w := world_of one_hit relay_down).
  pose (g := gather (rt := ascii_runtime) w [sundar; kent] []).
  assert (Hg : g = (Ok ("desk@example.org", sample_cfg, mapping_of g), snd g))
    by reflexivity.
  exact (proj2 (relay_failure_is_logged_twice (rt := ascii_runtime) w [sundar; kent] []
                  (snd g) "desk@example.org" sample_cfg (mapping_of g)
                  (ExternalError "SMTPException" "relay refused") Hg eq_refl eq_refl)).
Defined.
